(** * Research agent: source ranking, confidence capping, search and sessions

    A shallow embedding of the deterministic parts of the research agent
    (src/research/ranker.py, src/research/search.py,
    src/research/extractor.py, src/agent/decision.py, src/analysis/gaps.py,
    src/models/*.py) together with the properties its specification states
    about them.

    Modelling conventions.
    - A Python [str] is a [string] whose characters are code points below
      256, one [ascii] per code point.  [lower], [strip] and the regular
      expression classes follow Python's tables on that range.
    - Python [float] arithmetic is modelled by exact rationals ([Q]); two
      scores are "equal" when they are [Qeq].
    - A naive [datetime] is a count of microseconds ([Z]); [datetime.now()],
      [uuid.uuid4()], the search client, the HTTP fetch and the standard
      library parsers ([urlparse], [strptime], [strftime]) are inputs of the
      functions that call them.
    - An exception is a value of a sum type. *)

From Stdlib Require Import ZArith QArith Qminmax Lqa Lia Ascii String List Bool.
From Stdlib Require Import Sorting.Sorted Sorting.Permutation.
From stdpp Require Import base gmap strings list.

Local Open Scope string_scope.
Local Open Scope Z_scope.

(** ** Python string operations *)

Module PyStr.

Definition code (c : ascii) : N := N_of_ascii c.

(** [str.isspace] and the regex class [\s] on code points below 256. *)
Definition isspace (c : ascii) : bool :=
  let n := code c in
  ((9 <=? n) && (n <=? 13) || (28 <=? n) && (n <=? 32)
   || (n =? 133) || (n =? 160))%N.

(** The regex class [\d] on code points below 256. *)
Definition isdigit (c : ascii) : bool :=
  let n := code c in ((48 <=? n) && (n <=? 57))%N.

Definition isupper (c : ascii) : bool :=
  let n := code c in
  ((65 <=? n) && (n <=? 90) || (192 <=? n) && (n <=? 214)
   || (216 <=? n) && (n <=? 222))%N.

Definition lower_char (c : ascii) : ascii :=
  if isupper c then ascii_of_N (code c + 32) else c.

Fixpoint lower (s : string) : string :=
  match s with
  | EmptyString => EmptyString
  | String c s' => String (lower_char c) (lower s')
  end.

Fixpoint len (s : string) : nat :=
  match s with
  | EmptyString => O
  | String _ s' => S (len s')
  end.

(** [s.startswith(p)] *)
Fixpoint startswith (p s : string) : bool :=
  match p, s with
  | EmptyString, _ => true
  | String _ _, EmptyString => false
  | String a p', String b s' => if Ascii.eqb a b then startswith p' s' else false
  end.

(** [p in s] *)
Fixpoint contains (p s : string) : bool :=
  startswith p s ||
  match s with
  | EmptyString => false
  | String _ s' => contains p s'
  end.

(** [s[:n]] *)
Fixpoint slice_to (n : nat) (s : string) : string :=
  match n, s with
  | O, _ => EmptyString
  | _, EmptyString => EmptyString
  | S n', String c s' => String c (slice_to n' s')
  end.

(** [s[n:]] *)
Fixpoint slice_from (n : nat) (s : string) : string :=
  match n, s with
  | O, _ => s
  | _, EmptyString => EmptyString
  | S n', String _ s' => slice_from n' s'
  end.

Fixpoint lstrip (s : string) : string :=
  match s with
  | EmptyString => EmptyString
  | String c s' => if isspace c then lstrip s' else s
  end.

Fixpoint rev_onto (s acc : string) : string :=
  match s with
  | EmptyString => acc
  | String c s' => rev_onto s' (String c acc)
  end.

Definition reverse (s : string) : string := rev_onto s EmptyString.

Definition rstrip (s : string) : string := reverse (lstrip (reverse s)).

Definition strip (s : string) : string := rstrip (lstrip s).

(** Truth value of a [str]. *)
Definition truthy (s : string) : bool :=
  match s with EmptyString => false | _ => true end.

(** [any(p in s for p in patterns)] *)
Definition any_in (patterns : list string) (s : string) : bool :=
  existsb (fun p => contains p s) patterns.

End PyStr.

(** ** src/models/claim.py *)

Module ClaimModel.

Inductive ClaimType :=
| BENEFIT | RISK | LIMITATION | EXAMPLE | METRIC | PRACTICE | FAILURE | UNKNOWN.

Definition ClaimType_eqb (a b : ClaimType) : bool :=
  match a, b with
  | BENEFIT, BENEFIT | RISK, RISK | LIMITATION, LIMITATION
  | EXAMPLE, EXAMPLE | METRIC, METRIC | PRACTICE, PRACTICE
  | FAILURE, FAILURE | UNKNOWN, UNKNOWN => true
  | _, _ => false
  end.

Record Claim := {
  text : string;
  source_url : string;
  source_title : string;
  claim_type : ClaimType;
  confidence : Q
}.

(** [Claim.is_actionable]: membership in the list literal of the source. *)
Definition is_actionable (c : Claim) : bool :=
  existsb (ClaimType_eqb (claim_type c)) [RISK; LIMITATION; PRACTICE; FAILURE].

Definition count_actionable (claims : list Claim) : nat :=
  List.length (List.filter is_actionable claims).

(** [EvidenceSummary.actionable_ratio] over a claim list. *)
Definition actionable_ratio (all_claims : list Claim) : Q :=
  match all_claims with
  | [] => 0
  | _ => inject_Z (Z.of_nat (count_actionable all_claims))
         / inject_Z (Z.of_nat (List.length all_claims))
  end.

End ClaimModel.

(** ** src/models/source.py *)

Module SourceModel.

Inductive SourceType := NEWS | BLOG | RESEARCH | OFFICIAL | SOCIAL | UNKNOWN_TYPE.

(** Microseconds since the start of the calendar. *)
Definition datetime := Z.

Record Source := {
  url : string;
  title : string;
  snippet : option string;
  sub_question : string;
  published_date : option datetime;
  domain : string;
  source_type : SourceType;
  content : string;
  claims : list ClaimModel.Claim;
  credibility_score : Q
}.

Definition set_content (v : string) (s : Source) : Source :=
  {| url := url s; title := title s; snippet := snippet s;
     sub_question := sub_question s; published_date := published_date s;
     domain := domain s; source_type := source_type s;
     content := v; claims := claims s;
     credibility_score := credibility_score s |}.

Section Construction.
(** [urllib.parse.urlparse(url).netloc]; [None] when it raises. *)
Variable urlparse_netloc : string -> option string.

(** [Source._extract_domain] *)
Definition _extract_domain (u : string) : string :=
  match urlparse_netloc u with
  | Some d => if PyStr.startswith "www." d then PyStr.slice_from 4 d else d
  | None => ""
  end.

(** The dataclass constructor followed by [__post_init__], for the
    keyword arguments [search_single] passes. *)
Definition new_source (u t : string) (sn : option string) (sq : string)
    (pd : option datetime) (st : SourceType) : Source :=
  {| url := u; title := t; snippet := sn; sub_question := sq;
     published_date := pd;
     domain := if PyStr.truthy u then _extract_domain u else "";
     source_type := st; content := ""; claims := [];
     credibility_score := 0 |}.
End Construction.

End SourceModel.

(** ** src/research/ranker.py *)

Module Ranker.
Import ClaimModel.

Local Open Scope Q_scope.

Definition TIER_1_DOMAINS : list string := [
  "engineering.fb.com"; "engineering.linkedin.com"; "netflixtechblog.com";
  "uber.com"; "blog.google"; "aws.amazon.com"; "cloud.google.com";
  "azure.microsoft.com"; "openai.com"; "anthropic.com"; "deepmind.com";
  "stripe.com"; "shopify.engineering"; "github.blog"; "slack.engineering";
  "arxiv.org"; "acm.org"; "ieee.org"; "nature.com"; "science.org";
  "nytimes.com"; "wsj.com"; "economist.com"; "ft.com";
  "gartner.com"; "mckinsey.com"; "hbr.org"; "forrester.com" ]%string.

Definition TIER_2_DOMAINS : list string := [
  "techcrunch.com"; "wired.com"; "arstechnica.com"; "theverge.com";
  "thenewstack.io"; "infoq.com"; "zdnet.com"; "venturebeat.com";
  "stackoverflow.blog"; "dev.to"; "hackernoon.com"; "dzone.com";
  "medium.com" ]%string.

Definition LOW_CREDIBILITY_PATTERNS : list string := [
  "top 10"; "top 5"; "best of";
  "beginners"; "101"; "ultimate guide";
  "seo"; "marketing"; "affiliate" ]%string.

Record SourceScore := {
  source : SourceModel.Source;
  recency_score : Q;
  credibility_score : Q;
  evidence_score : Q;
  claim_score : Q;
  total_score : Q;
  rank : nat;
  justification : string;
  claims : list Claim
}.

Definition set_rank (r : nat) (s : SourceScore) : SourceScore :=
  {| source := source s; recency_score := recency_score s;
     credibility_score := credibility_score s;
     evidence_score := evidence_score s; claim_score := claim_score s;
     total_score := total_score s; rank := r;
     justification := justification s; claims := claims s |}.

(** The aggregate justification text is display output that uses a
    character above code point 255; it is left out of the record. *)
Record RankingResult := {
  ranked_sources : list SourceScore
}.

Definition top_3 (r : RankingResult) : list SourceScore :=
  firstn 3 (ranked_sources r).

Definition WEIGHT_RECENCY : Q := 0.25.
Definition WEIGHT_CREDIBILITY : Q := 0.35.
Definition WEIGHT_EVIDENCE : Q := 0.25.
Definition WEIGHT_CLAIMS : Q := 0.15.

Definition OPTIMAL_AGE_MONTHS : Z := 6.
Definition MAX_AGE_MONTHS : Z := 24.

Definition MICROSECONDS_PER_DAY : Z := 86400000000.

(** [(now - published).days]: [timedelta] normalises towards minus
    infinity, which is [Z.div]. *)
Definition age_days (now published : SourceModel.datetime) : Z :=
  ((now - published) / MICROSECONDS_PER_DAY)%Z.

(** [age.days / 30] *)
Definition age_months (now published : SourceModel.datetime) : Q :=
  inject_Z (age_days now published) / 30.

Definition _score_recency (now : SourceModel.datetime)
    (s : SourceModel.Source) : Q :=
  match SourceModel.published_date s with
  | None => 0.5
  | Some published =>
      let months := age_months now published in
      if Qle_bool months (inject_Z OPTIMAL_AGE_MONTHS) then 1.0
      else if Qle_bool (inject_Z MAX_AGE_MONTHS) months then 0.2
      else
        let range_months := inject_Z (MAX_AGE_MONTHS - OPTIMAL_AGE_MONTHS) in
        let position := (months - inject_Z OPTIMAL_AGE_MONTHS) / range_months in
        1.0 - position * 0.8
  end.

Definition _score_credibility (s : SourceModel.Source) : Q :=
  let domain := PyStr.lower (SourceModel.domain s) in
  let url_lower := PyStr.lower (SourceModel.url s) in
  let title_lower := PyStr.lower (SourceModel.title s) in
  if existsb (fun pattern => PyStr.contains pattern title_lower)
       LOW_CREDIBILITY_PATTERNS then 0.2
  else if existsb (fun tier1 => PyStr.contains tier1 domain
                                || PyStr.contains tier1 url_lower)
            TIER_1_DOMAINS then 1.0
  else if existsb (fun tier2 => PyStr.contains tier2 domain
                                || PyStr.contains tier2 url_lower)
            TIER_2_DOMAINS then 0.7
  else if PyStr.contains "engineering" url_lower
          || PyStr.contains "techblog" url_lower then 0.8
  else if PyStr.contains "blog" url_lower then 0.5
  else 0.4.

(** [re.search(r'\d+%|\d+\s*percent', s)]: some digit is followed
    by a percent sign, or by white space and then the word. *)
Fixpoint has_percentage (s : string) : bool :=
  match s with
  | EmptyString => false
  | String c s' =>
      PyStr.isdigit c
      && (PyStr.startswith "%" s'
          || PyStr.startswith "percent" (PyStr.lstrip s'))
      || has_percentage s'
  end.

Definition has_type (t : ClaimType) (cl : list Claim) : bool :=
  existsb (fun c => ClaimType_eqb (claim_type c) t) cl.

Definition _score_evidence (s : SourceModel.Source) (cl : list Claim) : Q :=
  let score := 0.0 in
  let score := if has_type METRIC cl then score + 0.4 else score in
  let score := if has_type EXAMPLE cl then score + 0.3 else score in
  let score := if has_type FAILURE cl then score + 0.3 else score in
  let content := PyStr.lower (SourceModel.content s) in
  let score := if has_percentage content then score + 0.1 else score in
  let score := if PyStr.contains "case study" content
                  || PyStr.contains "real-world" content
               then score + 0.1 else score in
  Qmin score 1.0.

Definition _score_claims (cl : list Claim) : Q :=
  match cl with
  | [] => 0.3
  | _ =>
      let count := List.length cl in
      let count_score :=
        if (5 <=? count)%nat then 1.0
        else if (3 <=? count)%nat then 0.8
        else 0.5 in
      let actionable := count_actionable cl in
      let actionable_ratio :=
        inject_Z (Z.of_nat actionable) / inject_Z (Z.of_nat (List.length cl)) in
      count_score * 0.6 + actionable_ratio * 0.4
  end.

(** [", ".join(reasons)] *)
Fixpoint join_comma (l : list string) : string :=
  match l with
  | [] => ""
  | [x] => x
  | x :: rest => x ++ ", " ++ join_comma rest
  end.

Definition _source_justification (recency credibility evidence claims_ : Q)
    : string :=
  let r1 := if Qle_bool 0.8 credibility then ["reputable source"%string]
            else if Qle_bool 0.6 credibility then ["known outlet"%string]
            else [] in
  let r2 := if Qle_bool 0.8 recency then ["recent"%string]
            else if Qle_bool recency 0.3 then ["older source"%string]
            else [] in
  let r3 := if Qle_bool 0.7 evidence then ["data-rich"%string] else [] in
  let r4 := if Qle_bool 0.7 claims_ then ["many insights"%string] else [] in
  let reasons := (r1 ++ r2 ++ r3 ++ r4)%list in
  join_comma (match reasons with [] => ["general coverage"%string] | _ => reasons end).

Definition _score_source (now : SourceModel.datetime)
    (s : SourceModel.Source) (cl : list Claim) : SourceScore :=
  let recency := _score_recency now s in
  let credibility := _score_credibility s in
  let evidence := _score_evidence s cl in
  let claim_score_ := _score_claims cl in
  let total :=
    recency * WEIGHT_RECENCY + credibility * WEIGHT_CREDIBILITY
    + evidence * WEIGHT_EVIDENCE + claim_score_ * WEIGHT_CLAIMS in
  {| source := s; recency_score := recency; credibility_score := credibility;
     evidence_score := evidence; claim_score := claim_score_;
     total_score := total; rank := 0;
     justification :=
       _source_justification recency credibility evidence claim_score_;
     claims := cl |}.

(** [list.sort(key=lambda s: s.total_score, reverse=True)]: Python's sort
    is stable, also with [reverse=True]: an element stays in front of
    the later elements whose key is at most its own. *)
Fixpoint insert_desc (x : SourceScore) (l : list SourceScore)
    : list SourceScore :=
  match l with
  | [] => [x]
  | y :: l' =>
      if Qle_bool (total_score y) (total_score x)
      then x :: l
      else y :: insert_desc x l'
  end.

Definition sort_desc (l : list SourceScore) : list SourceScore :=
  fold_right insert_desc [] l.

(** [for i, score in enumerate(l): score.rank = i + 1] *)
Fixpoint assign_ranks (i : nat) (l : list SourceScore) : list SourceScore :=
  match l with
  | [] => []
  | s :: l' => set_rank (i + 1) s :: assign_ranks (S i) l'
  end.

(** [claims_by_source.get(source.url, [])] after
    [claims_by_source = claims_by_source or {}]. *)
Definition claims_for (claims_by_source : option (gmap string (list Claim)))
    (u : string) : list Claim :=
  match claims_by_source with
  | None => []
  | Some m => default [] (m !! u)
  end.

Definition score_all (now : SourceModel.datetime)
    (sources : list SourceModel.Source)
    (claims_by_source : option (gmap string (list Claim)))
    : list SourceScore :=
  List.map (fun s => _score_source now s (claims_for claims_by_source (SourceModel.url s)))
    sources.

Definition rank_sources (now : SourceModel.datetime)
    (sources : list SourceModel.Source)
    (claims_by_source : option (gmap string (list Claim)))
    : RankingResult :=
  let scored_sources := score_all now sources claims_by_source in
  let scored_sources := sort_desc scored_sources in
  {| ranked_sources := assign_ranks 0 scored_sources |}.

End Ranker.

(** ** src/analysis/gaps.py *)

Module Gaps.

Record Unknown := {
  u_description : string;
  importance : string;
  related_claims : list string
}.

Record Conflict := {
  c_description : string;
  claim_a : string;
  claim_b : string;
  source_a : string;
  source_b : string
}.

Record Assumption := {
  a_description : string;
  risk : string
}.

Record GapAnalysisResult := {
  original_question : string;
  unknowns : list Unknown;
  conflicts : list Conflict;
  assumptions : list Assumption
}.

Definition total_gaps (g : GapAnalysisResult) : nat :=
  (List.length (unknowns g) + List.length (conflicts g)
   + List.length (assumptions g))%nat.

Definition has_critical_gaps (g : GapAnalysisResult) : bool :=
  existsb (fun u => String.eqb (importance u) "high") (unknowns g).

End Gaps.

(** ** src/agent/decision.py *)

Module Decision.

(** A value decoded from the JSON text of the LLM. *)
#[local] Unset Elimination Schemes.
Inductive json :=
| JNull
| JBool (b : bool)
| JNum (q : Q)
| JStr (s : string)
| JList (l : list json)
| JDict (l : list (string * json)).
#[local] Set Elimination Schemes.

Inductive exn :=
| AttributeError   (* [.lower()] on a value that is not a [str] *)
| SubscriptError.  (* a slice of a value that has none *)

Record top_source := {
  ts_title : string;
  ts_url : string;
  ts_why : string
}.

Record Recommendation := {
  decision : json;
  confidence : string;
  key_reasons : json;
  trade_offs : json;
  risks : json;
  next_steps : json;
  top_sources : list top_source
}.

(** [v[:n]] *)
Definition slice (n : nat) (v : json) : exn + json :=
  match v with
  | JList l => inr (JList (firstn n l))
  | JStr s => inr (JStr (PyStr.slice_to n s))
  | _ => inl SubscriptError
  end.

(** [response.get(key, dflt)] *)
Definition get (response : gmap string json) (key : string) (dflt : json)
    : json :=
  default dflt (response !! key).

(** [response.get("confidence", "medium").lower()] *)
Definition proposed_confidence (response : gmap string json) : exn + string :=
  match get response "confidence" (JStr "medium") with
  | JStr s => inr (PyStr.lower s)
  | _ => inl AttributeError
  end.

Definition high_importance_unknowns (g : Gaps.GapAnalysisResult) : nat :=
  List.length
    (List.filter (fun u => String.eqb (Gaps.importance u) "high")
       (Gaps.unknowns g)).

(** The block under "Adjust confidence based on gaps". *)
Definition adjust_confidence (confidence_ : string)
    (gaps : option Gaps.GapAnalysisResult) : string :=
  match gaps with
  | Some g =>
      let total_gaps := Gaps.total_gaps g in
      let high_unknowns := high_importance_unknowns g in
      let conflicts := List.length (Gaps.conflicts g) in
      if String.eqb confidence_ "high" then
        if (5 <=? total_gaps)%nat || (2 <=? high_unknowns)%nat
           || (2 <=? conflicts)%nat
        then "medium" else confidence_
      else confidence_
  | None => confidence_
  end.

Definition build_top_sources (ranking : option Ranker.RankingResult)
    : list top_source :=
  match ranking with
  | Some r =>
      List.map (fun score =>
             {| ts_title := SourceModel.title (Ranker.source score);
                ts_url := SourceModel.url (Ranker.source score);
                ts_why := Ranker.justification score |})
        (Ranker.top_3 r)
  | None => []
  end.

Definition bind {A B : Type} (m : exn + A) (f : A -> exn + B) : exn + B :=
  match m with
  | inl e => inl e
  | inr a => f a
  end.

Notation "'let?' x ':=' m 'in' k" := (bind m (fun x => k))
  (at level 10, x name, m at level 100, k at level 200).

(** [DecisionMaker._parse_response]; the evidence argument is unused by
    the source as well. *)
Definition _parse_response (response : gmap string json)
    (ranking : option Ranker.RankingResult)
    (evidence : list ClaimModel.Claim)
    (gaps : option Gaps.GapAnalysisResult) : exn + Recommendation :=
  let top := build_top_sources ranking in
  let? c := proposed_confidence response in
  let c := adjust_confidence c gaps in
  let? kr := slice 6 (get response "key_reasons" (JList [])) in
  let? tr := slice 4 (get response "trade_offs" (JList [])) in
  let? ri := slice 5 (get response "risks" (JList [])) in
  let? ns := slice 5 (get response "next_steps" (JList [])) in
  inr {| decision :=
           get response "decision"
             (JStr "No clear recommendation could be made.");
         confidence := c;
         key_reasons := kr; trade_offs := tr; risks := ri; next_steps := ns;
         top_sources := top |}.

(** The four sliced fields are absent, lists or strings. *)
Definition sliceable (v : json) : bool :=
  match v with JList _ | JStr _ => true | _ => false end.

Definition well_formed (response : gmap string json) : bool :=
  forallb (fun k => sliceable (get response k (JList [])))
    ["key_reasons"; "trade_offs"; "risks"; "next_steps"].

End Decision.

(** ** src/models/session.py *)

Module SessionModel.

Inductive InputValidationError :=
| EmptyInput      (* "Please provide a question. Empty input is not allowed." *)
| TooShort        (* "Question is too short. ..." *)
| TooLong (n : Z).   (* "Question is too long (n chars). ..." *)

Record Session := {
  session_id : string;
  question : string;
  created_at : SourceModel.datetime;
  sub_questions : list string;
  sources : list SourceModel.Source;
  claims : list ClaimModel.Claim;
  gaps : list string;
  clarifications : list string;
  recommendation : option Decision.Recommendation
}.

Definition MIN_QUESTION_LENGTH : Z := 5.
Definition MAX_QUESTION_LENGTH : Z := 10000.

(** [SessionManager.validate_input]; the argument is [None] or a [str]. *)
Definition validate_input (q : option string)
    : InputValidationError + string :=
  match q with
  | None => inl EmptyInput
  | Some raw =>
      let cleaned := PyStr.strip raw in
      let n := Z.of_nat (PyStr.len cleaned) in
      if negb (PyStr.truthy cleaned) then inl EmptyInput
      else if n <? MIN_QUESTION_LENGTH then inl TooShort
      else if MAX_QUESTION_LENGTH <? n then inl (TooLong n)
      else inr cleaned
  end.

Section Manager.
(** [datetime.strftime("%Y_%m_%d")] *)
Variable strftime_ymd : SourceModel.datetime -> string.

(** [generate_session_id], given the clock and [uuid.uuid4().hex]. *)
Definition generate_session_id (now : SourceModel.datetime)
    (uuid_hex : string) : string :=
  "run_" ++ strftime_ymd now ++ "_" ++ PyStr.slice_to 8 uuid_hex.

(** [create_session] on the manager's [sessions] dict: the result and
    the dict afterwards.  [now_id] is the clock read by
    [generate_session_id], [now_created] the one read by the
    [created_at] default. *)
Definition create_session (sessions : gmap string Session)
    (q : option string) (now_id now_created : SourceModel.datetime)
    (uuid_hex : string)
    : (InputValidationError + Session) * gmap string Session :=
  match validate_input q with
  | inl e => (inl e, sessions)
  | inr cleaned_question =>
      let sid := generate_session_id now_id uuid_hex in
      let session :=
        {| session_id := sid; question := cleaned_question;
           created_at := now_created;
           sub_questions := []; sources := []; claims := []; gaps := [];
           clarifications := []; recommendation := None |} in
      (inr session, <[sid := session]> sessions)
  end.

Definition get_session (sessions : gmap string Session) (sid : string)
    : option Session :=
  sessions !! sid.

Definition session_count (sessions : gmap string Session) : nat :=
  size sessions.
End Manager.

End SessionModel.

(** ** src/research/search.py *)

Module Search.
Import SourceModel.

Record SearchConfig := {
  max_results_per_query : Z;
  max_total_sources : Z;
  min_reputable_per_question : Z;
  include_domains : list string;
  exclude_domains : list string;
  reputable_domains : list string;
  low_quality_title_patterns : list string
}.

(** [SearchConfig()] after [__post_init__]. *)
Definition default_config : SearchConfig := {|
  max_results_per_query := 7;
  max_total_sources := 30;
  min_reputable_per_question := 2;
  include_domains := [];
  exclude_domains := [
    "pinterest.com"; "quora.com"; "reddit.com"; "facebook.com";
    "twitter.com"; "x.com"; "medium.com" ];
  reputable_domains := [
    "engineering.fb.com"; "engineering.linkedin.com";
    "netflixtechblog.com"; "uber.com/blog"; "blog.google";
    "aws.amazon.com"; "cloud.google.com"; "azure.microsoft.com";
    "openai.com"; "anthropic.com"; "deepmind.com";
    "stripe.com"; "shopify.engineering"; "github.blog";
    "techcrunch.com"; "wired.com"; "arstechnica.com";
    "theverge.com"; "thenewstack.io"; "infoq.com";
    "arxiv.org"; "acm.org"; "ieee.org";
    "hbr.org"; "mckinsey.com"; "gartner.com";
    "stackoverflow.blog"; "martinfowler.com"; "danluu.com" ];
  low_quality_title_patterns := [
    "top 10"; "top 5"; "top 20";
    "beginner's guide"; "beginners guide";
    "ultimate guide"; "complete guide";
    "everything you need to know";
    "what is"; "introduction to";
    "for dummies"; "101";
    "you won't believe" ]
|}.

(** One raw search hit: a dict whose values are strings or [None]. *)
Definition raw_result := gmap string (option string).

Record SearchResults := {
  sr_sub_question : string;
  sr_sources : list Source
}.

Record DiscoveryResults := {
  results_by_question : gmap string SearchResults;
  all_sources : list Source
}.

(** [l[:n]] for an [int] bound, which may be negative. *)
Definition py_slice_to {A : Type} (n : Z) (l : list A) : list A :=
  if 0 <=? n then firstn (Z.to_nat n) l
  else firstn (List.length l - Z.to_nat (- n)) l.

(** [result.get(k1, result.get(k2, dflt))] *)
Definition get2 (r : raw_result) (k1 k2 : string) (dflt : option string)
    : option string :=
  match r !! k1 with
  | Some v => v
  | None => default dflt (r !! k2)
  end.

(** Truth value of a [str] or [None]. *)
Definition truthy_opt (v : option string) : bool :=
  match v with Some s => PyStr.truthy s | None => false end.

Section Searcher.
Variable urlparse_netloc : string -> option string.
(** [datetime.strptime(text, fmt)]; [None] when it raises. *)
Variable strptime : string -> string -> option datetime.
(** [str(datetime.now().year)] *)
Variable current_year : string.
(** The active search client: its state and its [search] method,
    which answers [None] when it raises. *)
Variable client : Type.
Variable client_search :
  client -> string -> Z -> option (list raw_result) * client.
Variable config : SearchConfig.

Definition _enhance_query (sub_question : string) : string :=
  let enhancers := ["production"; "real-world"; current_year] in
  match List.find (fun enhancer =>
                negb (PyStr.contains (PyStr.lower enhancer)
                        (PyStr.lower sub_question))) enhancers with
  | Some enhancer => sub_question ++ " " ++ enhancer
  | None => sub_question
  end.

Definition date_formats : list string :=
  ["%Y-%m-%d"; "%Y-%m-%dT%H:%M:%S"; "%Y-%m-%dT%H:%M:%SZ";
   "%B %d, %Y"; "%b %d, %Y"].

Fixpoint first_parse (text : string) (formats : list string)
    : option datetime :=
  match formats with
  | [] => None
  | fmt :: rest =>
      match strptime text fmt with
      | Some d => Some d
      | None => first_parse text rest
      end
  end.

Definition _parse_date (date_str : option string) : option datetime :=
  match date_str with
  | None => None
  | Some s =>
      if PyStr.truthy s then first_parse (PyStr.slice_to 19 s) date_formats
      else None
  end.

Definition _is_valid_source (u t : option string) : bool :=
  if negb (truthy_opt u) || negb (truthy_opt t) then false
  else
    let domain := _extract_domain urlparse_netloc (default "" u) in
    if existsb (fun excluded => PyStr.contains excluded domain)
         (exclude_domains config) then false
    else
      let title_lower := PyStr.lower (default "" t) in
      if existsb (fun pattern => PyStr.contains pattern title_lower)
           (low_quality_title_patterns config) then false
      else true.

Definition _is_reputable_source (u : string) : bool :=
  let domain := PyStr.lower (_extract_domain urlparse_netloc u) in
  let url_lower := PyStr.lower u in
  if existsb (fun reputable => PyStr.contains reputable domain
                               || PyStr.contains reputable url_lower)
       (reputable_domains config) then true
  else if PyStr.contains "engineering" url_lower
          || PyStr.contains "techblog" url_lower then true
  else false.

Definition _detect_source_type (domain u : string) : SourceType :=
  let domain_lower := PyStr.lower domain in
  let url_lower := PyStr.lower u in
  let news_domains :=
    ["nytimes"; "bbc"; "reuters"; "techcrunch"; "wired"; "theverge";
     "arstechnica"] in
  if existsb (fun nd => PyStr.contains nd domain_lower) news_domains
  then NEWS
  else if PyStr.contains "arxiv" domain_lower
          || PyStr.contains "acm.org" domain_lower
          || PyStr.contains "ieee" domain_lower then RESEARCH
  else if PyStr.contains "engineering" url_lower
          || PyStr.contains "blog" url_lower then BLOG
  else if PyStr.contains "docs." domain_lower
          || PyStr.contains "documentation" url_lower then OFFICIAL
  else UNKNOWN_TYPE.

(** The body of the loop over [raw_results]: the two lists after one
    more result. *)
Definition classify (sub_question : string)
    (acc : list Source * list Source) (result : raw_result)
    : list Source * list Source :=
  let u := get2 result "url" "link" (Some "") in
  let t := default (Some "") (result !! "title") in
  let sn := get2 result "content" "snippet" (Some "") in
  let date_str := get2 result "published_date" "date" None in
  if negb (_is_valid_source u t) then acc
  else
    let u := default "" u in
    let src :=
      new_source urlparse_netloc u (default "" t) sn sub_question
        (_parse_date date_str)
        (_detect_source_type (_extract_domain urlparse_netloc u) u) in
    if _is_reputable_source u
    then ((fst acc ++ [src])%list, snd acc)
    else (fst acc, (snd acc ++ [src])%list).

Definition search_single (c : client) (sub_question : string)
    : option SearchResults * client :=
  let enhanced_query := _enhance_query sub_question in
  match client_search c enhanced_query (max_results_per_query config) with
  | (None, c') => (None, c')
  | (Some raw_results, c') =>
      let '(reputable_sources, other_sources) :=
        fold_left (classify sub_question) raw_results ([], []) in
      let sources := (reputable_sources ++ other_sources)%list in
      let sources := firstn 5 sources in
      (Some {| sr_sub_question := sub_question; sr_sources := sources |}, c')
  end.

(** The deduplication loop of [search_all] over one result list: the
    state is [seen_urls], [unique_sources] and [all_sources]. *)
Definition dedup_step
    (st : gset string * list Source * list Source) (src : Source)
    : gset string * list Source * list Source :=
  let '(seen_urls, unique_sources, all) := st in
  if decide (url src ∈ seen_urls) then st
  else ({[url src]} ∪ seen_urls, (unique_sources ++ [src])%list,
        (all ++ [src])%list).

Fixpoint search_loop (sub_questions : list string) (c : client)
    (seen_urls : gset string) (by_question : gmap string SearchResults)
    (all : list Source)
    : option (gmap string SearchResults * list Source) * client :=
  match sub_questions with
  | [] => (Some (by_question, all), c)
  | sq :: rest =>
      match search_single c sq with
      | (None, c') => (None, c')
      | (Some search_results, c') =>
          let '(seen_urls', unique_sources, all') :=
            fold_left dedup_step (sr_sources search_results)
              (seen_urls, [], all) in
          let by_question' :=
            <[sq := {| sr_sub_question := sr_sub_question search_results;
                       sr_sources := unique_sources |}]> by_question in
          if max_total_sources config <=? Z.of_nat (List.length all')
          then (Some (by_question', all'), c')
          else search_loop rest c' seen_urls' by_question' all'
      end
  end.

Definition search_all (c : client) (sub_questions : list string)
    : option DiscoveryResults * client :=
  match search_loop sub_questions c ∅ ∅ [] with
  | (None, c') => (None, c')
  | (Some (by_question, all), c') =>
      let all :=
        if max_total_sources config <? Z.of_nat (List.length all)
        then py_slice_to (max_total_sources config) all
        else all in
      (Some {| results_by_question := by_question; all_sources := all |}, c')
  end.
End Searcher.

End Search.

(** ** src/research/extractor.py *)

Module Extractor.
Import SourceModel.

(** What [self.client.get(url)] followed by [raise_for_status()] does. *)
Inductive fetch_outcome :=
| FetchOk (html : string)
| FetchTimeout
| FetchStatus (status_code : Z)
| FetchFailed (message : string).

Inductive extraction_error :=
| Insufficient          (* "Extraction returned insufficient content" *)
| TimedOut              (* "Request timed out" *)
| HTTP (status_code : Z)
| Other (message : string).

Record ExtractionResult := {
  er_source : Source;
  success : bool;
  er_content : string;
  content_length : Z;
  preview : string;
  error : option extraction_error;
  used_fallback : bool
}.

(** The attributes of a [Source] object. *)
Inductive field :=
| F_url | F_title | F_snippet | F_sub_question | F_published_date
| F_domain | F_source_type | F_content | F_claims | F_credibility_score.

Definition field_eqb (a b : field) : bool :=
  match a, b with
  | F_url, F_url | F_title, F_title | F_snippet, F_snippet
  | F_sub_question, F_sub_question | F_published_date, F_published_date
  | F_domain, F_domain | F_source_type, F_source_type
  | F_content, F_content | F_claims, F_claims
  | F_credibility_score, F_credibility_score => true
  | _, _ => false
  end.

Definition zlen (s : string) : Z := Z.of_nat (PyStr.len s).

(** [s[:n]] for an [int] bound. *)
Definition slice_to_z (n : Z) (s : string) : string :=
  if 0 <=? n then PyStr.slice_to (Z.to_nat n) s
  else PyStr.slice_to (PyStr.len s - Z.to_nat (- n)) s.

(** [s.rfind(c)] for a single character: the last index, or -1. *)
Fixpoint rfind_from (c : ascii) (s : string) (i best : Z) : Z :=
  match s with
  | EmptyString => best
  | String a s' => rfind_from c s' (i + 1) (if Ascii.eqb a c then i else best)
  end.

Definition rfind (c : ascii) (s : string) : Z := rfind_from c s 0 (-1).

Section WithExtractor.
Variable max_content_length : Z.
Variable preview_length : Z.
(** The HTTP client. *)
Variable http_get : string -> fetch_outcome.
(** [_extract_text(html, url)]: the text, [None], or the message of the
    exception it raised. *)
Variable _extract_text : string -> string -> string + option string.

Definition _truncate (content_ : string) : string :=
  if zlen content_ <=? max_content_length then content_
  else
    let truncated := slice_to_z max_content_length content_ in
    let last_period := rfind "."%char truncated in
    if negb (Qle_bool (inject_Z last_period)
               (inject_Z max_content_length * 0.8)%Q)
    then slice_to_z (last_period + 1) truncated
    else truncated ++ "...".

Definition _make_preview (content_ : string) : string :=
  let preview_ := slice_to_z preview_length content_ in
  if preview_length <? zlen content_ then
    let last_space := rfind " "%char preview_ in
    let preview_ :=
      if negb (Qle_bool (inject_Z last_space)
                 (inject_Z preview_length * 0.7)%Q)
      then slice_to_z last_space preview_ else preview_ in
    preview_ ++ "..."
  else preview_.

(** Every function on a [Source] object answers the object as it is
    afterwards, the result, and the attributes it assigned. *)
Definition _fallback_to_snippet (src : Source) (err : extraction_error)
    : Source * ExtractionResult * list field :=
  let snippet_ := match snippet src with
                  | Some s => if PyStr.truthy s then s else ""
                  | None => ""
                  end in
  if PyStr.truthy snippet_ then
    let src' := set_content snippet_ src in
    (src',
     {| er_source := src'; success := true; er_content := snippet_;
        content_length := zlen snippet_;
        preview := slice_to_z preview_length snippet_;
        error := Some err; used_fallback := true |},
     [F_content])
  else
    (src,
     {| er_source := src; success := false; er_content := "";
        content_length := 0; preview := ""; error := Some err;
        used_fallback := true |},
     []).

Definition extract_single (src : Source)
    : Source * ExtractionResult * list field :=
  match http_get (url src) with
  | FetchOk html =>
      match _extract_text html (url src) with
      | inr (Some content_) =>
          if PyStr.truthy content_ && (100 <? zlen content_) then
            let content_ := _truncate content_ in
            let preview_ := _make_preview content_ in
            let src' := set_content content_ src in
            (src',
             {| er_source := src'; success := true; er_content := content_;
                content_length := zlen content_; preview := preview_;
                error := None; used_fallback := false |},
             [F_content])
          else _fallback_to_snippet src Insufficient
      | inr None => _fallback_to_snippet src Insufficient
      | inl message => _fallback_to_snippet src (Other (PyStr.slice_to 50 message))
      end
  | FetchTimeout => _fallback_to_snippet src TimedOut
  | FetchStatus code => _fallback_to_snippet src (HTTP code)
  | FetchFailed message =>
      _fallback_to_snippet src (Other (PyStr.slice_to 50 message))
  end.

(** [extract_all]: every source is submitted once; [completion] is the
    order in which the worker pool hands the results back, as indices
    into [sources]. *)
Definition extract_all (sources : list Source) (completion : list nat)
    : list Source * list ExtractionResult * list (nat * field) :=
  let done := List.map extract_single sources in
  (List.map (fun d => fst (fst d)) done,
   omap (fun i => (fun d => snd (fst d)) <$> done !! i) completion,
   List.concat
     (imap (fun i d => List.map (fun f => (i, f)) (snd d)) done)).
End WithExtractor.

End Extractor.

(** ** src/ui/pipeline.py: the stages that handle [Source] objects *)

Module Pipeline.
Import SourceModel.

Inductive stage := Extraction | ClaimExtraction | Ranking.

Definition stage_eqb (a b : stage) : bool :=
  match a, b with
  | Extraction, Extraction | ClaimExtraction, ClaimExtraction
  | Ranking, Ranking => true
  | _, _ => false
  end.

(** One assignment to an attribute of the [Source] object number
    [w_object] of the list the search stage produced. *)
Record write := {
  w_stage : stage;
  w_object : nat;
  w_field : Extractor.field
}.

Record SourceClaims := {
  sc_source_url : string;
  sc_source_title : string;
  sc_claims : list ClaimModel.Claim;
  extraction_error : option string
}.

Record EvidenceSummary := {
  all_claims : list ClaimModel.Claim;
  claims_by_source : list SourceClaims
}.

Record run := {
  sources_after : list Source;
  extraction : list Extractor.ExtractionResult;
  evidence : EvidenceSummary;
  ranking : Ranker.RankingResult;
  writes : list write
}.

Section Stages.
Variable max_content_length : Z.
Variable preview_length : Z.
Variable http_get : string -> Extractor.fetch_outcome.
Variable _extract_text : string -> string -> string + option string.
(** [ClaimExtractor.extract_from_source]: it reads the source and asks
    the LLM; it assigns no attribute of the source. *)
Variable extract_from_source : Source -> SourceClaims.

(** [ClaimExtractor.extract_all] *)
Definition claims_extract_all (sources : list Source) : EvidenceSummary :=
  let per_source :=
    List.map extract_from_source
      (List.filter (fun s => PyStr.truthy (content s)) sources) in
  {| all_claims := List.concat (List.map sc_claims per_source);
     claims_by_source := per_source |}.

(** [for sc in evidence.claims_by_source:
       claims_by_source[sc.source_url] = sc.claims] *)
Definition claims_dict (ev : EvidenceSummary)
    : gmap string (list ClaimModel.Claim) :=
  fold_left (fun m sc => <[sc_source_url sc := sc_claims sc]> m)
    (claims_by_source ev) ∅.

(** [run_full_pipeline] from the extraction stage to the ranking stage.
    The extraction stage is the only one with assignments to [Source]
    attributes; the later stages read the objects it leaves. *)
Definition run_stages (now : datetime) (sources : list Source)
    (completion : list nat) : run :=
  let '(heap, results, assigned) :=
    Extractor.extract_all max_content_length preview_length http_get
      _extract_text sources completion in
  let sources_with_content :=
    List.map Extractor.er_source
      (List.filter (fun r => Extractor.success r
                        && (100 <? Extractor.content_length r)) results) in
  let ev := claims_extract_all (firstn 10 sources_with_content) in
  let rk := Ranker.rank_sources now (firstn 10 sources_with_content)
              (Some (claims_dict ev)) in
  {| sources_after := heap; extraction := results; evidence := ev;
     ranking := rk;
     writes := List.map (fun w => {| w_stage := Extraction;
                                w_object := fst w; w_field := snd w |})
                 assigned |}.
End Stages.

Definition count_writes (i : nat) (f : Extractor.field) (log : list write)
    : nat :=
  List.length
    (List.filter (fun w => Nat.eqb (w_object w) i
                      && Extractor.field_eqb (w_field w) f) log).

Definition count_writes_in (st : stage) (i : nat) (f : Extractor.field)
    (log : list write) : nat :=
  List.length
    (List.filter (fun w => stage_eqb (w_stage w) st && Nat.eqb (w_object w) i
                      && Extractor.field_eqb (w_field w) f) log).

End Pipeline.

(** ** Statements of the specification, and inputs used to exercise them *)

Module Spec.

(** The condition under which a "high" confidence is capped. *)
Definition cap_condition (g : Gaps.GapAnalysisResult) : Prop :=
  (5 <= Gaps.total_gaps g)%nat
  \/ (2 <= Decision.high_importance_unknowns g)%nat
  \/ (2 <= List.length (Gaps.conflicts g))%nat.

Definition unknown_of (imp : string) : Gaps.Unknown :=
  {| Gaps.u_description := "missing long-term data";
     Gaps.importance := imp; Gaps.related_claims := [] |}.

(** total_gaps = 5, no high-importance unknown, no conflict *)
Definition gaps_five : Gaps.GapAnalysisResult :=
  {| Gaps.original_question := "Should we adopt AI agents?";
     Gaps.unknowns := List.repeat (unknown_of "low") 5;
     Gaps.conflicts := []; Gaps.assumptions := [] |}.

(** total_gaps = 1, no high-importance unknown, no conflict *)
Definition gaps_one : Gaps.GapAnalysisResult :=
  {| Gaps.original_question := "Should we adopt AI agents?";
     Gaps.unknowns := [unknown_of "medium"];
     Gaps.conflicts := []; Gaps.assumptions := [] |}.

Definition response_high : gmap string Decision.json :=
  <["confidence" := Decision.JStr "high"]>
    (<["decision" := Decision.JStr "Adopt in controlled settings."]> ∅).

(** Descending order of [total_score]. *)
Definition desc (a b : Ranker.SourceScore) : Prop :=
  (Ranker.total_score b <= Ranker.total_score a)%Q.

(** The scored sources whose total score is [q]. *)
Definition with_score (q : Q) (l : list Ranker.SourceScore)
    : list Ranker.SourceScore :=
  List.filter (fun s => Qeq_bool (Ranker.total_score s) q) l.

(** A scored source as it was before the rank was assigned. *)
Definition unranked (l : list Ranker.SourceScore) : list Ranker.SourceScore :=
  List.map (Ranker.set_rank 0) l.

(** The conditions of the credibility cascade. *)
Definition low_quality_title (s : SourceModel.Source) : bool :=
  existsb (fun p => PyStr.contains p (PyStr.lower (SourceModel.title s)))
    Ranker.LOW_CREDIBILITY_PATTERNS.

Definition matches_tier (tier : list string) (s : SourceModel.Source) : bool :=
  existsb (fun d => PyStr.contains d (PyStr.lower (SourceModel.domain s))
                    || PyStr.contains d (PyStr.lower (SourceModel.url s)))
    tier.

Definition url_has (w : string) (s : SourceModel.Source) : bool :=
  PyStr.contains w (PyStr.lower (SourceModel.url s)).

(** The count-based base score of the claim density, as the
    specification words it. *)
Definition count_score (n : nat) : Q :=
  if (5 <=? n)%nat then 1.0%Q
  else if (3 <=? n)%nat && (n <=? 4)%nat then 0.8%Q
  else 0.5%Q.

Definition claim_of (t : ClaimModel.ClaimType) : ClaimModel.Claim :=
  {| ClaimModel.text := "Agents need human oversight in production.";
     ClaimModel.source_url := "https://arxiv.org/abs/1";
     ClaimModel.source_title := "A study";
     ClaimModel.claim_type := t;
     ClaimModel.confidence := 0.8%Q |}.

Definition source_of (u t d : string) (pd : option SourceModel.datetime)
    : SourceModel.Source :=
  {| SourceModel.url := u; SourceModel.title := t;
     SourceModel.snippet := Some "snippet"; SourceModel.sub_question := "q";
     SourceModel.published_date := pd; SourceModel.domain := d;
     SourceModel.source_type := SourceModel.UNKNOWN_TYPE;
     SourceModel.content := ""; SourceModel.claims := [];
     SourceModel.credibility_score := 0%Q |}.

(** A clock reading [d] days after the start of the calendar. *)
Definition day (d : Z) : SourceModel.datetime :=
  d * Ranker.MICROSECONDS_PER_DAY.

(** The length of a question after white space is stripped. *)
Definition stripped_length (q : string) : Z :=
  Z.of_nat (PyStr.len (PyStr.strip q)).

(** Empty, too short or too long after stripping. *)
Definition rejected (q : string) : Prop :=
  stripped_length q = 0
  \/ stripped_length q < SessionModel.MIN_QUESTION_LENGTH
  \/ SessionModel.MAX_QUESTION_LENGTH < stripped_length q.

Definition fixed_date (_ : SourceModel.datetime) : string := "2025_12_28".

(** The loop invariant of [search_all]: the urls collected so far are
    pairwise different and all recorded in [seen_urls]. *)
Definition urls_tracked (seen_urls : gset string)
    (all : list SourceModel.Source) : Prop :=
  NoDup (List.map SourceModel.url all)
  /\ forall s, In s all -> SourceModel.url s ∈ seen_urls.

(** The sources that satisfy [rep] come before all the others. *)
Definition reputable_first (rep : SourceModel.Source -> bool)
    (l : list SourceModel.Source) : Prop :=
  exists l1 l2, l = (l1 ++ l2)%list
                /\ Forall (fun s => rep s = true) l1
                /\ Forall (fun s => rep s = false) l2.

(** A search hit with the keys the providers use. *)
Definition raw_hit (u t : string) : Search.raw_result :=
  <["url" := Some u]> (<["title" := Some t]>
    (<["content" := Some "Our team deployed agents."]> ∅)).

(** A search client that answers every query with the same hits. *)
Definition fixed_client (hits : list Search.raw_result)
    (c : unit) (query : string) (max_results : Z)
    : option (list Search.raw_result) * unit :=
  (Some hits, c).

(** A stand-in for [urlparse]: the text between "://" and the next
    slash is not computed; every test url lives on one host. *)
Definition test_netloc (u : string) : option string := Some "example.org".

Definition test_strptime (text fmt : string) : option SourceModel.datetime :=
  None.

Definition seven_hits : list Search.raw_result :=
  [ raw_hit "https://example.org/a1" "Agents in production";
    raw_hit "https://example.org/engineering/a2" "Guardrails for agents";
    raw_hit "https://example.org/a3" "Failure modes of agents";
    raw_hit "https://example.org/a4" "Agents at scale";
    raw_hit "https://example.org/techblog/a5" "Operating agents";
    raw_hit "https://example.org/a6" "Cost of agents";
    raw_hit "https://example.org/a7" "Agents and oversight" ].

(** The extraction stage has something to store for a source: the page
    was fetched and gave more than 100 characters of text, or the search
    snippet is not empty. *)
Definition content_available (http_get : string -> Extractor.fetch_outcome)
    (_extract_text : string -> string -> string + option string)
    (s : SourceModel.Source) : bool :=
  match http_get (SourceModel.url s) with
  | Extractor.FetchOk html =>
      match _extract_text html (SourceModel.url s) with
      | inr (Some c) => PyStr.truthy c && (100 <? Extractor.zlen c)
      | _ => false
      end
  | _ => false
  end
  || Search.truthy_opt (SourceModel.snippet s).

(** [s'] is [s] up to the content attribute. *)
Definition same_but_content (s s' : SourceModel.Source) : Prop :=
  s' = SourceModel.set_content (SourceModel.content s') s.

(** The write-once statement as the specification has it: over the run,
    content is assigned exactly once by the extraction stage and
    credibility_score exactly once by the ranking stage, for every
    source. *)
Definition set_exactly_once (sources : list SourceModel.Source)
    (r : Pipeline.run) : Prop :=
  forall i, (i < List.length sources)%nat ->
    Pipeline.count_writes_in Pipeline.Extraction i Extractor.F_content
      (Pipeline.writes r) = 1%nat
    /\ Pipeline.count_writes_in Pipeline.Ranking i
         Extractor.F_credibility_score (Pipeline.writes r) = 1%nat.

(** A source whose page cannot be fetched and that has no snippet. *)
Definition bare_source : SourceModel.Source :=
  {| SourceModel.url := "https://example.org/a1";
     SourceModel.title := "Agents in production";
     SourceModel.snippet := Some ""; SourceModel.sub_question := "q";
     SourceModel.published_date := None; SourceModel.domain := "example.org";
     SourceModel.source_type := SourceModel.UNKNOWN_TYPE;
     SourceModel.content := ""; SourceModel.claims := [];
     SourceModel.credibility_score := 0%Q |}.

(** A source whose snippet is longer than 100 characters. *)
Definition long_snippet_source : SourceModel.Source :=
  {| SourceModel.url := "https://example.org/a3";
     SourceModel.title := "Failure modes of agents";
     SourceModel.snippet :=
       Some ("Our team deployed AI systems and learned key lessons about "
             ++ "reliability, guardrails, and human oversight requirements.");
     SourceModel.sub_question := "q";
     SourceModel.published_date := None; SourceModel.domain := "example.org";
     SourceModel.source_type := SourceModel.UNKNOWN_TYPE;
     SourceModel.content := ""; SourceModel.claims := [];
     SourceModel.credibility_score := 0%Q |}.

Definition always_timeout (u : string) : Extractor.fetch_outcome :=
  Extractor.FetchTimeout.

Definition no_text (html u : string) : string + option string := inr None.

Definition no_claims (s : SourceModel.Source) : Pipeline.SourceClaims :=
  {| Pipeline.sc_source_url := SourceModel.url s;
     Pipeline.sc_source_title := SourceModel.title s;
     Pipeline.sc_claims := [];
     Pipeline.extraction_error := None |}.

End Spec.

(** ** Further statements about the ranker *)

Module RankSpec.

(** The piecewise recency curve as a function of the age in months. *)
Definition recency_of_months (m : Q) : Q :=
  if Qle_bool m 6 then 1.0%Q
  else if Qle_bool 24 m then 0.2%Q
  else (1.0 - (m - 6) / 18 * 0.8)%Q.

(** No label threshold of [_source_justification] is crossed. *)
Definition no_label (recency credibility evidence claims_ : Q) : bool :=
  negb (Qle_bool 0.6 credibility) && negb (Qle_bool 0.8 recency)
  && negb (Qle_bool recency 0.3) && negb (Qle_bool 0.7 evidence)
  && negb (Qle_bool 0.7 claims_).

End RankSpec.

(** ** Further statements about the search *)

Module SearchSpec.

(** What the filters of [search_single] guarantee of a source that has
    just been built from a search hit. *)
Definition acceptable (urlparse_netloc : string -> option string)
    (config : Search.SearchConfig) (s : SourceModel.Source) : Prop :=
  SourceModel.url s <> ""
  /\ SourceModel.title s <> ""
  /\ SourceModel.domain s
     = SourceModel._extract_domain urlparse_netloc (SourceModel.url s)
  /\ Forall (fun excluded =>
               PyStr.contains excluded (SourceModel.domain s) = false)
       (Search.exclude_domains config)
  /\ Forall (fun pattern =>
               PyStr.contains pattern (PyStr.lower (SourceModel.title s))
               = false)
       (Search.low_quality_title_patterns config)
  /\ SourceModel.content s = "".

(** The suffixes [_enhance_query] may append. *)
Definition enhancer_suffixes (current_year : string) : list string :=
  [""; " production"; " real-world"; " " ++ current_year].

(** A search client that fails on every query. *)
Definition failing_client (c : unit) (query : string) (max_results : Z)
    : option (list Search.raw_result) * unit :=
  (None, c).

End SearchSpec.

(** ** Inputs for the search statements *)

Module SearchInputs.

Definition two_questions : list string :=
  ["How are AI agents used in production?";
   "What failures are reported with AI agents?"].

(** The discovery of the two questions on the fixed client, or an empty
    one if the search raised. *)
Definition discovered : Search.DiscoveryResults :=
  default {| Search.results_by_question := ∅; Search.all_sources := [] |}
    (fst (Search.search_all Spec.test_netloc Spec.test_strptime "2026" unit
            (Spec.fixed_client Spec.seven_hits) Search.default_config tt
            two_questions)).

Definition first_entry : Search.SearchResults :=
  default {| Search.sr_sub_question := ""; Search.sr_sources := [] |}
    (Search.results_by_question discovered
       !! "How are AI agents used in production?").

End SearchInputs.

(** ** src/research/extractor.py: the summary of [extract_all] *)

Module ExtractorSummary.

Record ExtractionSummary := {
  results : list Extractor.ExtractionResult;
  total : Z;
  successful : Z;
  failed : Z;
  fallback_count : Z
}.

(** [sum(1 for r in results if p(r))] *)
Definition count_if (p : Extractor.ExtractionResult -> bool)
    (l : list Extractor.ExtractionResult) : Z :=
  Z.of_nat (List.length (List.filter p l)).

(** The statistics at the end of [extract_all]. *)
Definition summarize (rs : list Extractor.ExtractionResult)
    : ExtractionSummary :=
  let successful_ := count_if Extractor.success rs in
  let fallback_count_ := count_if Extractor.used_fallback rs in
  {| results := rs;
     total := Z.of_nat (List.length rs);
     successful := successful_;
     failed := Z.of_nat (List.length rs) - successful_;
     fallback_count := fallback_count_ |}.

(** [ExtractionSummary.success_rate] *)
Definition success_rate (s : ExtractionSummary) : Q :=
  if 0 <? total s then (inject_Z (successful s) / inject_Z (total s))%Q
  else 0.0%Q.

Section WithExtractor.
Variable max_content_length : Z.
Variable preview_length : Z.
Variable http_get : string -> Extractor.fetch_outcome.
Variable _extract_text : string -> string -> string + option string.

(** [extract_all] with its summary. *)
Definition extract_all_summary (sources : list SourceModel.Source)
    (completion : list nat) : ExtractionSummary :=
  summarize
    (snd (fst (Extractor.extract_all max_content_length preview_length
                 http_get _extract_text sources completion))).
End WithExtractor.

End ExtractorSummary.

(** ** src/analysis/gaps.py and src/agent/decision.py: the fallbacks *)

Module DecisionMaker.
Import Decision.

(** [GapDetector._empty_result] *)
Definition _empty_result (question : string) : Gaps.GapAnalysisResult :=
  {| Gaps.original_question := question;
     Gaps.unknowns :=
       [ {| Gaps.u_description := "Insufficient evidence gathered to analyze";
            Gaps.importance := "high"; Gaps.related_claims := [] |};
         {| Gaps.u_description := "No sources could be processed for claims";
            Gaps.importance := "high"; Gaps.related_claims := [] |};
         {| Gaps.u_description :=
              "Research may need to be repeated with different sources";
            Gaps.importance := "medium"; Gaps.related_claims := [] |} ];
     Gaps.conflicts := [];
     Gaps.assumptions := [] |}.

(** The recommendation of the [except] branch of [make_recommendation],
    for the text [str(e)] of the exception. *)
Definition fallback_recommendation (message : string) : Recommendation :=
  {| decision :=
       JStr ("Unable to produce recommendation: " ++ PyStr.slice_to 50 message);
     confidence := "low";
     key_reasons := JList [JStr "Error occurred during analysis"];
     trade_offs := JList [];
     risks := JList [JStr "Analysis incomplete"];
     next_steps :=
       JList [JStr "Retry the research"; JStr "Consult additional sources"];
     top_sources := [] |}.

Section Make.
(** [str(e)] for an exception raised inside [_parse_response]. *)
Variable exn_text : exn -> string.

(** [DecisionMaker.make_recommendation].  [llm] is what
    [self.llm.complete_json] does with the prompt: it raises (the text of
    the exception) or answers a dict. *)
Definition make_recommendation (llm : string + gmap string json)
    (evidence : list ClaimModel.Claim) (gaps : Gaps.GapAnalysisResult)
    (ranking : option Ranker.RankingResult) : Recommendation :=
  match llm with
  | inl message => fallback_recommendation message
  | inr response =>
      match _parse_response response ranking evidence (Some gaps) with
      | inr r => r
      | inl e => fallback_recommendation (exn_text e)
      end
  end.
End Make.

(** The number of items of a list or characters of a string. *)
Definition json_size (v : json) : nat :=
  match v with
  | JList l => List.length l
  | JStr s => PyStr.len s
  | _ => 0%nat
  end.

Definition exn_name (e : exn) : string :=
  match e with
  | AttributeError => "AttributeError"
  | SubscriptError => "TypeError"
  end.

Definition response_bad_confidence : gmap string json :=
  <["confidence" := JNum 0.9%Q]> Spec.response_high.

(** A response with eight key reasons and neither decision nor
    confidence. *)
Definition response_long : gmap string json :=
  <["key_reasons" := JList (List.repeat (JStr "Evidence is mixed.") 8)]> ∅.

Definition parsed_long : Recommendation :=
  match _parse_response response_long None [] (Some Spec.gaps_one) with
  | inr r => r
  | inl _ => fallback_recommendation ""
  end.

End DecisionMaker.

(** ** src/models/claim.py: grouping by type *)

Module ClaimGroups.
Import ClaimModel.

(** [ClaimType.value] *)
Definition value (t : ClaimType) : string :=
  match t with
  | BENEFIT => "benefit" | RISK => "risk" | LIMITATION => "limitation"
  | EXAMPLE => "example" | METRIC => "metric" | PRACTICE => "practice"
  | FAILURE => "failure" | UNKNOWN => "unknown"
  end.

(** A dict keyed by claim type, in insertion order. *)
Definition groups := list (ClaimType * list Claim).

(** [result[t]], if the key is there. *)
Fixpoint group_of (t : ClaimType) (result : groups) : option (list Claim) :=
  match result with
  | [] => None
  | (t', l) :: rest => if ClaimType_eqb t t' then Some l else group_of t rest
  end.

(** [if t not in result: result[t] = []] and then [result[t].append(c)] *)
Fixpoint add_claim (t : ClaimType) (c : Claim) (result : groups) : groups :=
  match result with
  | [] => [(t, [c])]
  | (t', l) :: rest =>
      if ClaimType_eqb t t' then (t', (l ++ [c])%list) :: rest
      else (t', l) :: add_claim t c rest
  end.

(** [EvidenceSummary.claims_by_type] *)
Definition claims_by_type (all_claims : list Claim) : groups :=
  fold_left (fun result claim => add_claim (claim_type claim) claim result)
    all_claims [].

(** The [by_type] entry of [summary_stats]: the type names with their
    counts. *)
Definition by_type_counts (all_claims : list Claim) : list (string * nat) :=
  List.map (fun g => (value (fst g), List.length (snd g)))
    (claims_by_type all_claims).

Definition of_type (t : ClaimType) (l : list Claim) : list Claim :=
  List.filter (fun c => ClaimType_eqb (claim_type c) t) l.

End ClaimGroups.

(** ** src/research/claims.py *)

Module ClaimExtractor.
Import Decision ClaimModel.

Inductive error :=
| NotAString     (* AttributeError: [.strip()], [.lower()] or [.get()] *)
| NotIterable.   (* TypeError: [for raw in raw_claims] *)

Definition GENERIC_PATTERNS : list string := [
  "is transforming"; "is revolutionizing"; "is changing the world";
  "has the potential"; "is becoming increasingly"; "is gaining traction";
  "is on the rise"; "is here to stay"; "is the future";
  "companies are adopting"; "organizations are using";
  "the industry is moving" ].

Definition MIN_CLAIMS : nat := 3.
Definition MAX_CLAIMS : nat := 7.
Definition MIN_CLAIM_LENGTH : nat := 20.
Definition MAX_CONTENT_FOR_LLM : Z := 8000.

(** [d.get(key, dflt)] on a decoded JSON object: of two members with the
    same name the later one counts. *)
Fixpoint dict_get (key : string) (members : list (string * json))
    (dflt : json) : json :=
  match members with
  | [] => dflt
  | (k, v) :: rest => dict_get key rest (if String.eqb k key then v else dflt)
  end.

(** The keys of a decoded JSON object, each once, in the order of their
    first appearance. *)
Fixpoint dict_keys (members : list (string * json)) (seen : list string)
    : list string :=
  match members with
  | [] => []
  | (k, _) :: rest =>
      if existsb (String.eqb k) seen then dict_keys rest seen
      else k :: dict_keys rest (k :: seen)
  end.

Fixpoint characters (s : string) : list json :=
  match s with
  | EmptyString => []
  | String c s' => JStr (String c EmptyString) :: characters s'
  end.

(** What a [for] loop over a decoded JSON value visits. *)
Definition py_iter (v : json) : error + list json :=
  match v with
  | JList l => inr l
  | JStr s => inr (characters s)
  | JDict members => inr (List.map JStr (dict_keys members []))
  | _ => inl NotIterable
  end.

(** [_parse_claim_type] *)
Definition _parse_claim_type (type_str : string) : ClaimType :=
  if String.eqb type_str "benefit" then BENEFIT
  else if String.eqb type_str "risk" then RISK
  else if String.eqb type_str "limitation" then LIMITATION
  else if String.eqb type_str "example" then EXAMPLE
  else if String.eqb type_str "metric" then METRIC
  else if String.eqb type_str "practice" then PRACTICE
  else if String.eqb type_str "failure" then FAILURE
  else UNKNOWN.

(** [_parse_claims] *)
Fixpoint _parse_claims (raw_claims : list json) (src : SourceModel.Source)
    : error + list Claim :=
  match raw_claims with
  | [] => inr []
  | JDict members :: rest =>
      match dict_get "text" members (JStr "") with
      | JStr t =>
          let text_ := PyStr.strip t in
          match dict_get "type" members (JStr "unknown") with
          | JStr ty =>
              let type_str := PyStr.lower ty in
              match _parse_claims rest src with
              | inl e => inl e
              | inr claims =>
                  if negb (PyStr.truthy text_)
                     || (PyStr.len text_ <? MIN_CLAIM_LENGTH)%nat
                  then inr claims
                  else inr ({| text := text_;
                               source_url := SourceModel.url src;
                               source_title := SourceModel.title src;
                               claim_type := _parse_claim_type type_str;
                               confidence := 0.8%Q |} :: claims)
              end
          | _ => inl NotAString
          end
      | _ => inl NotAString
      end
  | _ :: rest => _parse_claims rest src
  end.

Definition is_generic (c : Claim) : bool :=
  existsb (fun pattern => PyStr.contains pattern (PyStr.lower (text c)))
    GENERIC_PATTERNS.

(** [_filter_claims] *)
Definition _filter_claims (claims : list Claim) : list Claim :=
  firstn MAX_CLAIMS (List.filter (fun c => negb (is_generic c)) claims).

(** The part of [extract_from_source] between the LLM call and the
    [return] of the [try] block. *)
Definition claims_of_response (response : json) (src : SourceModel.Source)
    : error + list Claim :=
  match response with
  | JDict members =>
      match py_iter (dict_get "claims" members (JList [])) with
      | inl e => inl e
      | inr raw_claims =>
          match _parse_claims raw_claims src with
          | inl e => inl e
          | inr claims => inr (_filter_claims claims)
          end
      end
  | _ => inl NotAString
  end.

Section Extract.
(** [self.llm.complete_json] on the prompt made of the title, the url and
    the content: it raises (the text of the exception) or answers a
    decoded JSON value. *)
Variable llm : string -> string -> string -> string + json.
(** [str(e)] for an exception raised while parsing. *)
Variable error_text : error -> string.

Definition source_claims (src : SourceModel.Source) (claims : list Claim)
    (err : option string) : Pipeline.SourceClaims :=
  {| Pipeline.sc_source_url := SourceModel.url src;
     Pipeline.sc_source_title := SourceModel.title src;
     Pipeline.sc_claims := claims;
     Pipeline.extraction_error := err |}.

(** The content as it goes into the prompt. *)
Definition prompt_content (content_ : string) : string :=
  if MAX_CONTENT_FOR_LLM <? Extractor.zlen content_
  then PyStr.slice_to (Z.to_nat MAX_CONTENT_FOR_LLM) content_ ++ "..."
  else content_.

(** [extract_from_source] *)
Definition extract_from_source (src : SourceModel.Source)
    : Pipeline.SourceClaims :=
  let content_ := SourceModel.content src in
  if negb (PyStr.truthy content_) || (Extractor.zlen content_ <? 100)
  then source_claims src [] (Some "Insufficient content")
  else
    match llm (SourceModel.title src) (SourceModel.url src)
            (prompt_content content_) with
    | inl message => source_claims src [] (Some (PyStr.slice_to 100 message))
    | inr response =>
        match claims_of_response response src with
        | inr claims => source_claims src claims None
        | inl e =>
            source_claims src [] (Some (PyStr.slice_to 100 (error_text e)))
        end
    end.

(** [ClaimExtractor.extract_all] *)
Definition extract_all (sources : list SourceModel.Source)
    : Pipeline.EvidenceSummary :=
  Pipeline.claims_extract_all extract_from_source sources.
End Extract.

End ClaimExtractor.

(** ** Statements about the extracted claims *)

Module ClaimSpec.
Import ClaimModel.

(** A dict entry exists for the non-empty lists only. *)
Definition non_empty (l : list Claim) : option (list Claim) :=
  match l with
  | [] => None
  | _ => Some l
  end.

(** What [extract_from_source] guarantees of a claim of source [src]. *)
Definition well_formed_claim (src : SourceModel.Source) (c : Claim) : Prop :=
  source_url c = SourceModel.url src
  /\ source_title c = SourceModel.title src
  /\ PyStr.strip (text c) = text c
  /\ (ClaimExtractor.MIN_CLAIM_LENGTH <= PyStr.len (text c))%nat
  /\ confidence c = 0.8%Q
  /\ ClaimExtractor.is_generic c = false.

(** An LLM that raises on every prompt. *)
Definition llm_down (title_ url_ content_ : string) : string + Decision.json :=
  inl "Connection error.".

(** An LLM that answers every prompt with the same three claims, one of
    them generic, one too short. *)
Definition llm_three (title_ url_ content_ : string) : string + Decision.json :=
  inr (Decision.JDict
    [("claims", Decision.JList
       [ Decision.JDict
           [("text", Decision.JStr "  Agents failed in 12% of the support tickets. ");
            ("type", Decision.JStr "Failure")];
         Decision.JDict
           [("text", Decision.JStr "AI is transforming every industry today.");
            ("type", Decision.JStr "benefit")];
         Decision.JDict
           [("text", Decision.JStr "Too short");
            ("type", Decision.JStr "risk")] ])]).

(** The source with the long snippet, after the extraction stored the
    snippet as its content. *)
Definition set_content_long : SourceModel.Source :=
  SourceModel.set_content
    (default "" (SourceModel.snippet Spec.long_snippet_source))
    Spec.long_snippet_source.

Definition error_name (e : ClaimExtractor.error) : string :=
  match e with
  | ClaimExtractor.NotAString => "AttributeError"
  | ClaimExtractor.NotIterable => "TypeError"
  end.

End ClaimSpec.

(** ** Statements about the evidence of a run *)

Module EvidenceSpec.

(** The sources [run_full_pipeline] hands to the claim extractor and to
    the ranker: [sources_with_content[:10]]. *)
Definition ranker_input (max_content_length preview_length : Z)
    (http_get : string -> Extractor.fetch_outcome)
    (_extract_text : string -> string -> string + option string)
    (sources : list SourceModel.Source) (completion : list nat)
    : list SourceModel.Source :=
  firstn 10
    (List.map Extractor.er_source
       (List.filter
          (fun r => Extractor.success r && (100 <? Extractor.content_length r))
          (snd (fst (Extractor.extract_all max_content_length preview_length
                       http_get _extract_text sources completion))))).

End EvidenceSpec.

(** ** src/agent/planner.py *)

Module Planner.
Import Decision.

Definition MIN_SUB_QUESTIONS : nat := 4.
Definition MAX_SUB_QUESTIONS : nat := 7.

Record DecompositionResult := {
  original_question : string;
  sub_questions : list string
}.

(** Why [decompose] raised: the LLM call did (with the text of its
    exception), or the answer could not be read. *)
Inductive failure :=
| Raised (message : string)
| Unreadable (e : ClaimExtractor.error).

(** [s.lstrip(chars)] for the characters that satisfy [p] *)
Fixpoint lstrip_where (p : ascii -> bool) (s : string) : string :=
  match s with
  | EmptyString => EmptyString
  | String c s' => if p c then lstrip_where p s' else s
  end.

(** [s.strip("?")] *)
Definition strip_question_marks (s : string) : string :=
  PyStr.reverse
    (lstrip_where (Ascii.eqb "?")
       (PyStr.reverse (lstrip_where (Ascii.eqb "?") s))).

Definition vague_patterns : list string :=
  ["tell me more"; "explain"; "what is"; "define"].

Section WithStr.
(** The builtin [str] on a decoded JSON value; on a string it is the
    string itself. *)
Variable py_str : json -> string.

(** The body of the loop of [_validate_and_clean]: [seen] and [cleaned]
    after one more item. *)
Definition clean_step (st : gset string * list string) (sq : json)
    : gset string * list string :=
  let '(seen, cleaned) := st in
  let sq_str := PyStr.strip (py_str sq) in
  if negb (PyStr.truthy sq_str) then st
  else
    let sq_lower := PyStr.lower sq_str in
    if decide (sq_lower ∈ seen) then st
    else ({[sq_lower]} ∪ seen, (cleaned ++ [sq_str])%list).

(** [_validate_and_clean] *)
Definition _validate_and_clean (items : list json) : list string :=
  firstn MAX_SUB_QUESTIONS (snd (fold_left clean_step items (∅, []))).

(** [decompose], given what the LLM call does. *)
Definition decompose (llm : string + json) (question : string)
    : failure + DecompositionResult :=
  match llm with
  | inl message => inl (Raised message)
  | inr (JDict members) =>
      match ClaimExtractor.py_iter
              (ClaimExtractor.dict_get "sub_questions" members (JList [])) with
      | inl e => inl (Unreadable e)
      | inr items =>
          inr {| original_question := question;
                 sub_questions := _validate_and_clean items |}
      end
  | inr _ => inl (Unreadable ClaimExtractor.NotAString)
  end.

(** The test a sub-question has to pass in
    [decompose_with_quality_check]. *)
Definition passes_quality (question sq : string) : bool :=
  let sq_lower := PyStr.lower sq in
  negb (existsb (fun pattern => PyStr.contains pattern sq_lower)
          vague_patterns)
  && negb (String.eqb (strip_question_marks sq_lower)
             (strip_question_marks (PyStr.lower question))).

(** [decompose_with_quality_check] *)
Definition decompose_with_quality_check (llm : string + json)
    (question : string) : failure + DecompositionResult :=
  match decompose llm question with
  | inl e => inl e
  | inr result =>
      let quality_filtered :=
        List.filter (passes_quality question) (sub_questions result) in
      if (MIN_SUB_QUESTIONS <=? List.length quality_filtered)%nat
      then inr {| original_question := original_question result;
                  sub_questions := quality_filtered |}
      else inr result
  end.
End WithStr.

(** [str] on the strings; the other values do not occur in the examples. *)
Definition str_of_string (v : json) : string :=
  match v with
  | JStr s => s
  | _ => ""
  end.

Definition answer_with (items : list string) : string + json :=
  inr (JDict [("sub_questions", JList (List.map JStr items))]).

End Planner.

(** ** Gap-aware confidence capping *)

Module DecisionProps.
Import Decision Spec.

Lemma cap_condition_test (g : Gaps.GapAnalysisResult) :
  cap_condition g <->
  ((5 <=? Gaps.total_gaps g)%nat || (2 <=? high_importance_unknowns g)%nat
   || (2 <=? List.length (Gaps.conflicts g))%nat) = true.
Proof.
  unfold cap_condition.
  rewrite !orb_true_iff, !Nat.leb_le. tauto.
Qed.

Lemma adjust_high_capped (g : Gaps.GapAnalysisResult) :
  cap_condition g -> adjust_confidence "high" (Some g) = "medium".
Proof.
  intros H. apply cap_condition_test in H.
  unfold adjust_confidence. cbn [String.eqb Ascii.eqb].
  change (("high" =? "high")%string) with true. cbv iota.
  now rewrite H.
Qed.

Lemma adjust_high_kept (g : Gaps.GapAnalysisResult) :
  ~ cap_condition g -> adjust_confidence "high" (Some g) = "high".
Proof.
  intros H. rewrite cap_condition_test in H.
  apply not_true_is_false in H.
  unfold adjust_confidence.
  change (("high" =? "high")%string) with true. cbv iota.
  now rewrite H.
Qed.

Lemma adjust_not_high (c : string) (g : option Gaps.GapAnalysisResult) :
  c <> "high" -> adjust_confidence c g = c.
Proof.
  intros H. unfold adjust_confidence. destruct g as [g|]; [|reflexivity].
  destruct (String.eqb_spec c "high") as [->|_]; [contradiction | reflexivity].
Qed.

Lemma slice_sliceable (n : nat) (v : json) :
  sliceable v = true -> exists w, slice n v = inr w.
Proof. destruct v; simpl; intros H; try discriminate; eauto. Qed.

(** With well-formed list fields the parse returns a recommendation. *)
Lemma parse_response_returns (response : gmap string json)
    (ranking : option Ranker.RankingResult) (evidence : list ClaimModel.Claim)
    (gaps : option Gaps.GapAnalysisResult) (tier : string) :
  proposed_confidence response = inr tier ->
  well_formed response = true ->
  exists r, _parse_response response ranking evidence gaps = inr r.
Proof.
  intros Hc Hw. unfold well_formed in Hw. simpl in Hw.
  repeat (apply andb_prop in Hw; destruct Hw as [? Hw]).
  unfold _parse_response. rewrite Hc. simpl.
  repeat match goal with
  | H : sliceable ?v = true |- context [slice ?n ?v] =>
      let E := fresh in
      destruct (slice_sliceable n v H) as [? E]; rewrite E; clear H E; simpl
  end.
  eexists. reflexivity.
Qed.

(** Whatever it returns carries the adjusted proposal. *)
Lemma parse_response_confidence (response : gmap string json)
    (ranking : option Ranker.RankingResult) (evidence : list ClaimModel.Claim)
    (gaps : option Gaps.GapAnalysisResult) (tier : string)
    (r : Recommendation) :
  proposed_confidence response = inr tier ->
  _parse_response response ranking evidence gaps = inr r ->
  confidence r = adjust_confidence tier gaps.
Proof.
  intros Hc. unfold _parse_response. rewrite Hc. simpl.
  destruct (slice 6 _) as [e|kr]; simpl; [discriminate|].
  destruct (slice 4 _) as [e|tr]; simpl; [discriminate|].
  destruct (slice 5 (get response "risks" _)) as [e|ri]; simpl; [discriminate|].
  destruct (slice 5 _) as [e|ns]; simpl; [discriminate|].
  intros [= <-]. reflexivity.
Qed.

(** C1. Gap-aware confidence capping: let the proposed tier be the
    lowercased confidence of the response.  When the response's list
    fields can be sliced, [_parse_response] returns a recommendation; and
    in every recommendation it returns, a proposed "high" has become
    "medium" if the total gap count is at least 5, or at least 2 unknowns
    have importance "high", or there are at least 2 conflicts, and is
    still "high" otherwise, while a proposed "low" or "medium" is
    unchanged. *)
Theorem confidence_capping (response : gmap string json)
    (ranking : option Ranker.RankingResult) (evidence : list ClaimModel.Claim)
    (g : Gaps.GapAnalysisResult) (tier : string) :
  proposed_confidence response = inr tier ->
  (well_formed response = true ->
   exists r, _parse_response response ranking evidence (Some g) = inr r)
  /\ (forall r,
        _parse_response response ranking evidence (Some g) = inr r ->
        (tier = "high" -> cap_condition g -> confidence r = "medium")
        /\ (tier = "high" -> ~ cap_condition g -> confidence r = "high")
        /\ (tier = "low" \/ tier = "medium" -> confidence r = tier)).
Proof.
  intros Hc. split.
  - now apply parse_response_returns with (tier := tier).
  - intros r Hr.
    rewrite (parse_response_confidence _ _ _ _ _ _ Hc Hr).
    split; [|split].
    + intros -> H. now apply adjust_high_capped.
    + intros -> H. now apply adjust_high_kept.
    + intros [-> | ->]; apply adjust_not_high; discriminate.
Qed.

Lemma confidence_capping_witness :
  (well_formed response_high = true ->
   exists r, _parse_response response_high None [] (Some gaps_five) = inr r)
  /\ (forall r,
        _parse_response response_high None [] (Some gaps_five) = inr r ->
        ("high" = "high" -> cap_condition gaps_five -> confidence r = "medium")
        /\ ("high" = "high" -> ~ cap_condition gaps_five ->
            confidence r = "high")
        /\ ("high" = "low" \/ "high" = "medium" -> confidence r = "high")).
Proof.
  apply (confidence_capping response_high None [] gaps_five "high").
  vm_compute. reflexivity.
Defined.

(** The two cases the specification lists. *)
Example capped_at_five_gaps :
  bind (_parse_response response_high None [] (Some gaps_five))
    (fun r => inr (confidence r)) = inr "medium".
Proof. vm_compute. reflexivity. Qed.

Example high_kept_at_one_gap :
  bind (_parse_response response_high None [] (Some gaps_one))
    (fun r => inr (confidence r)) = inr "high".
Proof. vm_compute. reflexivity. Qed.

End DecisionProps.

(** ** Ranking order *)

Module RankerOrder.
Import Ranker Spec.
Local Open Scope Q_scope.

Lemma Qle_bool_false (a b : Q) : Qle_bool a b = false -> b < a.
Proof.
  intros H. apply Qnot_le_lt. intros Hle.
  apply Qle_bool_iff in Hle. congruence.
Qed.

Lemma insert_desc_perm (x : SourceScore) (l : list SourceScore) :
  Permutation (insert_desc x l) (x :: l).
Proof.
  induction l as [|y l IH]; simpl.
  - reflexivity.
  - destruct (Qle_bool (total_score y) (total_score x)).
    + reflexivity.
    + rewrite IH. apply perm_swap.
Qed.

Lemma insert_desc_sorted (x : SourceScore) (l : list SourceScore) :
  StronglySorted desc l -> StronglySorted desc (insert_desc x l).
Proof.
  induction l as [|y l IH]; simpl; intros Hs.
  - repeat constructor.
  - apply StronglySorted_inv in Hs. destruct Hs as [Hl Hy].
    destruct (Qle_bool (total_score y) (total_score x)) eqn:E.
    + apply Qle_bool_iff in E.
      constructor; [constructor; assumption|].
      constructor; [exact E|].
      eapply List.Forall_impl; [|exact Hy].
      intros z Hz. unfold desc in *. now apply Qle_trans with (total_score y).
    + apply Qle_bool_false in E.
      constructor; [now apply IH|].
      eapply Permutation_Forall; [symmetry; apply insert_desc_perm|].
      constructor; [|exact Hy].
      unfold desc. now apply Qlt_le_weak.
Qed.

Lemma insert_desc_stable (q : Q) (x : SourceScore) (l : list SourceScore) :
  with_score q (insert_desc x l) = with_score q (x :: l).
Proof.
  unfold with_score.
  induction l as [|y l IH]; simpl; [reflexivity|].
  destruct (Qle_bool (total_score y) (total_score x)) eqn:E; [reflexivity|].
  simpl. rewrite IH. simpl.
  destruct (Qeq_bool (total_score y) q) eqn:Ey;
    destruct (Qeq_bool (total_score x) q) eqn:Ex; try reflexivity.
  apply Qeq_bool_iff in Ey, Ex. apply Qle_bool_false in E.
  rewrite Ey, Ex in E. now apply Qlt_irrefl in E.
Qed.

Lemma sort_desc_perm (l : list SourceScore) : Permutation (sort_desc l) l.
Proof.
  induction l as [|x l IH]; simpl; [reflexivity|].
  rewrite insert_desc_perm. now constructor.
Qed.

Lemma sort_desc_sorted (l : list SourceScore) : StronglySorted desc (sort_desc l).
Proof.
  induction l as [|x l IH]; simpl; [constructor|].
  now apply insert_desc_sorted.
Qed.

Lemma sort_desc_stable (q : Q) (l : list SourceScore) :
  with_score q (sort_desc l) = with_score q l.
Proof.
  induction l as [|x l IH]; simpl; [reflexivity|].
  rewrite insert_desc_stable. unfold with_score in *. simpl.
  now rewrite IH.
Qed.

(** Assigning ranks touches the [rank] field only. *)
Lemma assign_ranks_unranked (i : nat) (l : list SourceScore) :
  unranked (assign_ranks i l) = unranked l.
Proof.
  revert i. induction l as [|s l IH]; intros i; simpl; [reflexivity|].
  unfold unranked in *. simpl. now rewrite IH.
Qed.

Lemma assign_ranks_rank (i : nat) (l : list SourceScore) :
  List.map rank (assign_ranks i l) = seq (i + 1) (List.length l).
Proof.
  revert i. induction l as [|s l IH]; intros i; simpl; [reflexivity|].
  rewrite IH. now replace (S i + 1)%nat with (S (i + 1)) by lia.
Qed.

Lemma assign_ranks_sorted (i : nat) (l : list SourceScore) :
  StronglySorted desc l -> StronglySorted desc (assign_ranks i l).
Proof.
  revert i. induction l as [|s l IH]; intros i Hs; simpl; [constructor|].
  apply StronglySorted_inv in Hs. destruct Hs as [Hl Hs].
  constructor; [now apply IH|].
  clear IH Hl. revert Hs. generalize (S i).
  induction l as [|t l IH]; intros j Hs; simpl; constructor.
  - apply Forall_inv in Hs. exact Hs.
  - apply IH. now apply Forall_inv_tail in Hs.
Qed.

Lemma with_score_unranked (q : Q) (l : list SourceScore) :
  with_score q (unranked l) = unranked (with_score q l).
Proof.
  unfold with_score, unranked.
  induction l as [|s l IH]; simpl; [reflexivity|].
  destruct (Qeq_bool (total_score s) q); simpl; now rewrite IH.
Qed.

Lemma unranked_fresh (l : list SourceScore) :
  Forall (fun s => rank s = 0%nat) l -> unranked l = l.
Proof.
  unfold unranked. induction 1 as [|s l Hs _ IH]; simpl; [reflexivity|].
  rewrite IH. f_equal. destruct s; simpl in *; subst; reflexivity.
Qed.

Lemma score_all_fresh now sources cbs :
  Forall (fun s => rank s = 0%nat) (score_all now sources cbs).
Proof.
  unfold score_all.
  induction sources as [|src rest IH]; simpl; constructor;
    [reflexivity | exact IH].
Qed.

Lemma score_all_length now sources cbs :
  List.length (score_all now sources cbs) = List.length sources.
Proof. unfold score_all. apply length_map. Qed.

(** C2. Ranking output order: the ranked list is in descending order
    of total score; apart from the rank field it is a rearrangement of
    the scored input in which the sources of any one total score keep
    their input order; and the ranks are 1, 2, ..., n in output order. *)
Theorem rank_sources_order (now : SourceModel.datetime)
    (sources : list SourceModel.Source)
    (cbs : option (gmap string (list ClaimModel.Claim))) :
  let ranked := ranked_sources (rank_sources now sources cbs) in
  let scored := score_all now sources cbs in
  StronglySorted desc ranked
  /\ Permutation (unranked ranked) scored
  /\ (forall q, unranked (with_score q ranked) = with_score q scored)
  /\ List.map rank ranked = seq 1 (List.length sources).
Proof.
  intros ranked scored. subst ranked. unfold rank_sources. simpl. fold scored.
  split; [|split; [|split]].
  - apply assign_ranks_sorted, sort_desc_sorted.
  - rewrite assign_ranks_unranked.
    rewrite <- (unranked_fresh scored) at 2 by apply score_all_fresh.
    unfold unranked. apply Permutation_map, sort_desc_perm.
  - intros q. rewrite <- with_score_unranked, assign_ranks_unranked.
    rewrite with_score_unranked, sort_desc_stable.
    rewrite <- with_score_unranked.
    now rewrite (unranked_fresh scored) by apply score_all_fresh.
  - rewrite assign_ranks_rank. simpl. f_equal.
    rewrite (Permutation_length (sort_desc_perm scored)).
    apply score_all_length.
Qed.

End RankerOrder.

(** ** The four sub-scores *)

Module RankerScores.
Import ClaimModel Ranker Spec.
Local Open Scope Q_scope.

(** C3. Recency sub-score: 0.5 without a publication date; otherwise,
    with the age in months being the whole days of age divided by 30,
    1.0 up to 6 months, 0.2 from 24 months on, and
    1.0 - 0.8 * (age_months - 6) / 18 in between, which is 0.6 at 15
    months. *)
Theorem recency_score (now : SourceModel.datetime) (s : SourceModel.Source) :
  (SourceModel.published_date s = None -> _score_recency now s = 0.5)
  /\ (forall p, SourceModel.published_date s = Some p ->
        let m := age_months now p in
        (m <= 6 -> _score_recency now s = 1.0)
        /\ (24 <= m -> _score_recency now s = 0.2)
        /\ (6 < m -> m < 24 ->
            _score_recency now s == 1.0 - 0.8 * (m - 6) / 18)
        /\ (m == 15 -> _score_recency now s == 0.6)).
Proof.
  unfold _score_recency. split.
  - intros ->. reflexivity.
  - intros p ->. cbv zeta.
    change (inject_Z OPTIMAL_AGE_MONTHS) with 6.
    change (inject_Z MAX_AGE_MONTHS) with 24.
    change (inject_Z (MAX_AGE_MONTHS - OPTIMAL_AGE_MONTHS)) with 18.
    generalize (age_months now p). intros m.
    destruct (Qle_bool m 6) eqn:E6.
    + apply Qle_bool_iff in E6.
      repeat split; intros; try reflexivity; exfalso; lra.
    + apply RankerOrder.Qle_bool_false in E6.
      destruct (Qle_bool 24 m) eqn:E24.
      * apply Qle_bool_iff in E24.
        repeat split; intros; try reflexivity; exfalso; lra.
      * apply RankerOrder.Qle_bool_false in E24.
        repeat split; intros; try (exfalso; lra).
        -- field.
        -- rewrite H. reflexivity.
Qed.

Lemma recency_score_witness :
  _score_recency (day 450)
    (source_of "https://example.org/a" "A report" "example.org" (Some (day 0)))
  == 0.6.
Proof.
  apply (proj2 (recency_score (day 450)
                  (source_of "https://example.org/a" "A report" "example.org"
                     (Some (day 0)))) (day 0) eq_refl).
  vm_compute. reflexivity.
Defined.

(** The boundary ages the specification lists. *)
Example recency_at_six_months :
  _score_recency (day 180)
    (source_of "https://example.org/a" "A report" "example.org" (Some (day 0)))
  = 1.0.
Proof. reflexivity. Qed.

Example recency_at_24_months :
  _score_recency (day 720)
    (source_of "https://example.org/a" "A report" "example.org" (Some (day 0)))
  = 0.2.
Proof. reflexivity. Qed.

(** C4. Credibility sub-score, first match wins: a low-quality pattern
    in the lowercased title gives 0.2 whatever the domain; otherwise a
    tier-1 entry in the domain or url gives 1.0; otherwise a tier-2
    entry gives 0.7; otherwise "engineering" or "techblog" in the url
    gives 0.8; otherwise "blog" in the url gives 0.5; otherwise 0.4. *)
Theorem credibility_first_match (s : SourceModel.Source) :
  (low_quality_title s = true -> _score_credibility s = 0.2)
  /\ (PyStr.contains "top 10" (PyStr.lower (SourceModel.title s)) = true ->
      _score_credibility s = 0.2)
  /\ (low_quality_title s = false ->
      (matches_tier TIER_1_DOMAINS s = true -> _score_credibility s = 1.0)
      /\ (matches_tier TIER_1_DOMAINS s = false ->
          (matches_tier TIER_2_DOMAINS s = true -> _score_credibility s = 0.7)
          /\ (matches_tier TIER_2_DOMAINS s = false ->
              (url_has "engineering" s || url_has "techblog" s = true ->
               _score_credibility s = 0.8)
              /\ (url_has "engineering" s || url_has "techblog" s = false ->
                  (url_has "blog" s = true -> _score_credibility s = 0.5)
                  /\ (url_has "blog" s = false ->
                      _score_credibility s = 0.4))))).
Proof.
  assert (Hlow : low_quality_title s = true -> _score_credibility s = 0.2).
  { unfold low_quality_title, _score_credibility. cbv zeta.
    intros ->. reflexivity. }
  split; [exact Hlow|]. split.
  - intros H. apply Hlow. unfold low_quality_title.
    apply existsb_exists. exists "top 10"%string. split; [|exact H].
    unfold LOW_CREDIBILITY_PATTERNS. simpl. now left.
  - unfold low_quality_title, matches_tier, url_has, _score_credibility.
    cbv zeta. intros ->. split; [intros ->; reflexivity|].
    intros ->. split; [intros ->; reflexivity|].
    intros ->. split; [intros ->; reflexivity|].
    intros ->. split; intros ->; reflexivity.
Qed.

Lemma credibility_first_match_witness :
  _score_credibility
    (source_of "https://arxiv.org/abs/1" "Top 10 AI Agents" "arxiv.org" None)
  = 0.2.
Proof.
  apply (proj1 (proj2 (credibility_first_match
           (source_of "https://arxiv.org/abs/1" "Top 10 AI Agents"
              "arxiv.org" None)))).
  vm_compute. reflexivity.
Defined.

Example credibility_tier_1 :
  _score_credibility
    (source_of "https://arxiv.org/abs/1" "Agents in production" "arxiv.org" None)
  = 1.0.
Proof. vm_compute. reflexivity. Qed.

Example credibility_unknown_domain :
  _score_credibility
    (source_of "https://example.org/a" "Agents in production" "example.org" None)
  = 0.4.
Proof. vm_compute. reflexivity. Qed.

End RankerScores.

(** ** Claim density and the bounds of the scores *)

Module ScoreProps.
Import ClaimModel Ranker Spec.
Local Open Scope Q_scope.

Lemma is_actionable_iff (c : Claim) :
  is_actionable c = true
  <-> claim_type c = RISK \/ claim_type c = LIMITATION
      \/ claim_type c = PRACTICE \/ claim_type c = FAILURE.
Proof.
  unfold is_actionable. destruct (claim_type c); simpl;
    split; intros H; try reflexivity; try discriminate; try tauto;
    repeat (destruct H as [H|H]; try discriminate).
Qed.

Lemma count_actionable_le (cl : list Claim) :
  (count_actionable cl <= List.length cl)%nat.
Proof. unfold count_actionable. apply List.filter_length_le. Qed.

Lemma count_score_agrees (n : nat) :
  (if (5 <=? n)%nat then 1.0 else if (3 <=? n)%nat then 0.8 else 0.5)
  = count_score n.
Proof.
  unfold count_score.
  destruct (5 <=? n)%nat eqn:E5; [reflexivity|].
  destruct (3 <=? n)%nat eqn:E3; [|reflexivity].
  apply Nat.leb_gt in E5.
  assert (E4 : (n <=? 4)%nat = true) by (apply Nat.leb_le; lia).
  now rewrite E4.
Qed.

(** C5. Claim density: a claim is actionable exactly when its type is
    risk, limitation, practice or failure; no claims score 0.3; n > 0
    claims score 0.6 * count_score + 0.4 * actionable / n with
    count_score 1.0 from 5 claims, 0.8 for 3 or 4, 0.5 below; the claims
    risk, benefit, practice have actionable ratio 2/3. *)
Theorem claim_density (cl : list Claim) :
  (forall c, is_actionable c = true
             <-> claim_type c = RISK \/ claim_type c = LIMITATION
                 \/ claim_type c = PRACTICE \/ claim_type c = FAILURE)
  /\ _score_claims [] = 0.3
  /\ (cl <> [] ->
      _score_claims cl ==
      0.6 * count_score (List.length cl)
      + 0.4 * (inject_Z (Z.of_nat (count_actionable cl))
               / inject_Z (Z.of_nat (List.length cl))))
  /\ actionable_ratio [claim_of RISK; claim_of BENEFIT; claim_of PRACTICE]
     == 2 # 3.
Proof.
  split; [exact is_actionable_iff|].
  split; [reflexivity|].
  split; [|vm_compute; reflexivity].
  intros Hne. destruct cl as [|c cl]; [contradiction|].
  unfold _score_claims. cbv zeta.
  rewrite count_score_agrees. ring.
Qed.

Lemma claim_density_witness :
  _score_claims [claim_of RISK; claim_of BENEFIT; claim_of PRACTICE] ==
  0.6 * count_score 3 + 0.4 * (inject_Z 2 / inject_Z 3).
Proof.
  apply (proj1 (proj2 (proj2 (claim_density
           [claim_of RISK; claim_of BENEFIT; claim_of PRACTICE])))).
  discriminate.
Defined.

Lemma ratio_bounds (a n : nat) :
  (a <= n)%nat -> (0 < n)%nat ->
  0 <= inject_Z (Z.of_nat a) / inject_Z (Z.of_nat n) <= 1.
Proof.
  intros Ha Hn.
  assert (Hn' : 0 < inject_Z (Z.of_nat n)).
  { change 0 with (inject_Z 0). rewrite <- Zlt_Qlt. lia. }
  split.
  - apply Qle_shift_div_l; [exact Hn'|].
    rewrite Qmult_0_l. change 0 with (inject_Z 0). rewrite <- Zle_Qle. lia.
  - apply Qle_shift_div_r; [exact Hn'|].
    rewrite Qmult_1_l. rewrite <- Zle_Qle. lia.
Qed.

Lemma recency_bounds now s : 0.2 <= _score_recency now s <= 1.
Proof.
  unfold _score_recency.
  destruct (SourceModel.published_date s) as [p|]; [|lra].
  cbv zeta.
  change (inject_Z OPTIMAL_AGE_MONTHS) with 6.
  change (inject_Z MAX_AGE_MONTHS) with 24.
  change (inject_Z (MAX_AGE_MONTHS - OPTIMAL_AGE_MONTHS)) with 18.
  generalize (age_months now p). intros m.
  destruct (Qle_bool m 6) eqn:E6; [lra|].
  destruct (Qle_bool 24 m) eqn:E24; [lra|].
  apply RankerOrder.Qle_bool_false in E6, E24.
  assert (H : (m - 6) / 18 == (m - 6) * (1 # 18)) by field.
  rewrite H. lra.
Qed.

Lemma credibility_bounds s : 0.2 <= _score_credibility s <= 1.
Proof.
  unfold _score_credibility. cbv zeta.
  repeat match goal with
  | |- context [if ?b then _ else _] => destruct b
  end; lra.
Qed.

Lemma evidence_bounds s cl : 0 <= _score_evidence s cl <= 1.
Proof.
  unfold _score_evidence. cbv zeta.
  split; [|eapply Qle_trans; [apply Q.le_min_r | lra]].
  apply Q.min_glb; [|lra].
  repeat match goal with
  | |- context [if ?b then _ else _] => destruct b
  end; lra.
Qed.

Lemma claims_bounds cl : 0.3 <= _score_claims cl <= 1.
Proof.
  destruct cl as [|c cl]; [unfold _score_claims; lra|].
  unfold _score_claims. cbv zeta.
  pose proof (ratio_bounds (count_actionable (c :: cl))
                (List.length (c :: cl)) (count_actionable_le _)) as Hr.
  specialize (Hr ltac:(simpl; lia)).
  revert Hr.
  generalize (inject_Z (Z.of_nat (count_actionable (c :: cl)))
              / inject_Z (Z.of_nat (List.length (c :: cl)))).
  intros r Hr.
  repeat match goal with
  | |- context [if ?b then _ else _] => destruct b
  end; lra.
Qed.

(** C9. Score bounds: each of the four sub-scores lies in [0, 1], the
    claim-density score is at least 0.3 and the recency score at least
    0.2; the weights add up to 1, and the weighted total lies in
    [0, 1]. *)
Theorem score_bounds (now : SourceModel.datetime) (s : SourceModel.Source)
    (cl : list Claim) :
  let sc := _score_source now s cl in
  (0 <= recency_score sc <= 1 /\ 0.2 <= recency_score sc)
  /\ 0 <= credibility_score sc <= 1
  /\ 0 <= evidence_score sc <= 1
  /\ (0 <= claim_score sc <= 1 /\ 0.3 <= claim_score sc)
  /\ WEIGHT_RECENCY + WEIGHT_CREDIBILITY + WEIGHT_EVIDENCE + WEIGHT_CLAIMS == 1
  /\ 0 <= total_score sc <= 1.
Proof.
  cbv zeta. unfold _score_source. cbn [recency_score credibility_score
    evidence_score claim_score total_score].
  pose proof (recency_bounds now s) as Hr.
  pose proof (credibility_bounds s) as Hc.
  pose proof (evidence_bounds s cl) as He.
  pose proof (claims_bounds cl) as Hk.
  unfold WEIGHT_RECENCY, WEIGHT_CREDIBILITY, WEIGHT_EVIDENCE, WEIGHT_CLAIMS.
  revert Hr Hc He Hk.
  generalize (_score_recency now s) (_score_credibility s)
    (_score_evidence s cl) (_score_claims cl).
  intros r c e k Hr Hc He Hk.
  repeat split; lra.
Qed.

End ScoreProps.

(** ** Input validation and the session store *)

Module SessionProps.
Import SessionModel Spec.

Lemma truthy_len (s : string) : PyStr.truthy s = false <-> PyStr.len s = 0%nat.
Proof. destruct s; simpl; split; intros H; congruence. Qed.

Lemma validate_rejected (q : string) :
  rejected q -> exists e, validate_input (Some q) = inl e.
Proof.
  unfold rejected, stripped_length, validate_input. cbv zeta.
  set (cleaned := PyStr.strip q). intros H.
  destruct (PyStr.truthy cleaned) eqn:Et; simpl; [|eauto].
  destruct (Z.ltb_spec (Z.of_nat (PyStr.len cleaned)) MIN_QUESTION_LENGTH);
    [eauto|].
  destruct (Z.ltb_spec MAX_QUESTION_LENGTH (Z.of_nat (PyStr.len cleaned)));
    [eauto|].
  exfalso. destruct H as [H | [H | H]]; try lia.
  assert (PyStr.len cleaned = 0%nat) as Hz by lia.
  apply truthy_len in Hz. congruence.
Qed.

Lemma validate_accepted (q : string) :
  ~ rejected q -> validate_input (Some q) = inr (PyStr.strip q).
Proof.
  unfold rejected, stripped_length, validate_input. cbv zeta.
  set (cleaned := PyStr.strip q). intros H.
  destruct (PyStr.truthy cleaned) eqn:Et; simpl.
  - destruct (Z.ltb_spec (Z.of_nat (PyStr.len cleaned)) MIN_QUESTION_LENGTH);
      [exfalso; apply H; tauto|].
    destruct (Z.ltb_spec MAX_QUESTION_LENGTH (Z.of_nat (PyStr.len cleaned)));
      [exfalso; apply H; tauto|].
    reflexivity.
  - exfalso. apply H. left. apply truthy_len in Et. lia.
Qed.

Section WithClock.
Variable strftime_ymd : SourceModel.datetime -> string.

(** C8. Input-validation atomicity: a question that is empty, too
    short or too long after stripping makes [create_session] raise the
    validation error and leaves the session store as it was; any other
    question yields a session holding the stripped question, and the
    store afterwards is the old one with that session registered under
    its id. *)
Theorem create_session_atomic (sessions : gmap string Session)
    (q : string) (now_id now_created : SourceModel.datetime)
    (uuid_hex : string) :
  (rejected q ->
   exists e, create_session strftime_ymd sessions (Some q) now_id
               now_created uuid_hex = (inl e, sessions))
  /\ (~ rejected q ->
      exists s,
        create_session strftime_ymd sessions (Some q) now_id now_created
          uuid_hex = (inr s, <[session_id s := s]> sessions)
        /\ question s = PyStr.strip q
        /\ get_session (<[session_id s := s]> sessions) (session_id s)
           = Some s).
Proof.
  unfold create_session. split; intros H.
  - destruct (validate_rejected q H) as [e ->]. eauto.
  - rewrite (validate_accepted q H). cbv zeta.
    match goal with
    | |- exists s, (inr ?x, _) = _ /\ _ => exists x
    end.
    split; [reflexivity|]. split; [reflexivity|].
    unfold get_session. apply lookup_insert_eq.
Qed.

(** A missing question is rejected in the same way. *)
Lemma create_session_none (sessions : gmap string Session)
    (now_id now_created : SourceModel.datetime) (uuid_hex : string) :
  create_session strftime_ymd sessions None now_id now_created uuid_hex
  = (inl EmptyInput, sessions).
Proof. reflexivity. Qed.
End WithClock.

Lemma create_session_atomic_witness :
  (exists e, create_session fixed_date ∅ (Some "AI?") 0 0
               "a1b2c3d4e5f60718293a4b5c6d7e8f90" = (inl e, ∅))
  /\ (exists s,
        create_session fixed_date ∅ (Some "  Should we adopt AI agents? ")
          0 0 "a1b2c3d4e5f60718293a4b5c6d7e8f90"
        = (inr s, <[session_id s := s]> ∅)
        /\ question s = PyStr.strip "  Should we adopt AI agents? "
        /\ get_session (<[session_id s := s]> ∅) (session_id s) = Some s).
Proof.
  split.
  - apply (proj1 (create_session_atomic fixed_date ∅ "AI?" 0 0
                    "a1b2c3d4e5f60718293a4b5c6d7e8f90")).
    right. left. vm_compute. reflexivity.
  - apply (proj2 (create_session_atomic fixed_date ∅
                    "  Should we adopt AI agents? " 0 0
                    "a1b2c3d4e5f60718293a4b5c6d7e8f90")).
    intros [H | [H | H]]; vm_compute in H; discriminate.
Defined.

(** The scenario of the specification: "AI?" is too short. *)
Example too_short_question :
  create_session fixed_date ∅ (Some "AI?") 0 0
    "a1b2c3d4e5f60718293a4b5c6d7e8f90" = (inl TooShort, ∅).
Proof. reflexivity. Qed.

Example accepted_question :
  fst (create_session fixed_date ∅ (Some "  Should we adopt AI agents? ")
         0 0 "a1b2c3d4e5f60718293a4b5c6d7e8f90")
  = inr {| session_id := "run_2025_12_28_a1b2c3d4";
           question := "Should we adopt AI agents?";
           created_at := 0; sub_questions := []; sources := [];
           claims := []; gaps := []; clarifications := [];
           recommendation := None |}.
Proof. reflexivity. Qed.

End SessionProps.

(** ** Search: the per-question cap and the deduplication *)

Module SearchProps.
Import SourceModel Search Spec.

Lemma NoDup_prefix {A : Type} (k : nat) (l : list A) :
  NoDup l -> NoDup (firstn k l).
Proof.
  intros H. eapply sublist_NoDup; [exact H | apply sublist_take].
Qed.

Lemma py_slice_to_prefix {A : Type} (n : Z) (l : list A) :
  exists k, py_slice_to n l = firstn k l.
Proof. unfold py_slice_to. destruct (0 <=? n); eauto. Qed.

Section WithSearcher.
Variable urlparse_netloc : string -> option string.
Variable strptime : string -> string -> option datetime.
Variable current_year : string.
Variable client : Type.
Variable client_search :
  client -> string -> Z -> option (list raw_result) * client.
Variable config : SearchConfig.

Let reputable (s : Source) : bool :=
  _is_reputable_source urlparse_netloc config (url s).
Let single :=
  search_single urlparse_netloc strptime current_year client client_search
    config.
Let loop :=
  search_loop urlparse_netloc strptime current_year client client_search
    config.

Lemma classify_split (sq : string) (acc : list Source * list Source)
    (result : raw_result) :
  Forall (fun s => reputable s = true) (fst acc) ->
  Forall (fun s => reputable s = false) (snd acc) ->
  Forall (fun s => reputable s = true)
    (fst (classify urlparse_netloc strptime config sq acc result))
  /\ Forall (fun s => reputable s = false)
       (snd (classify urlparse_netloc strptime config sq acc result)).
Proof.
  intros Hr Ho. unfold classify. cbv zeta.
  destruct (negb (_is_valid_source urlparse_netloc config _ _));
    [now split|].
  destruct (_is_reputable_source urlparse_netloc config _) eqn:E; simpl.
  - split; [|exact Ho]. apply Forall_app. split; [exact Hr|].
    constructor; [exact E | constructor].
  - split; [exact Hr|]. apply Forall_app. split; [exact Ho|].
    constructor; [exact E | constructor].
Qed.

Lemma classify_fold_split (sq : string) (raw : list raw_result)
    (acc : list Source * list Source) :
  Forall (fun s => reputable s = true) (fst acc) ->
  Forall (fun s => reputable s = false) (snd acc) ->
  Forall (fun s => reputable s = true)
    (fst (fold_left (classify urlparse_netloc strptime config sq) raw acc))
  /\ Forall (fun s => reputable s = false)
       (snd (fold_left (classify urlparse_netloc strptime config sq) raw acc)).
Proof.
  revert acc. induction raw as [|r raw IH]; intros acc Hr Ho; simpl.
  - now split.
  - destruct (classify_split sq acc r Hr Ho) as [Hr' Ho'].
    now apply IH.
Qed.

(** C10. Per-question source cap: when the client answers,
    [search_single] returns at most 5 sources, and the sources classified
    as reputable come before all the others, whatever number of results
    [max_results_per_query] let the client fetch. *)
Theorem search_single_cap (c c' : client) (sub_question : string)
    (raw_results : list raw_result) :
  client_search c (_enhance_query current_year sub_question)
    (max_results_per_query config) = (Some raw_results, c') ->
  exists r,
    single c sub_question = (Some r, c')
    /\ sr_sub_question r = sub_question
    /\ (List.length (sr_sources r) <= 5)%nat
    /\ reputable_first reputable (sr_sources r).
Proof.
  intros Hc. subst single. unfold search_single. cbv zeta. rewrite Hc.
  destruct (fold_left _ raw_results ([], [])) as [rep oth] eqn:E.
  eexists. split; [reflexivity|]. simpl.
  split; [reflexivity|]. split; [apply firstn_le_length|].
  pose proof (classify_fold_split sub_question raw_results ([], [])
                (List.Forall_nil _) (List.Forall_nil _)) as [Hr Ho].
  rewrite E in Hr, Ho. simpl in Hr, Ho.
  exists (firstn 5 rep), (firstn (5 - List.length rep) oth).
  split; [apply firstn_app|].
  split; now apply Forall_take.
Qed.

Lemma dedup_step_tracked (st : gset string * list Source * list Source)
    (src : Source) :
  urls_tracked (fst (fst st)) (snd st) ->
  urls_tracked (fst (fst (dedup_step st src))) (snd (dedup_step st src)).
Proof.
  destruct st as [[seen unique] all]. simpl.
  intros [Hnd Hseen].
  destruct (decide (url src ∈ seen)) as [Hin|Hnin]; simpl.
  - now split.
  - split.
    + rewrite List.map_app. simpl.
      apply NoDup_app. split; [exact Hnd|].
      split; [|apply NoDup_singleton].
      intros u Hu Hsrc. apply list_elem_of_singleton in Hsrc. subst u.
      apply list_elem_of_In, in_map_iff in Hu.
      destruct Hu as [s [Hs Hin]].
      apply Hseen in Hin. rewrite Hs in Hin. contradiction.
    + intros s Hin. apply in_app_or in Hin. destruct Hin as [Hin|Hin].
      * apply Hseen in Hin. set_solver.
      * destruct Hin as [<-|[]]. set_solver.
Qed.

Lemma dedup_fold_tracked (l : list Source)
    (st : gset string * list Source * list Source) :
  urls_tracked (fst (fst st)) (snd st) ->
  urls_tracked (fst (fst (fold_left dedup_step l st)))
    (snd (fold_left dedup_step l st)).
Proof.
  revert st. induction l as [|src l IH]; intros st H; cbn [fold_left].
  - exact H.
  - apply IH. now apply dedup_step_tracked.
Qed.

Lemma search_loop_tracked (sqs : list string) (c c' : client)
    (seen : gset string) (bq bq' : gmap string SearchResults)
    (all all' : list Source) :
  urls_tracked seen all ->
  loop sqs c seen bq all = (Some (bq', all'), c') ->
  NoDup (List.map url all').
Proof.
  subst loop.
  revert c seen bq all.
  induction sqs as [|sq sqs IH]; intros c seen bq all Ht; simpl.
  - intros [= _ <- _]. apply Ht.
  - destruct (search_single _ _ _ _ _ _ c sq) as [[sr|] c1];
      [|discriminate].
    pose proof (dedup_fold_tracked (sr_sources sr) (seen, [], all) Ht)
      as Hf.
    destruct (fold_left dedup_step (sr_sources sr) (seen, [], all))
      as [[seen1 unique1] all1].
    simpl in Hf.
    destruct (max_total_sources config <=? Z.of_nat (List.length all1)).
    + intros [= _ <- _]. apply Hf.
    + now apply IH.
Qed.

Lemma search_loop_answers (sqs : list string) (c : client)
    (seen : gset string) (bq : gmap string SearchResults)
    (all : list Source) :
  (forall c0 q n, is_Some (fst (client_search c0 q n))) ->
  exists r c', loop sqs c seen bq all = (Some r, c').
Proof.
  intros Hcl. subst loop.
  revert c seen bq all.
  induction sqs as [|sq sqs IH]; intros c seen bq all; simpl; [eauto|].
  unfold search_single at 1. cbv zeta.
  destruct (Hcl c (_enhance_query current_year sq)
              (max_results_per_query config)) as [raw Hraw].
  destruct (client_search c _ _) as [o c1]. simpl in Hraw. subst o.
  destruct (fold_left _ raw ([], [])) as [rep oth].
  destruct (fold_left dedup_step _ (seen, [], all))
    as [[seen1 unique1] all1].
  destruct (max_total_sources config <=? Z.of_nat (List.length all1));
    [eauto | apply IH].
Qed.

(** C7. Search deduplication: whenever [search_all] returns, the
    urls of [all_sources] are pairwise different; and it does return
    when the search client answers every query. *)
Theorem search_all_unique_urls (c : client) (sub_questions : list string) :
  (forall d c',
     search_all urlparse_netloc strptime current_year client client_search
       config c sub_questions = (Some d, c') ->
     NoDup (List.map url (all_sources d)))
  /\ ((forall c0 q n, is_Some (fst (client_search c0 q n))) ->
      exists d c',
        search_all urlparse_netloc strptime current_year client
          client_search config c sub_questions = (Some d, c')
        /\ NoDup (List.map url (all_sources d))).
Proof.
  assert (Hsafe : forall d c',
     search_all urlparse_netloc strptime current_year client client_search
       config c sub_questions = (Some d, c') ->
     NoDup (List.map url (all_sources d))).
  { intros d c'. unfold search_all.
    destruct (search_loop _ _ _ _ _ _ sub_questions c ∅ ∅ [])
      as [[[bq all]|] c1] eqn:E; [|discriminate].
    intros [= <- _]. simpl.
    assert (Hnd : NoDup (List.map url all)).
    { eapply (search_loop_tracked sub_questions c c1 ∅ ∅ bq [] all);
        [|exact E].
      split; [constructor | intros s []]. }
    destruct (max_total_sources config <? Z.of_nat (List.length all));
      [|exact Hnd].
    destruct (py_slice_to_prefix (max_total_sources config) all) as [k ->].
    rewrite <- firstn_map. now apply NoDup_prefix. }
  split; [exact Hsafe|].
  intros Hcl.
  destruct (search_loop_answers sub_questions c ∅ ∅ [] Hcl)
    as [[bq all] [c1 E]].
  subst loop.
  assert (Hex : exists d, search_all urlparse_netloc strptime current_year
                    client client_search config c sub_questions
                  = (Some d, c1)).
  { unfold search_all. rewrite E. eauto. }
  destruct Hex as [d Hd]. exists d, c1. split; [exact Hd|].
  now apply (Hsafe d c1).
Qed.
End WithSearcher.

Lemma search_single_cap_witness :
  exists r,
    search_single test_netloc test_strptime "2026" unit
      (fixed_client seven_hits) default_config tt
      "How are AI agents used in production?" = (Some r, tt)
    /\ sr_sub_question r = "How are AI agents used in production?"
    /\ (List.length (sr_sources r) <= 5)%nat
    /\ reputable_first
         (fun s => _is_reputable_source test_netloc default_config (url s))
         (sr_sources r).
Proof.
  apply (search_single_cap test_netloc test_strptime "2026" unit
           (fixed_client seven_hits) default_config tt tt
           "How are AI agents used in production?" seven_hits).
  reflexivity.
Defined.

(** The default configuration asks the client for 7 results; of 7 valid
    hits 5 are kept, the two reputable ones first. *)
Example seven_hits_give_five :
  max_results_per_query default_config = 7
  /\ option_map (fun r => List.map url (sr_sources r))
       (fst (search_single test_netloc test_strptime "2026" unit
               (fixed_client seven_hits) default_config tt
               "How are AI agents used in production?"))
     = Some [ "https://example.org/engineering/a2";
              "https://example.org/techblog/a5";
              "https://example.org/a1"; "https://example.org/a3";
              "https://example.org/a4" ].
Proof. split; vm_compute; reflexivity. Qed.

Lemma search_all_unique_urls_witness :
  exists d c',
    search_all test_netloc test_strptime "2026" unit
      (fixed_client seven_hits) default_config tt
      ["How are AI agents used in production?";
       "What failures are reported with AI agents?"] = (Some d, c')
    /\ NoDup (List.map url (all_sources d)).
Proof.
  apply (proj2 (search_all_unique_urls test_netloc test_strptime "2026" unit
                  (fixed_client seven_hits) default_config tt
                  ["How are AI agents used in production?";
                   "What failures are reported with AI agents?"])).
  intros c0 q n. simpl. eauto.
Defined.

(** Two sub-questions that surface the same urls: each url is kept
    once. *)
Example same_urls_for_two_questions :
  option_map (fun d => List.map url (all_sources d))
    (fst (search_all test_netloc test_strptime "2026" unit
            (fixed_client seven_hits) default_config tt
            ["How are AI agents used in production?";
             "What failures are reported with AI agents?"]))
  = Some [ "https://example.org/engineering/a2";
           "https://example.org/techblog/a5";
           "https://example.org/a1"; "https://example.org/a3";
           "https://example.org/a4" ].
Proof. vm_compute. reflexivity. Qed.

End SearchProps.

(** ** Assignments to the attributes of a source over one run *)

Module PipelineProps.
Import SourceModel Extractor Pipeline Spec.

Section WithStages.
Variable max_content_length : Z.
Variable preview_length : Z.
Variable http_get : string -> fetch_outcome.
Variable _extract_text : string -> string -> string + option string.
Variable extract_from_source : Source -> SourceClaims.

Let single := extract_single max_content_length preview_length http_get
                _extract_text.
Let available := content_available http_get _extract_text.

Lemma fallback_assigned (s : Source) (err : Extractor.extraction_error) :
  snd (_fallback_to_snippet preview_length s err)
  = (if Search.truthy_opt (snippet s) then [F_content] else [])
  /\ same_but_content s (fst (fst (_fallback_to_snippet preview_length s err)))
  /\ er_source (snd (fst (_fallback_to_snippet preview_length s err)))
     = fst (fst (_fallback_to_snippet preview_length s err)).
Proof.
  unfold _fallback_to_snippet, same_but_content.
  destruct s as [u t sn sq pd d st c cl cs]. simpl.
  destruct sn as [[|a sn]|]; simpl; repeat split; reflexivity.
Qed.

(** What one extraction assigns: content, once, if there is something
    to store; the object is otherwise as before, and the result refers
    to it. *)
Lemma extract_single_assigned (s : Source) :
  snd (single s) = (if available s then [F_content] else [])
  /\ same_but_content s (fst (fst (single s)))
  /\ er_source (snd (fst (single s))) = fst (fst (single s)).
Proof.
  subst single available. unfold extract_single, content_available.
  destruct (http_get (url s)) as [html| |code|msg];
    try (rewrite orb_false_l; apply fallback_assigned).
  destruct (_extract_text html (url s)) as [msg|[c|]];
    try (rewrite orb_false_l; apply fallback_assigned).
  destruct (PyStr.truthy c && (100 <? zlen c)) eqn:E.
  - simpl. split; [reflexivity|]. split; reflexivity.
  - rewrite orb_false_l. apply fallback_assigned.
Qed.

(** The assignments recorded for a list of finished extractions whose
    first object has number [k]. *)
Lemma assigned_count (f : field) (i k : nat)
    (done : list (Source * ExtractionResult * list field)) :
  List.length
    (List.filter (fun w : nat * field =>
               Nat.eqb (fst w) i && field_eqb (snd w) f)
       (List.concat
          (imap (fun j d => List.map (fun g => ((k + j)%nat, g)) (snd d))
             done)))
  = match done !! (i - k)%nat with
    | Some d => if (k <=? i)%nat
                then List.length (List.filter (fun g => field_eqb g f) (snd d))
                else 0%nat
    | None => 0%nat
    end.
Proof.
  revert k. induction done as [|d done IH]; intros k.
  - simpl. now destruct (i - k)%nat.
  - rewrite imap_cons. cbn [List.concat].
    rewrite List.filter_app, List.length_app.
    rewrite (imap_ext _ (fun j d0 =>
               List.map (fun g => ((S k + j)%nat, g)) (snd d0)))
      by (intros j x _; simpl; f_equal;
          now replace (k + S j)%nat with (S (k + j)) by lia).
    rewrite (IH (S k)).
    assert (Hhead : List.length
              (List.filter (fun w : nat * field =>
                         Nat.eqb (fst w) i && field_eqb (snd w) f)
                 (List.map (fun g => ((k + 0)%nat, g)) (snd d)))
            = if Nat.eqb k i
              then List.length (List.filter (fun g => field_eqb g f) (snd d))
              else 0%nat).
    { replace (k + 0)%nat with k by lia.
      induction (snd d) as [|g gs IHg]; simpl.
      - now destruct (Nat.eqb k i).
      - destruct (Nat.eqb k i) eqn:Ek; simpl.
        + destruct (field_eqb g f); simpl; now rewrite IHg.
        + exact IHg. }
    rewrite Hhead. clear Hhead IH.
    destruct (Nat.eqb_spec k i) as [Heq|Hne].
    + subst k.
      assert ((S i <=? i)%nat = false) as -> by (apply Nat.leb_gt; lia).
      rewrite Nat.leb_refl.
      replace (i - i)%nat with 0%nat by lia.
      change ((d :: done) !! 0%nat) with (Some d).
      destruct (done !! (i - S i)%nat); lia.
    + destruct (Nat.leb_spec k i) as [Hle|Hgt].
      * assert ((S k <=? i)%nat = true) as -> by (apply Nat.leb_le; lia).
        replace (i - k)%nat with (S (i - S k)) by lia.
        change ((d :: done) !! S (i - S k)) with (done !! (i - S k)%nat).
        reflexivity.
      * assert ((S k <=? i)%nat = false) as -> by (apply Nat.leb_gt; lia).
        destruct (done !! (i - S k)%nat);
          destruct ((d :: done) !! (i - k)%nat); reflexivity.
Qed.

Lemma lookup_map {A B : Type} (g : A -> B) (l : list A) (i : nat) :
  List.map g l !! i = g <$> l !! i.
Proof.
  revert i. induction l as [|x l IH]; intros [|i]; simpl; auto.
Qed.

Lemma filter_map_length {A B : Type} (g : A -> B) (P : B -> bool)
    (l : list A) :
  List.length (List.filter P (List.map g l))
  = List.length (List.filter (fun x => P (g x)) l).
Proof.
  induction l as [|x l IH]; simpl; [reflexivity|].
  destruct (P (g x)); simpl; now rewrite IH.
Qed.

Lemma field_eqb_content (f : field) :
  f <> F_content -> field_eqb F_content f = false.
Proof. destruct f; simpl; congruence. Qed.

Lemma assign_ranks_source (i : nat) (l : list Ranker.SourceScore) :
  List.map Ranker.source (Ranker.assign_ranks i l)
  = List.map Ranker.source l.
Proof.
  revert i. induction l as [|x l IH]; intros i; simpl; [reflexivity|].
  now rewrite IH.
Qed.

Lemma score_all_source now (l : list Source) cbs :
  List.map Ranker.source (Ranker.score_all now l cbs) = l.
Proof.
  unfold Ranker.score_all.
  induction l as [|x l IH]; simpl; [reflexivity|]. now rewrite IH.
Qed.

(** The ranker hands back the source objects it was given. *)
Lemma ranked_from_input now (l : list Source) cbs (sc : Ranker.SourceScore) :
  In sc (Ranker.ranked_sources (Ranker.rank_sources now l cbs)) ->
  In (Ranker.source sc) l.
Proof.
  unfold Ranker.rank_sources. simpl. intros Hin.
  apply (in_map Ranker.source) in Hin.
  rewrite assign_ranks_source in Hin.
  rewrite <- (score_all_source now l cbs).
  eapply Permutation_in; [|exact Hin].
  apply Permutation_map, RankerOrder.sort_desc_perm.
Qed.

Lemma In_firstn {A : Type} (n : nat) (l : list A) (x : A) :
  In x (firstn n l) -> In x l.
Proof.
  revert n. induction l as [|y l IH]; intros [|n]; simpl; try tauto.
  intros [H|H]; [now left | right; eauto].
Qed.

(** The count of the assignments to attribute [f] of object [i] in
    the log of a run. *)
Lemma count_writes_run now (sources : list Source) (completion : list nat)
    (i : nat) (f : field) :
  count_writes i f
    (writes (run_stages max_content_length preview_length http_get
               _extract_text extract_from_source now sources completion))
  = match sources !! i with
    | Some s => if available s && field_eqb F_content f then 1%nat else 0%nat
    | None => 0%nat
    end.
Proof.
  unfold run_stages, extract_all, count_writes. cbn [writes].
  rewrite filter_map_length. cbn [w_object w_field].
  rewrite (assigned_count f i 0).
  rewrite Nat.sub_0_r, lookup_map.
  destruct (sources !! i) as [s|]; cbn [fmap option_fmap option_map];
    [|reflexivity].
  destruct (extract_single_assigned s) as [Hw _].
  subst single. rewrite Hw. fold available.
  destruct (available s); cbn [andb List.filter]; [|reflexivity].
  now destruct (field_eqb F_content f).
Qed.

Lemma writes_by_extraction now (sources : list Source)
    (completion : list nat) (i : nat) (f : field) :
  let log := writes (run_stages max_content_length preview_length http_get
               _extract_text extract_from_source now sources completion) in
  count_writes_in Extraction i f log = count_writes i f log.
Proof.
  cbv zeta. unfold run_stages, extract_all, count_writes_in, count_writes.
  cbn [writes]. rewrite !filter_map_length. reflexivity.
Qed.

(** C6, as the code has it.  Over one run, no attribute of a source
    other than content and credibility_score is assigned after
    construction; content is assigned at most once, by the extraction
    stage: once when the fetched text has more than 100 characters
    or the snippet is not empty, and not at all otherwise; the objects
    are otherwise as constructed, and the ranking holds the objects as
    the extraction stage left them, content and credibility_score
    included. *)
Theorem content_written_at_most_once (now : datetime)
    (sources : list Source) (completion : list nat) :
  let r := run_stages max_content_length preview_length http_get
             _extract_text extract_from_source now sources completion in
  (forall i f, f <> F_content -> f <> F_credibility_score ->
               count_writes i f (writes r) = 0%nat)
  /\ (forall i, (count_writes i F_content (writes r) <= 1)%nat
                /\ count_writes_in Extraction i F_content (writes r)
                   = count_writes i F_content (writes r))
  /\ (forall i s, sources !! i = Some s ->
        count_writes i F_content (writes r)
        = (if available s then 1%nat else 0%nat)
        /\ exists s', sources_after r !! i = Some s'
                      /\ same_but_content s s')
  /\ (forall sc, In sc (Ranker.ranked_sources (ranking r)) ->
        In (Ranker.source sc) (sources_after r)).
Proof.
  cbv zeta. split; [|split; [|split]].
  - intros i f Hf _. rewrite count_writes_run.
    destruct (sources !! i) as [s|]; [|reflexivity].
    rewrite (field_eqb_content f Hf). now rewrite andb_false_r.
  - intros i. split; [|apply writes_by_extraction].
    rewrite count_writes_run.
    destruct (sources !! i) as [s|]; [|lia].
    destruct (available s && field_eqb F_content F_content); lia.
  - intros i s Hs. split.
    + rewrite count_writes_run, Hs. simpl. now rewrite andb_true_r.
    + unfold run_stages, extract_all. cbn [sources_after].
      rewrite !lookup_map, Hs. simpl.
      eexists. split; [reflexivity|].
      apply (extract_single_assigned s).
  - intros sc Hin. unfold run_stages, extract_all in *.
    cbn [ranking sources_after] in *.
    apply ranked_from_input, In_firstn in Hin.
    apply in_map_iff in Hin. destruct Hin as [res [Hres Hin]].
    apply List.filter_In in Hin. destruct Hin as [Hin _].
    apply list_elem_of_In, list_elem_of_omap in Hin.
    destruct Hin as [j [_ Hj]].
    rewrite lookup_map in Hj.
    destruct (sources !! j) as [s|] eqn:Es; [|discriminate].
    simpl in Hj. injection Hj as <-.
    rewrite <- Hres.
    destruct (extract_single_assigned s) as [_ [_ Her]].
    subst single. rewrite Her.
    apply list_elem_of_In. eapply list_elem_of_lookup_2.
    rewrite !lookup_map, Es. reflexivity.
Qed.
End WithStages.

(** A source without a snippet whose fetch times out is never assigned
    a content, so "exactly once" fails. *)
Lemma set_exactly_once_fails :
  ~ set_exactly_once [bare_source]
      (run_stages 15000 400 always_timeout no_text no_claims 0
         [bare_source] [0%nat]).
Proof.
  intros H. destruct (H 0%nat) as [Hc _]; [simpl; lia|].
  vm_compute in Hc. discriminate.
Qed.

Lemma content_written_at_most_once_witness :
  count_writes 1 F_content
    (writes (run_stages 15000 400 always_timeout no_text no_claims 0
               [bare_source; long_snippet_source] [1%nat; 0%nat]))
  = 1%nat
  /\ exists s',
       sources_after
         (run_stages 15000 400 always_timeout no_text no_claims 0
            [bare_source; long_snippet_source] [1%nat; 0%nat]) !! 1%nat
       = Some s'
       /\ same_but_content long_snippet_source s'.
Proof.
  apply (proj1 (proj2 (proj2
           (content_written_at_most_once 15000 400 always_timeout no_text
              no_claims 0 [bare_source; long_snippet_source]
              [1%nat; 0%nat]))) 1%nat long_snippet_source).
  reflexivity.
Defined.

(** The run on the two sources: one assignment, to the content of the
    second; the ranking holds that source with the score attribute of
    the source as constructed, the credibility being kept in the score
    record. *)
Example run_on_two_sources :
  let r := run_stages 15000 400 always_timeout no_text no_claims 0
             [bare_source; long_snippet_source] [1%nat; 0%nat] in
  writes r = [ {| w_stage := Extraction; w_object := 1;
                  w_field := F_content |} ]
  /\ List.map (fun sc => (url (Ranker.source sc), Ranker.rank sc,
                          Qred (credibility_score (Ranker.source sc)),
                          Qred (Ranker.credibility_score sc)))
       (Ranker.ranked_sources (ranking r))
     = [ ("https://example.org/a3", 1%nat, 0%Q, (2 # 5)%Q) ].
Proof. vm_compute. split; reflexivity. Qed.

End PipelineProps.

(** ** A ranking with a tie *)

Module RankerExamples.
Import Ranker Spec.

(** Two sources of equal score keep their input order behind a better
    source that came last; the ranks follow the output order. *)
Example tie_keeps_input_order :
  List.map (fun sc => (SourceModel.url (source sc), rank sc))
    (ranked_sources
       (rank_sources (day 0)
          [ source_of "https://example.org/a1" "Agents in production"
              "example.org" None;
            source_of "https://example.org/a2" "Agents at scale"
              "example.org" None;
            source_of "https://arxiv.org/abs/1" "A study of agents"
              "arxiv.org" None ]
          None))
  = [ ("https://arxiv.org/abs/1", 1%nat);
      ("https://example.org/a1", 2%nat);
      ("https://example.org/a2", 3%nat) ].
Proof. vm_compute. reflexivity. Qed.

(** An empty source list gives an empty ranking. *)
Example empty_ranking :
  ranked_sources (rank_sources (day 0) [] None) = [].
Proof. reflexivity. Qed.

End RankerExamples.

(** ** The ranker beyond the specification *)

Module RankerMore.
Import ClaimModel Ranker Spec RankSpec.
Local Open Scope Q_scope.

Lemma recency_as_curve now s p :
  SourceModel.published_date s = Some p ->
  _score_recency now s = recency_of_months (age_months now p).
Proof. unfold _score_recency, recency_of_months. intros ->. reflexivity. Qed.

Lemma recency_curve_antitone (m1 m2 : Q) :
  m2 <= m1 -> recency_of_months m1 <= recency_of_months m2.
Proof.
  intros H. unfold recency_of_months.
  assert (D : forall m, (m - 6) / 18 == (m - 6) * (1 # 18)) by (intros; field).
  destruct (Qle_bool m1 6) eqn:A1; destruct (Qle_bool 24 m1) eqn:B1;
    destruct (Qle_bool m2 6) eqn:A2; destruct (Qle_bool 24 m2) eqn:B2;
    repeat match goal with
    | E : Qle_bool _ _ = true |- _ => apply Qle_bool_iff in E
    | E : Qle_bool _ _ = false |- _ => apply RankerOrder.Qle_bool_false in E
    end;
    try rewrite (D m1); try rewrite (D m2); lra.
Qed.

Lemma age_months_antitone now (p1 p2 : SourceModel.datetime) :
  (p1 <= p2)%Z -> age_months now p2 <= age_months now p1.
Proof.
  intros H. unfold age_months, age_days.
  assert (Hd : ((now - p2) / MICROSECONDS_PER_DAY
                <= (now - p1) / MICROSECONDS_PER_DAY)%Z).
  { apply Z.div_le_mono; [reflexivity | lia]. }
  rewrite Zle_Qle in Hd.
  apply Qmult_le_compat_r; [exact Hd | discriminate].
Qed.

(** X1. Recency is monotone: of two dated sources the one published
    later never has the lower recency score. *)
Theorem recency_monotone (now : SourceModel.datetime)
    (s1 s2 : SourceModel.Source) (p1 p2 : SourceModel.datetime) :
  SourceModel.published_date s1 = Some p1 ->
  SourceModel.published_date s2 = Some p2 ->
  (p1 <= p2)%Z ->
  _score_recency now s1 <= _score_recency now s2.
Proof.
  intros H1 H2 Hle.
  rewrite (recency_as_curve now s1 p1 H1), (recency_as_curve now s2 p2 H2).
  apply recency_curve_antitone. now apply age_months_antitone.
Qed.

Lemma recency_monotone_witness :
  _score_recency (day 450)
    (source_of "https://example.org/a" "A report" "example.org" (Some (day 0)))
  <= _score_recency (day 450)
       (source_of "https://example.org/b" "A newer report" "example.org"
          (Some (day 300))).
Proof.
  apply (recency_monotone (day 450) _ _ (day 0) (day 300));
    [reflexivity | reflexivity | vm_compute; discriminate].
Defined.

Lemma sorted_app_pairs (l1 l2 : list SourceScore) :
  StronglySorted desc (l1 ++ l2) ->
  Forall (fun s => Forall (fun t => total_score t <= total_score s) l2) l1.
Proof.
  induction l1 as [|x l1 IH]; simpl; intros H; [constructor|].
  apply StronglySorted_inv in H. destruct H as [Hs Hx].
  constructor; [|now apply IH].
  apply Forall_app in Hx. apply Hx.
Qed.

(** X2. The top three: [top_3] holds the first min(3, n) ranked
    sources, and none of the sources it leaves out has a higher total
    score than any of those it holds. *)
Theorem top_3_are_best (now : SourceModel.datetime)
    (sources : list SourceModel.Source)
    (cbs : option (gmap string (list Claim))) :
  let r := rank_sources now sources cbs in
  List.length (top_3 r) = Nat.min 3 (List.length sources)
  /\ ranked_sources r = (top_3 r ++ skipn 3 (ranked_sources r))%list
  /\ Forall (fun s => Forall (fun t => total_score t <= total_score s)
                        (skipn 3 (ranked_sources r)))
       (top_3 r).
Proof.
  cbv zeta. unfold top_3. split; [|split].
  - rewrite length_firstn. f_equal.
    unfold rank_sources. cbn [ranked_sources].
    transitivity (List.length (List.map rank
      (assign_ranks 0 (sort_desc (score_all now sources cbs))))).
    { now rewrite length_map. }
    rewrite RankerOrder.assign_ranks_rank, length_seq.
    rewrite (Permutation_length (RankerOrder.sort_desc_perm _)).
    apply RankerOrder.score_all_length.
  - symmetry. apply firstn_skipn.
  - apply sorted_app_pairs. rewrite firstn_skipn.
    unfold rank_sources. cbn [ranked_sources].
    apply RankerOrder.assign_ranks_sorted, RankerOrder.sort_desc_sorted.
Qed.

(** X3. The per-source justification is never empty, and it is the
    default "general coverage" exactly when no sub-score crosses a label
    threshold. *)
Theorem justification_default (recency credibility evidence claims_ : Q) :
  _source_justification recency credibility evidence claims_ <> ""%string
  /\ (_source_justification recency credibility evidence claims_
      = "general coverage"%string
      <-> no_label recency credibility evidence claims_ = true).
Proof.
  unfold _source_justification, no_label.
  assert (Hc : Qle_bool 0.8 credibility = true ->
               Qle_bool 0.6 credibility = true).
  { intros H. apply Qle_bool_iff in H. apply Qle_bool_iff. lra. }
  destruct (Qle_bool 0.8 credibility) eqn:C8;
    [rewrite (Hc eq_refl) | destruct (Qle_bool 0.6 credibility)];
    destruct (Qle_bool 0.8 recency); destruct (Qle_bool recency 0.3);
    destruct (Qle_bool 0.7 evidence); destruct (Qle_bool 0.7 claims_);
    simpl; (split; [discriminate | split; intros H; try discriminate H;
                                   reflexivity]).
Qed.

End RankerMore.

(** ** The search beyond the specification *)

Module SearchMore.
Import SourceModel Search Spec SearchSpec.

Lemma lower_app (a b : string) :
  PyStr.lower (a ++ b) = PyStr.lower a ++ PyStr.lower b.
Proof. induction a as [|c a IH]; simpl; [reflexivity | now rewrite IH]. Qed.

Lemma append_empty_r (a : string) : a ++ "" = a.
Proof.
  induction a as [|c a IH]; [reflexivity|].
  change (String c (a ++ "") = String c a). now f_equal.
Qed.

Lemma startswith_app (p a b : string) :
  PyStr.startswith p a = true -> PyStr.startswith p (a ++ b) = true.
Proof.
  revert a. induction p as [|x p IH]; intros [|y a]; simpl; try easy.
  destruct (Ascii.eqb x y); [apply IH | discriminate].
Qed.

Lemma contains_app_l (p a b : string) :
  PyStr.contains p a = true -> PyStr.contains p (a ++ b) = true.
Proof.
  induction a as [|y a IH]; simpl.
  - rewrite orb_false_r. intros H.
    destruct p; [now destruct b | discriminate].
  - intros H. apply orb_true_iff in H. apply orb_true_iff.
    destruct H as [H|H]; [left | right; now apply IH].
    now apply (startswith_app p (String y a) b).
Qed.

Lemma startswith_refl_app (p b : string) : PyStr.startswith p (p ++ b) = true.
Proof.
  induction p as [|x p IH]; simpl; [reflexivity|].
  now rewrite Ascii.eqb_refl.
Qed.

Lemma contains_app_r (p a b : string) :
  PyStr.contains p b = true -> PyStr.contains p (a ++ b) = true.
Proof.
  intros H. induction a as [|y a IH]; simpl; [exact H|].
  rewrite IH. apply orb_true_r.
Qed.

Lemma contains_self_app (p b : string) : PyStr.contains p (p ++ b) = true.
Proof.
  destruct p as [|x p]; simpl.
  - now destruct b.
  - rewrite Ascii.eqb_refl, startswith_refl_app. reflexivity.
Qed.

Section WithSearcher.
Variable urlparse_netloc : string -> option string.
Variable strptime : string -> string -> option datetime.
Variable current_year : string.
Variable client : Type.
Variable client_search :
  client -> string -> Z -> option (list raw_result) * client.
Variable config : SearchConfig.

Let single :=
  search_single urlparse_netloc strptime current_year client client_search
    config.
Let loop :=
  search_loop urlparse_netloc strptime current_year client client_search
    config.
Let all :=
  search_all urlparse_netloc strptime current_year client client_search
    config.
Let ok := acceptable urlparse_netloc config.

(** X4. Query enhancement appends at most one of its three enhancers
    to the sub-question, and the query it produces always mentions
    "production", in whatever case. *)
Theorem enhance_query_mentions_production (sub_question : string) :
  (exists suffix,
     In suffix (enhancer_suffixes current_year)
     /\ _enhance_query current_year sub_question = sub_question ++ suffix)
  /\ PyStr.contains "production"
       (PyStr.lower (_enhance_query current_year sub_question)) = true.
Proof.
  unfold _enhance_query, enhancer_suffixes. cbv zeta. cbn [List.find].
  change (PyStr.lower "production") with "production".
  destruct (PyStr.contains "production" (PyStr.lower sub_question)) eqn:Ep;
    cbn [negb].
  - assert (Hin : forall suffix,
              PyStr.contains "production"
                (PyStr.lower (sub_question ++ suffix)) = true).
    { intros suffix. rewrite lower_app. now apply contains_app_l. }
    destruct (negb (PyStr.contains (PyStr.lower "real-world")
                      (PyStr.lower sub_question)));
      [|destruct (negb (PyStr.contains (PyStr.lower current_year)
                          (PyStr.lower sub_question)))].
    + split; [|apply Hin]. exists " real-world". split; [|reflexivity].
      simpl. tauto.
    + split; [|apply Hin]. exists (" " ++ current_year).
      split; [|reflexivity]. simpl. tauto.
    + split; [|exact Ep]. exists "". split; [simpl; tauto|].
      now rewrite append_empty_r.
  - split.
    + exists " production". split; [simpl; tauto | reflexivity].
    + rewrite lower_app. apply contains_app_r. reflexivity.
Qed.

Lemma valid_source_inv (uo to : option string) :
  _is_valid_source urlparse_netloc config uo to = true ->
  exists u t,
    uo = Some u /\ to = Some t /\ u <> "" /\ t <> ""
    /\ Forall (fun excluded =>
                 PyStr.contains excluded (_extract_domain urlparse_netloc u)
                 = false) (exclude_domains config)
    /\ Forall (fun pattern => PyStr.contains pattern (PyStr.lower t) = false)
         (low_quality_title_patterns config).
Proof.
  unfold _is_valid_source.
  destruct uo as [[|a u]|];
    cbn [truthy_opt PyStr.truthy negb orb default]; try discriminate.
  destruct to as [[|b t]|];
    cbn [truthy_opt PyStr.truthy negb orb default]; try discriminate.
  destruct (existsb _ (exclude_domains config)) eqn:Ee; [discriminate|].
  destruct (existsb _ (low_quality_title_patterns config)) eqn:El;
    [discriminate|].
  intros _. unfold id in Ee, El. exists (String a u), (String b t).
  repeat split; try discriminate.
  - apply List.Forall_forall. intros x Hx.
    apply not_true_is_false. intros Hc.
    assert (existsb (fun excluded => PyStr.contains excluded
              (_extract_domain urlparse_netloc (String a u)))
              (exclude_domains config) = true)
      by (apply existsb_exists; eauto).
    congruence.
  - apply List.Forall_forall. intros x Hx.
    apply not_true_is_false. intros Hc.
    assert (existsb (fun pattern => PyStr.contains pattern
              (PyStr.lower (String b t)))
              (low_quality_title_patterns config) = true)
      by (apply existsb_exists; eauto).
    congruence.
Qed.

Lemma classify_keeps (P : Source -> Prop) (sq : string)
    (acc : list Source * list Source) (result : raw_result) :
  (forall s, ok s -> sub_question s = sq -> P s) ->
  Forall P (fst acc) -> Forall P (snd acc) ->
  Forall P (fst (classify urlparse_netloc strptime config sq acc result))
  /\ Forall P (snd (classify urlparse_netloc strptime config sq acc result)).
Proof.
  intros HP Hr Ho. unfold classify. cbv zeta.
  destruct (_is_valid_source urlparse_netloc config _ _) eqn:Ev; simpl;
    [|now split].
  apply valid_source_inv in Ev.
  destruct Ev as (u & t & Eu & Et & Hu & Ht & Hex & Hlow).
  rewrite Eu, Et. simpl.
  match goal with
  | |- context [new_source ?n ?a ?b ?c ?d ?e ?f] =>
      assert (Hnew : P (new_source n a b c d e f))
  end.
  { apply HP; [|reflexivity].
    subst ok. unfold acceptable, new_source. simpl.
    destruct u as [|a u]; [contradiction|]. simpl.
    repeat split; assumption. }
  destruct (_is_reputable_source urlparse_netloc config u); simpl.
  - split; [|exact Ho]. apply Forall_app. split; [exact Hr|].
    constructor; [exact Hnew | constructor].
  - split; [exact Hr|]. apply Forall_app. split; [exact Ho|].
    constructor; [exact Hnew | constructor].
Qed.

Lemma classify_fold_keeps (P : Source -> Prop) (sq : string)
    (raw : list raw_result) (acc : list Source * list Source) :
  (forall s, ok s -> sub_question s = sq -> P s) ->
  Forall P (fst acc) -> Forall P (snd acc) ->
  Forall P (fst (fold_left (classify urlparse_netloc strptime config sq)
                   raw acc))
  /\ Forall P (snd (fold_left (classify urlparse_netloc strptime config sq)
                      raw acc)).
Proof.
  intros HP. revert acc.
  induction raw as [|r raw IH]; intros acc Hr Ho; simpl; [now split|].
  destruct (classify_keeps P sq acc r HP Hr Ho) as [Hr' Ho'].
  now apply IH.
Qed.

(** Every source of one search is acceptable, belongs to the question
    asked, and there are at most five of them. *)
Lemma search_single_keeps (c c' : client) (sq : string) (r : SearchResults) :
  single c sq = (Some r, c') ->
  sr_sub_question r = sq
  /\ (List.length (sr_sources r) <= 5)%nat
  /\ Forall (fun s => ok s /\ sub_question s = sq) (sr_sources r).
Proof.
  subst single. unfold search_single. cbv zeta.
  destruct (client_search c _ _) as [[raw|] c1]; [|discriminate].
  pose proof (classify_fold_keeps (fun s => ok s /\ sub_question s = sq) sq
                raw ([], []) ltac:(intros; now split)
                (List.Forall_nil _) (List.Forall_nil _)) as [Hr Ho].
  destruct (fold_left _ raw ([], [])) as [rep oth]. simpl in Hr, Ho.
  intros [= <- _]. simpl.
  split; [reflexivity|]. split; [apply firstn_le_length|].
  apply Forall_take, Forall_app. now split.
Qed.

Lemma dedup_fold_keeps (P : Source -> Prop) (l : list Source)
    (st : gset string * list Source * list Source) :
  Forall P l -> Forall P (snd (fst st)) -> Forall P (snd st) ->
  Forall P (snd (fst (fold_left dedup_step l st)))
  /\ Forall P (snd (fold_left dedup_step l st))
  /\ (List.length (snd (fst (fold_left dedup_step l st)))
      <= List.length (snd (fst st)) + List.length l)%nat.
Proof.
  revert st. induction l as [|src l IH]; intros st Hl Hu Ha; cbn [fold_left].
  - repeat split; [assumption | assumption | lia].
  - apply Forall_cons in Hl. destruct Hl as [Hsrc Hl].
    destruct st as [[seen unique] acc]. unfold dedup_step at 2 4 6.
    destruct (decide (url src ∈ seen)).
    + destruct (IH (seen, unique, acc) Hl Hu Ha) as (H1 & H2 & H3).
      repeat split; [assumption | assumption | simpl in *; lia].
    + destruct (IH ({[url src]} ∪ seen, (unique ++ [src])%list,
                    (acc ++ [src])%list) Hl) as (H1 & H2 & H3).
      { simpl. apply Forall_app. split; [exact Hu | now constructor]. }
      { simpl. apply Forall_app. split; [exact Ha | now constructor]. }
      repeat split; [assumption | assumption|].
      simpl in *. rewrite length_app in H3. simpl in H3. lia.
Qed.

(** The invariant of the loop of [search_all]: the collected sources and
    the per-question entries only hold acceptable sources of the questions
    asked. *)
Lemma search_loop_keeps (asked : list string) (sqs : list string)
    (c c' : client) (seen : gset string)
    (bq bq' : gmap string SearchResults) (acc acc' : list Source) :
  (forall sq, In sq sqs -> In sq asked) ->
  Forall (fun s => ok s /\ In (sub_question s) asked) acc ->
  (forall sq sr, bq !! sq = Some sr ->
     In sq asked /\ sr_sub_question sr = sq
     /\ (List.length (sr_sources sr) <= 5)%nat
     /\ Forall (fun s => ok s /\ sub_question s = sq) (sr_sources sr)) ->
  loop sqs c seen bq acc = (Some (bq', acc'), c') ->
  Forall (fun s => ok s /\ In (sub_question s) asked) acc'
  /\ (forall sq sr, bq' !! sq = Some sr ->
        In sq asked /\ sr_sub_question sr = sq
        /\ (List.length (sr_sources sr) <= 5)%nat
        /\ Forall (fun s => ok s /\ sub_question s = sq) (sr_sources sr)).
Proof.
  subst loop. revert c seen bq acc.
  induction sqs as [|sq sqs IH]; intros c seen bq acc Hsub Hacc Hbq; simpl.
  - intros [= <- <- _]. now split.
  - destruct (search_single _ _ _ _ _ _ c sq) as [[sr|] c1] eqn:Es;
      [|discriminate].
    destruct (search_single_keeps c c1 sq sr Es) as (Hq & Hlen & Hsrc).
    assert (Hasked : In sq asked) by (apply Hsub; now left).
    pose proof (dedup_fold_keeps (fun s => ok s /\ sub_question s = sq)
                  (sr_sources sr) (seen, [], []) Hsrc
                  (List.Forall_nil _) (List.Forall_nil _)) as (Hu & _ & Hul).
    assert (Hsrc' : Forall (fun s => ok s /\ In (sub_question s) asked)
                      (sr_sources sr)).
    { eapply List.Forall_impl; [|exact Hsrc].
      intros s [Hs Hsq]. split; [exact Hs | now rewrite Hsq]. }
    pose proof (dedup_fold_keeps (fun s => ok s /\ In (sub_question s) asked)
                  (sr_sources sr) (seen, [], acc) Hsrc'
                  (List.Forall_nil _) Hacc) as (_ & Ha & _).
    assert (Hsame : snd (fst (fold_left dedup_step (sr_sources sr)
                                (seen, [], []))) =
                    snd (fst (fold_left dedup_step (sr_sources sr)
                                (seen, [], acc)))).
    { clear. generalize (@nil Source) at 1 3. generalize seen.
      generalize acc at 1. generalize (@nil Source).
      induction (sr_sources sr) as [|x l IHl]; intros a0 a1 sn un; simpl;
        [reflexivity|].
      destruct (decide (url x ∈ sn)); apply IHl. }
    rewrite Hsame in Hu, Hul.
    destruct (fold_left dedup_step (sr_sources sr) (seen, [], acc))
      as [[seen1 unique1] acc1]. simpl in Hu, Ha, Hul.
    assert (Hbq1 : forall sq0 sr0,
              <[sq := {| sr_sub_question := sr_sub_question sr;
                         sr_sources := unique1 |}]> bq !! sq0 = Some sr0 ->
              In sq0 asked /\ sr_sub_question sr0 = sq0
              /\ (List.length (sr_sources sr0) <= 5)%nat
              /\ Forall (fun s => ok s /\ sub_question s = sq0)
                   (sr_sources sr0)).
    { intros sq0 sr0. rewrite lookup_insert.
      destruct (decide (sq = sq0)) as [<-|Hne]; [|apply Hbq].
      intros [= <-]. simpl. repeat split; try assumption. lia. }
    destruct (max_total_sources config <=? Z.of_nat (List.length acc1)).
    + intros [= <- <- _]. now split.
    + apply IH; try assumption. intros sq0 H0. apply Hsub. now right.
Qed.

(** X5. Whatever [search_all] returns, every source of [all_sources]
    passed the filters: its url and title are not empty, its domain is
    that of its url and contains no excluded domain, its lowercased title
    contains no low-quality pattern, its content is still empty; and it
    belongs to one of the sub-questions asked. *)
Theorem search_all_sources_acceptable (c c' : client)
    (sub_questions : list string) (d : DiscoveryResults) :
  all c sub_questions = (Some d, c') ->
  Forall (fun s => acceptable urlparse_netloc config s
                   /\ In (sub_question s) sub_questions) (all_sources d).
Proof.
  subst all. unfold search_all.
  destruct (search_loop _ _ _ _ _ _ sub_questions c ∅ ∅ [])
    as [[[bq acc]|] c1] eqn:E; [|discriminate].
  destruct (search_loop_keeps sub_questions sub_questions c c1 ∅ ∅ bq [] acc
              ltac:(auto) (List.Forall_nil _)
              ltac:(intros sq sr H; rewrite lookup_empty in H; discriminate)
              E) as [Hacc _].
  intros [= <- _]. simpl.
  destruct (max_total_sources config <? Z.of_nat (List.length acc));
    [|exact Hacc].
  destruct (SearchProps.py_slice_to_prefix (max_total_sources config) acc)
    as [k ->].
  now apply Forall_take.
Qed.

(** X6. The per-question entries of [search_all]: each is filed under
    a sub-question that was asked, names that sub-question, and holds at
    most five sources, all of them found for that very sub-question. *)
Theorem results_by_question_entries (c c' : client)
    (sub_questions : list string) (d : DiscoveryResults)
    (sq : string) (sr : SearchResults) :
  all c sub_questions = (Some d, c') ->
  results_by_question d !! sq = Some sr ->
  In sq sub_questions
  /\ sr_sub_question sr = sq
  /\ (List.length (sr_sources sr) <= 5)%nat
  /\ Forall (fun s => sub_question s = sq) (sr_sources sr).
Proof.
  subst all. unfold search_all.
  destruct (search_loop _ _ _ _ _ _ sub_questions c ∅ ∅ [])
    as [[[bq acc]|] c1] eqn:E; [|discriminate].
  destruct (search_loop_keeps sub_questions sub_questions c c1 ∅ ∅ bq [] acc
              ltac:(auto) (List.Forall_nil _)
              ltac:(intros sq0 sr0 H; rewrite lookup_empty in H; discriminate)
              E) as [_ Hbq].
  intros [= <- _]. simpl. intros Hl.
  destruct (Hbq sq sr Hl) as (H1 & H2 & H3 & H4).
  repeat split; try assumption.
  eapply List.Forall_impl; [|exact H4]. now intros s [_ Hs].
Qed.

(** X7. The total cap: with a non-negative [max_total_sources],
    [all_sources] never holds more sources than that. *)
Theorem search_all_total_cap (c c' : client) (sub_questions : list string)
    (d : DiscoveryResults) :
  0 <= max_total_sources config ->
  all c sub_questions = (Some d, c') ->
  Z.of_nat (List.length (all_sources d)) <= max_total_sources config.
Proof.
  intros Hmax. subst all. unfold search_all.
  destruct (search_loop _ _ _ _ _ _ sub_questions c ∅ ∅ [])
    as [[[bq acc]|] c1]; [|discriminate].
  intros [= <- _]. simpl.
  destruct (Z.ltb_spec (max_total_sources config)
              (Z.of_nat (List.length acc))) as [Hlt|Hge]; [|lia].
  unfold py_slice_to.
  destruct (Z.leb_spec 0 (max_total_sources config)); [|lia].
  pose proof (firstn_le_length (Z.to_nat (max_total_sources config)) acc).
  lia.
Qed.

(** A failure of the search client is not swallowed: if the client
    raises on the first query, [search_all] raises as well. *)
Remark search_all_propagates_failure (c c1 : client) (sq : string)
    (rest : list string) :
  client_search c (_enhance_query current_year sq)
    (max_results_per_query config) = (None, c1) ->
  all c (sq :: rest) = (None, c1).
Proof.
  intros H. subst all. unfold search_all. simpl.
  unfold search_single. cbv zeta. now rewrite H.
Qed.

End WithSearcher.

Lemma search_all_sources_acceptable_witness :
  Forall (fun s => acceptable test_netloc default_config s
                   /\ In (sub_question s) SearchInputs.two_questions)
    (all_sources SearchInputs.discovered).
Proof.
  apply (search_all_sources_acceptable test_netloc test_strptime "2026" unit
           (fixed_client seven_hits) default_config tt tt
           SearchInputs.two_questions SearchInputs.discovered).
  vm_compute. reflexivity.
Defined.

Lemma results_by_question_entries_witness :
  In "How are AI agents used in production?" SearchInputs.two_questions
  /\ sr_sub_question SearchInputs.first_entry
     = "How are AI agents used in production?"
  /\ (List.length (sr_sources SearchInputs.first_entry) <= 5)%nat
  /\ Forall (fun s => sub_question s
                      = "How are AI agents used in production?")
       (sr_sources SearchInputs.first_entry).
Proof.
  apply (results_by_question_entries test_netloc test_strptime "2026" unit
           (fixed_client seven_hits) default_config tt tt
           SearchInputs.two_questions SearchInputs.discovered);
    vm_compute; reflexivity.
Defined.

Lemma search_all_total_cap_witness :
  Z.of_nat (List.length (all_sources SearchInputs.discovered))
  <= max_total_sources default_config.
Proof.
  apply (search_all_total_cap test_netloc test_strptime "2026" unit
           (fixed_client seven_hits) default_config tt tt
           SearchInputs.two_questions SearchInputs.discovered).
  - vm_compute. discriminate.
  - vm_compute. reflexivity.
Defined.

Lemma search_all_propagates_failure_witness :
  search_all test_netloc test_strptime "2026" unit failing_client
    default_config tt SearchInputs.two_questions = (None, tt).
Proof.
  apply (search_all_propagates_failure test_netloc test_strptime "2026" unit
           failing_client default_config tt tt).
  reflexivity.
Defined.

(** The second question surfaces only urls already seen: its entry is
    empty. *)
Example second_question_adds_nothing :
  option_map (fun sr => List.length (sr_sources sr))
    (results_by_question SearchInputs.discovered
       !! "What failures are reported with AI agents?") = Some 0%nat.
Proof. vm_compute. reflexivity. Qed.

End SearchMore.

(** ** The extractor beyond the specification *)

Module ExtractorMore.
Import SourceModel Extractor ExtractorSummary Spec.

Lemma len_append (a b : string) :
  PyStr.len (a ++ b) = (PyStr.len a + PyStr.len b)%nat.
Proof.
  induction a as [|c a IH]; [reflexivity|].
  change (S (PyStr.len (a ++ b)) = S (PyStr.len a + PyStr.len b)).
  now rewrite IH.
Qed.

Lemma len_slice_to (n : nat) (s : string) :
  PyStr.len (PyStr.slice_to n s) = Nat.min n (PyStr.len s).
Proof.
  revert s. induction n as [|n IH]; intros [|c s]; simpl; auto.
Qed.

Lemma slice_to_all (n : nat) (s : string) :
  (PyStr.len s <= n)%nat -> PyStr.slice_to n s = s.
Proof.
  revert s. induction n as [|n IH]; intros [|c s]; simpl; intros H;
    try reflexivity; try lia.
  rewrite IH; [reflexivity | lia].
Qed.

Lemma slice_to_twice (a b : nat) (s : string) :
  PyStr.slice_to a (PyStr.slice_to b s) = PyStr.slice_to (Nat.min a b) s.
Proof.
  revert b s. induction a as [|a IH]; intros [|b] [|c s]; simpl;
    try reflexivity.
  now rewrite IH.
Qed.

Lemma rfind_from_range (c : ascii) (s : string) (i best : Z) :
  rfind_from c s i best = best
  \/ i <= rfind_from c s i best < i + zlen s.
Proof.
  revert i best. induction s as [|a s IH]; intros i best; simpl;
    [now left|].
  unfold zlen in *. cbn [PyStr.len].
  destruct (IH (i + 1) (if Ascii.eqb a c then i else best)) as [E|E].
  - rewrite E. destruct (Ascii.eqb a c); [right; lia | now left].
  - right. lia.
Qed.

Lemma rfind_range (c : ascii) (s : string) :
  rfind c s = -1 \/ 0 <= rfind c s < zlen s.
Proof. apply rfind_from_range. Qed.

Lemma slice_to_z_nonneg (n : Z) (s : string) :
  0 <= n -> slice_to_z n s = PyStr.slice_to (Z.to_nat n) s.
Proof.
  intros H. unfold slice_to_z. destruct (Z.leb_spec 0 n); [reflexivity | lia].
Qed.

Section WithExtractor.
Variable max_content_length : Z.
Variable preview_length : Z.
Variable http_get : string -> fetch_outcome.
Variable _extract_text : string -> string -> string + option string.

Let single := extract_single max_content_length preview_length http_get
                _extract_text.

Lemma threshold_nonneg (last limit : Z) (factor : Q) :
  0 <= limit -> (0 <= factor)%Q ->
  Qle_bool (inject_Z last) (inject_Z limit * factor)%Q = false ->
  0 <= last.
Proof.
  intros Hl Hf E. apply RankerOrder.Qle_bool_false in E.
  destruct (Z.leb_spec 0 last) as [H|H]; [exact H|].
  exfalso.
  assert (H1 : (inject_Z last <= 0)%Q)
    by (change 0%Q with (inject_Z 0); rewrite <- Zle_Qle; lia).
  assert (H2 : (0 <= inject_Z limit)%Q)
    by (change 0%Q with (inject_Z 0); now rewrite <- Zle_Qle).
  assert (H3 : (0 <= inject_Z limit * factor)%Q)
    by (apply Qmult_le_0_compat; assumption).
  lra.
Qed.

(** The shape of a content after truncation, for a non-negative limit. *)
Lemma truncate_cases (content_ : string) :
  0 <= max_content_length ->
  (zlen content_ <= max_content_length
   /\ _truncate max_content_length content_ = content_)
  \/ (max_content_length < zlen content_
      /\ exists k : nat,
           Z.of_nat k <= max_content_length
           /\ (_truncate max_content_length content_
               = PyStr.slice_to k content_ /\ (0 < k)%nat
               \/ _truncate max_content_length content_
                  = PyStr.slice_to k content_ ++ "...")).
Proof.
  intros Hmax. unfold _truncate. cbv zeta.
  rewrite !(slice_to_z_nonneg max_content_length content_) by exact Hmax.
  set (truncated := PyStr.slice_to (Z.to_nat max_content_length) content_).
  destruct (Z.leb_spec (zlen content_) max_content_length) as [Hfit|Hlong];
    [left; now split | right; split; [exact Hlong|]].
  assert (Ht : zlen truncated = max_content_length).
  { unfold zlen, truncated in *. rewrite len_slice_to. lia. }
  destruct (Qle_bool (inject_Z (rfind "." truncated))
              (inject_Z max_content_length * 0.8)%Q) eqn:Eq; cbn [negb].
  - exists (Z.to_nat max_content_length).
    split; [lia|]. now right.
  - assert (Hpos : 0 <= rfind "." truncated)
      by (apply (threshold_nonneg _ max_content_length 0.8%Q);
          [exact Hmax | discriminate | exact Eq]).
    destruct (rfind_range "." truncated) as [E|E]; [lia|].
    rewrite slice_to_z_nonneg by lia.
    unfold truncated at 2. rewrite slice_to_twice.
    eexists. split; [|left; split; [reflexivity|]]; lia.
Qed.

(** X8. Truncation: with a non-negative limit, a content within the
    limit is returned as it is; a longer one is cut to a prefix of at most
    the limit, followed by "..." unless the cut ends at a full stop; the
    result is never more than three characters over the limit. *)
Theorem truncate_bound (content_ : string) :
  0 <= max_content_length ->
  (zlen content_ <= max_content_length ->
   _truncate max_content_length content_ = content_)
  /\ (exists k : nat,
        Z.of_nat k <= max_content_length
        /\ (_truncate max_content_length content_ = PyStr.slice_to k content_
            \/ _truncate max_content_length content_
               = PyStr.slice_to k content_ ++ "..."))
  /\ zlen (_truncate max_content_length content_) <= max_content_length + 3.
Proof.
  intros Hmax.
  destruct (truncate_cases content_ Hmax)
    as [[Hfit E] | [Hlong (k & Hk & [[E _]|E])]]; rewrite E.
  - split; [reflexivity|]. split; [|lia].
    exists (PyStr.len content_). split; [exact Hfit|]. left.
    symmetry. now apply slice_to_all.
  - split; [lia|]. split; [exists k; tauto|].
    unfold zlen. rewrite len_slice_to. lia.
  - split; [lia|]. split; [exists k; tauto|].
    unfold zlen. rewrite len_append, len_slice_to. simpl. lia.
Qed.

(** X9. Preview: with a non-negative preview length, the preview of
    a content that fits is the content itself, and no preview is more
    than three characters over the preview length. *)
Theorem preview_bound (content_ : string) :
  0 <= preview_length ->
  (zlen content_ <= preview_length ->
   _make_preview preview_length content_ = content_)
  /\ zlen (_make_preview preview_length content_) <= preview_length + 3.
Proof.
  intros Hpl. unfold _make_preview. cbv zeta.
  rewrite !(slice_to_z_nonneg preview_length content_) by exact Hpl.
  set (cut := PyStr.slice_to (Z.to_nat preview_length) content_).
  assert (Hcut : zlen cut <= preview_length).
  { unfold zlen, cut. rewrite len_slice_to. lia. }
  destruct (Z.ltb_spec preview_length (zlen content_)) as [Hlong|Hfit].
  - split; [lia|].
    destruct (negb _).
    + unfold slice_to_z.
      destruct (0 <=? rfind " " cut); unfold zlen in *;
        rewrite len_append, len_slice_to; simpl; lia.
    + unfold zlen in *. rewrite len_append. simpl. lia.
  - split; [|lia].
    intros _. unfold cut. apply slice_to_all. unfold zlen in Hfit. lia.
Qed.

Lemma truncate_nonempty (content_ : string) :
  0 <= max_content_length -> content_ <> "" ->
  _truncate max_content_length content_ <> "".
Proof.
  intros Hmax Hne.
  destruct (truncate_cases content_ Hmax)
    as [[Hfit E] | [Hlong (k & Hk & [[E Hk0]|E])]]; rewrite E.
  - exact Hne.
  - destruct k as [|k]; [lia|]. destruct content_; [contradiction|].
    discriminate.
  - destruct (PyStr.slice_to k content_); discriminate.
Qed.

Lemma failure_used_fallback (src : Source) :
  let res := snd (fst (single src)) in
  success res = false -> used_fallback res = true.
Proof.
  cbv zeta. subst single.
  assert (Hfb : forall err,
    let res := snd (fst (_fallback_to_snippet preview_length src err)) in
    success res = false -> used_fallback res = true).
  { intros err. cbv zeta. unfold _fallback_to_snippet.
    destruct (snippet src) as [[|a sn]|]; simpl; intros; congruence. }
  unfold extract_single.
  destruct (http_get (url src)) as [html| |code|msg]; try apply Hfb.
  destruct (_extract_text html (url src)) as [msg|[c|]]; try apply Hfb.
  destruct (PyStr.truthy c && (100 <? zlen c)); [|apply Hfb].
  simpl. discriminate.
Qed.

(** X10. What one extraction leaves behind.  The result refers to the
    source as it is afterwards and its length field is the length of its
    content.  If it reports success, its content is what the source now
    holds, and (for a non-negative limit) it is not empty.  If it reports
    failure, the source is untouched, the content is empty and the
    fallback flag is set.  An error is recorded exactly on the fallback
    path. *)
Theorem extract_single_result (src : Source) :
  0 <= max_content_length ->
  let res := snd (fst (single src)) in
  er_source res = fst (fst (single src))
  /\ content_length res = zlen (er_content res)
  /\ (success res = true ->
      content (er_source res) = er_content res /\ er_content res <> "")
  /\ (success res = false ->
      er_source res = src /\ er_content res = "" /\ used_fallback res = true)
  /\ (used_fallback res = true <-> error res <> None).
Proof.
  intros Hmax. cbv zeta. subst single.
  assert (Hfb : forall err,
    let res := snd (fst (_fallback_to_snippet preview_length src err)) in
    er_source res = fst (fst (_fallback_to_snippet preview_length src err))
    /\ content_length res = zlen (er_content res)
    /\ (success res = true ->
        content (er_source res) = er_content res /\ er_content res <> "")
    /\ (success res = false ->
        er_source res = src /\ er_content res = ""
        /\ used_fallback res = true)
    /\ (used_fallback res = true <-> error res <> None)).
  { intros err. cbv zeta. unfold _fallback_to_snippet.
    destruct (snippet src) as [[|a sn]|]; simpl;
      repeat split; try reflexivity; try discriminate; intros; congruence. }
  unfold extract_single.
  destruct (http_get (url src)) as [html| |code|msg]; try apply Hfb.
  destruct (_extract_text html (url src)) as [msg|[c|]]; try apply Hfb.
  destruct (PyStr.truthy c && (100 <? zlen c)) eqn:E; [|apply Hfb].
  simpl. repeat split; try reflexivity; try discriminate;
    try (intros; congruence).
  apply truncate_nonempty; [exact Hmax|].
  apply andb_prop in E. destruct E as [E _]. now destruct c.
Qed.

Lemma count_if_range p (l : list ExtractionResult) :
  0 <= count_if p l <= Z.of_nat (List.length l).
Proof.
  unfold count_if. pose proof (List.filter_length_le p l). lia.
Qed.

Lemma results_from_sources (sources : list Source) (completion : list nat)
    (res : ExtractionResult) :
  In res (snd (fst (extract_all max_content_length preview_length http_get
                      _extract_text sources completion))) ->
  exists s, In s sources
            /\ res = snd (fst (extract_single max_content_length
                                 preview_length http_get _extract_text s)).
Proof.
  unfold extract_all. cbn [fst snd]. intros Hin.
  apply list_elem_of_In, list_elem_of_omap in Hin.
  destruct Hin as [j [_ Hj]].
  rewrite PipelineProps.lookup_map in Hj.
  destruct (sources !! j) as [s|] eqn:Es; [|discriminate].
  simpl in Hj. injection Hj as <-.
  exists s. split; [|reflexivity].
  apply list_elem_of_In. now apply list_elem_of_lookup_2 with j.
Qed.

(** One result comes back for every index the pool hands back. *)
Lemma results_length (sources : list Source) (completion : list nat) :
  (forall i, In i completion -> (i < List.length sources)%nat) ->
  List.length (snd (fst (extract_all max_content_length preview_length
                           http_get _extract_text sources completion)))
  = List.length completion.
Proof.
  unfold extract_all. cbn [fst snd].
  induction completion as [|i l IH]; intros Hin; [reflexivity|].
  cbn [omap list_omap]. rewrite PipelineProps.lookup_map.
  destruct (lookup_lt_is_Some_2 sources i (Hin i (or_introl eq_refl)))
    as [s ->].
  simpl. f_equal. apply IH. intros j Hj. apply Hin. now right.
Qed.

(** X11. The summary of [extract_all]: successes and failures add up
    to the total, every failure went through the fallback, the fallback
    count does not exceed the total, the success rate lies in [0, 1], and
    when the pool hands back each submitted source once the total is the
    number of sources. *)
Theorem extraction_summary_counts (sources : list Source)
    (completion : list nat) :
  let s := extract_all_summary max_content_length preview_length http_get
             _extract_text sources completion in
  total s = successful s + failed s
  /\ 0 <= successful s /\ 0 <= failed s
  /\ failed s <= fallback_count s <= total s
  /\ (0 <= success_rate s <= 1)%Q
  /\ (Permutation completion (seq 0 (List.length sources)) ->
      total s = Z.of_nat (List.length sources)).
Proof.
  cbv zeta. unfold extract_all_summary, summarize.
  cbn [total successful failed fallback_count].
  set (rs := snd (fst (extract_all max_content_length preview_length http_get
                         _extract_text sources completion))).
  pose proof (count_if_range success rs) as Hs.
  pose proof (count_if_range used_fallback rs) as Hf.
  assert (Hfail : Z.of_nat (List.length rs) - count_if success rs
                  <= count_if used_fallback rs).
  { assert (Hall : Forall (fun r => success r = false ->
                                    used_fallback r = true) rs).
    { apply List.Forall_forall. intros r Hr.
      destruct (results_from_sources sources completion r Hr) as [s [_ ->]].
      apply failure_used_fallback. }
    unfold count_if. clear -Hall.
    induction Hall as [|r l Hr _ IH]; simpl; [lia|].
    destruct (success r) eqn:Es; destruct (used_fallback r) eqn:Eu;
      simpl; try lia; specialize (Hr eq_refl); discriminate. }
  repeat split; try lia.
  - unfold success_rate. cbn [total successful].
    destruct (Z.ltb_spec 0 (Z.of_nat (List.length rs))); [|lra].
    apply Qle_shift_div_l.
    + change 0%Q with (inject_Z 0). rewrite <- Zlt_Qlt. lia.
    + rewrite Qmult_0_l. change 0%Q with (inject_Z 0).
      rewrite <- Zle_Qle. lia.
  - unfold success_rate. cbn [total successful].
    destruct (Z.ltb_spec 0 (Z.of_nat (List.length rs))); [|lra].
    apply Qle_shift_div_r.
    + change 0%Q with (inject_Z 0). rewrite <- Zlt_Qlt. lia.
    + rewrite Qmult_1_l. rewrite <- Zle_Qle. lia.
  - intros Hperm. f_equal. subst rs.
    rewrite results_length;
      [rewrite (Permutation_length Hperm); apply length_seq|].
    intros i Hi. eapply Permutation_in in Hi; [|exact Hperm].
    apply in_seq in Hi. lia.
Qed.

End WithExtractor.

Lemma truncate_bound_witness :
  (zlen "Agents fail. Often badly." <= 10 ->
   _truncate 10 "Agents fail. Often badly." = "Agents fail. Often badly.")
  /\ (exists k : nat,
        Z.of_nat k <= 10
        /\ (_truncate 10 "Agents fail. Often badly."
            = PyStr.slice_to k "Agents fail. Often badly."
            \/ _truncate 10 "Agents fail. Often badly."
               = PyStr.slice_to k "Agents fail. Often badly." ++ "..."))
  /\ zlen (_truncate 10 "Agents fail. Often badly.") <= 10 + 3.
Proof.
  apply (truncate_bound 10 "Agents fail. Often badly."). discriminate.
Defined.

(** A cut that ends at a full stop past 80% of the limit keeps the full
    stop and gets no dots; any other cut gets them. *)
Example truncate_at_full_stop :
  _truncate 10 "Agents do. Well, sometimes." = "Agents do."
  /\ _truncate 10 "Agents fail. Often badly." = "Agents fai...".
Proof. split; vm_compute; reflexivity. Qed.

Lemma preview_bound_witness :
  (zlen "Agents fail. Often badly." <= 12 ->
   _make_preview 12 "Agents fail. Often badly." = "Agents fail. Often badly.")
  /\ zlen (_make_preview 12 "Agents fail. Often badly.") <= 12 + 3.
Proof.
  apply (preview_bound 12 "Agents fail. Often badly."). discriminate.
Defined.

Example preview_of_long_content :
  _make_preview 12 "Agents fail. Often badly." = "Agents fail....".
Proof. vm_compute. reflexivity. Qed.

Lemma extract_single_result_witness :
  let res := snd (fst (extract_single 15000 400 always_timeout no_text
                         long_snippet_source)) in
  er_source res
  = fst (fst (extract_single 15000 400 always_timeout no_text
                long_snippet_source))
  /\ content_length res = zlen (er_content res)
  /\ (success res = true ->
      content (er_source res) = er_content res /\ er_content res <> "")
  /\ (success res = false ->
      er_source res = long_snippet_source /\ er_content res = ""
      /\ used_fallback res = true)
  /\ (used_fallback res = true <-> error res <> None).
Proof.
  apply (extract_single_result 15000 400 always_timeout no_text
           long_snippet_source).
  discriminate.
Defined.

Lemma extraction_summary_counts_witness :
  total (extract_all_summary 15000 400 always_timeout no_text
           [bare_source; long_snippet_source] [1%nat; 0%nat])
  = Z.of_nat (List.length [bare_source; long_snippet_source]).
Proof.
  apply (extraction_summary_counts 15000 400 always_timeout no_text
           [bare_source; long_snippet_source] [1%nat; 0%nat]).
  apply perm_swap.
Defined.

(** Two sources, both fetches time out: the one with a snippet succeeds
    through the fallback, the one without fails. *)
Example summary_of_two_sources :
  let s := extract_all_summary 15000 400 always_timeout no_text
             [bare_source; long_snippet_source] [1%nat; 0%nat] in
  (total s, successful s, failed s, fallback_count s) = (2, 1, 1, 2)
  /\ Qred (success_rate s) = (1 # 2)%Q.
Proof. vm_compute. split; reflexivity. Qed.

End ExtractorMore.

(** ** The pipeline stages beyond the specification *)

Module PipelineMore.
Import SourceModel Extractor Pipeline Spec.

Section WithStages.
Variable max_content_length : Z.
Variable preview_length : Z.
Variable http_get : string -> fetch_outcome.
Variable _extract_text : string -> string -> string + option string.
Variable extract_from_source : Source -> SourceClaims.

Lemma success_content (s : Source) :
  let res := snd (fst (extract_single max_content_length preview_length
                         http_get _extract_text s)) in
  success res = true ->
  content (er_source res) = er_content res
  /\ content_length res = zlen (er_content res).
Proof.
  cbv zeta.
  assert (Hfb : forall err,
    let res := snd (fst (_fallback_to_snippet preview_length s err)) in
    success res = true ->
    content (er_source res) = er_content res
    /\ content_length res = zlen (er_content res)).
  { intros err. cbv zeta. unfold _fallback_to_snippet.
    destruct (snippet s) as [[|a sn]|]; simpl; intros H;
      try discriminate; now split. }
  unfold extract_single.
  destruct (http_get (url s)) as [html| |code|msg]; try apply Hfb.
  destruct (_extract_text html (url s)) as [msg|[c|]]; try apply Hfb.
  destruct (PyStr.truthy c && (100 <? zlen c)); [|apply Hfb].
  simpl. now split.
Qed.

(** X12. What reaches the ranker: at most ten sources are ranked, and
    every ranked source holds a content of more than 100 characters. *)
Theorem ranked_sources_have_content (now : datetime)
    (sources : list Source) (completion : list nat) :
  let r := run_stages max_content_length preview_length http_get
             _extract_text extract_from_source now sources completion in
  (List.length (Ranker.ranked_sources (ranking r)) <= 10)%nat
  /\ Forall (fun sc => 100 < zlen (content (Ranker.source sc)))
       (Ranker.ranked_sources (ranking r)).
Proof.
  cbv zeta. unfold run_stages, extract_all. cbn [ranking].
  match goal with
  | |- context [Ranker.rank_sources now ?l ?m] =>
      set (input := l); set (cbs := m)
  end.
  split.
  - transitivity (List.length input).
    + unfold Ranker.rank_sources. cbn [Ranker.ranked_sources].
      transitivity (List.length (List.map Ranker.rank
        (Ranker.assign_ranks 0
           (Ranker.sort_desc (Ranker.score_all now input cbs))))).
      { now rewrite length_map. }
      rewrite RankerOrder.assign_ranks_rank, length_seq.
      rewrite (Permutation_length (RankerOrder.sort_desc_perm _)).
      now rewrite RankerOrder.score_all_length.
    + unfold input. apply firstn_le_length.
  - apply List.Forall_forall. intros sc Hin.
    apply PipelineProps.ranked_from_input in Hin.
    unfold input in Hin. apply PipelineProps.In_firstn in Hin.
    apply in_map_iff in Hin. destruct Hin as [res [Hres Hin]].
    apply List.filter_In in Hin. destruct Hin as [Hin Hok].
    apply andb_prop in Hok. destruct Hok as [Hsucc Hlen].
    apply Z.ltb_lt in Hlen.
    apply list_elem_of_In, list_elem_of_omap in Hin.
    destruct Hin as [j [_ Hj]].
    rewrite PipelineProps.lookup_map in Hj.
    destruct (sources !! j) as [s|]; [|discriminate].
    simpl in Hj. injection Hj as <-.
    destruct (success_content s Hsucc) as [Hc Hl].
    rewrite <- Hres, Hc, <- Hl. exact Hlen.
Qed.

End WithStages.

(** Of two sources whose fetch times out, only the one with a long
    snippet reaches the ranker. *)
Example only_long_content_is_ranked :
  List.map (fun sc => url (Ranker.source sc))
    (Ranker.ranked_sources
       (ranking (run_stages 15000 400 always_timeout no_text no_claims 0
                   [bare_source; long_snippet_source] [1%nat; 0%nat])))
  = ["https://example.org/a3"].
Proof. vm_compute. reflexivity. Qed.

End PipelineMore.

(** ** Decisions and gaps beyond the specification *)

Module DecisionMore.
Import Decision DecisionMaker Spec.

Lemma parse_needs_confidence (response : gmap string json)
    (ranking : option Ranker.RankingResult) (evidence : list ClaimModel.Claim)
    (gaps : option Gaps.GapAnalysisResult) (r : Recommendation) :
  _parse_response response ranking evidence gaps = inr r ->
  exists tier, proposed_confidence response = inr tier.
Proof.
  unfold _parse_response.
  destruct (proposed_confidence response) as [e|tier]; [discriminate|].
  eauto.
Qed.

Lemma adjust_under_cap (tier : string) (g : Gaps.GapAnalysisResult) :
  cap_condition g -> adjust_confidence tier (Some g) <> "high".
Proof.
  intros Hcap. destruct (String.eqb_spec tier "high") as [->|Hne].
  - rewrite (DecisionProps.adjust_high_capped g Hcap). discriminate.
  - now rewrite (DecisionProps.adjust_not_high tier (Some g) Hne).
Qed.

Section Make.
Variable exn_text : exn -> string.

Lemma capped_never_high (llm : string + gmap string json)
    (evidence : list ClaimModel.Claim) (g : Gaps.GapAnalysisResult)
    (ranking : option Ranker.RankingResult) :
  cap_condition g ->
  confidence (make_recommendation exn_text llm evidence g ranking) <> "high".
Proof.
  intros Hcap. unfold make_recommendation.
  destruct llm as [message|response]; [discriminate|].
  destruct (_parse_response response ranking evidence (Some g))
    as [e|r] eqn:E; [discriminate|].
  destruct (parse_needs_confidence _ _ _ _ _ E) as [tier Ht].
  rewrite (DecisionProps.parse_response_confidence _ _ _ _ _ _ Ht E).
  now apply adjust_under_cap.
Qed.

(** X13. [make_recommendation] always yields a recommendation; when
    the LLM call raises, or its answer makes the parse raise, that is the
    fallback with confidence "low" and no sources; and with gaps that meet
    the capping condition the confidence is never "high", whatever the LLM
    answers. *)
Theorem make_recommendation_guarded (llm : string + gmap string json)
    (evidence : list ClaimModel.Claim) (g : Gaps.GapAnalysisResult)
    (ranking : option Ranker.RankingResult) :
  (forall message,
     llm = inl message ->
     make_recommendation exn_text llm evidence g ranking
     = fallback_recommendation message)
  /\ (forall response e,
        llm = inr response ->
        _parse_response response ranking evidence (Some g) = inl e ->
        make_recommendation exn_text llm evidence g ranking
        = fallback_recommendation (exn_text e))
  /\ (cap_condition g ->
      confidence (make_recommendation exn_text llm evidence g ranking)
      <> "high").
Proof.
  split; [|split].
  - intros message ->. reflexivity.
  - intros response e -> H. unfold make_recommendation. now rewrite H.
  - apply capped_never_high.
Qed.

(** X14. Without evidence no "high": the gap result the detector
    returns when there are no claims has three gaps, two of them unknowns
    of high importance, so the recommendation made with it never has
    confidence "high". *)
Theorem no_claims_no_high_confidence (question : string)
    (llm : string + gmap string json) (evidence : list ClaimModel.Claim)
    (ranking : option Ranker.RankingResult) :
  Gaps.total_gaps (_empty_result question) = 3%nat
  /\ Gaps.has_critical_gaps (_empty_result question) = true
  /\ confidence (make_recommendation exn_text llm evidence
                   (_empty_result question) ranking) <> "high".
Proof.
  split; [reflexivity|]. split; [reflexivity|].
  apply capped_never_high.
  right. left. vm_compute. lia.
Qed.

End Make.

Lemma make_recommendation_guarded_witness :
  confidence (make_recommendation exn_name (inr response_high) []
                gaps_five None) <> "high".
Proof.
  apply (proj2 (proj2 (make_recommendation_guarded exn_name
                         (inr response_high) [] gaps_five None))).
  left. vm_compute. lia.
Defined.

(** A confidence that is a number makes [.lower()] raise; the fallback
    answers. *)
Example number_as_confidence :
  make_recommendation exn_name (inr response_bad_confidence) [] gaps_one None
  = fallback_recommendation "AttributeError".
Proof. vm_compute. reflexivity. Qed.

Lemma slice_size (n : nat) (v w : json) :
  slice n v = inr w -> (json_size w <= n)%nat.
Proof.
  destruct v; simpl; intros H; try discriminate; injection H as <-; simpl.
  - rewrite ExtractorMore.len_slice_to. lia.
  - apply firstn_le_length.
Qed.

(** X15. The returned recommendation is bounded: at most 6 key
    reasons, 4 trade-offs, 5 risks, 5 next steps and 3 top sources; without
    a ranking there are no top sources, and a response without a decision
    gets the default text. *)
Theorem parse_response_bounded (response : gmap string json)
    (ranking : option Ranker.RankingResult) (evidence : list ClaimModel.Claim)
    (gaps : option Gaps.GapAnalysisResult) (r : Recommendation) :
  _parse_response response ranking evidence gaps = inr r ->
  (json_size (key_reasons r) <= 6)%nat
  /\ (json_size (trade_offs r) <= 4)%nat
  /\ (json_size (risks r) <= 5)%nat
  /\ (json_size (next_steps r) <= 5)%nat
  /\ (List.length (top_sources r) <= 3)%nat
  /\ (ranking = None -> top_sources r = [])
  /\ (response !! "decision" = None ->
      decision r = JStr "No clear recommendation could be made.").
Proof.
  unfold _parse_response.
  destruct (proposed_confidence response) as [e|tier]; [discriminate|]. simpl.
  destruct (slice 6 _) as [e|kr] eqn:E1; simpl; [discriminate|].
  destruct (slice 4 _) as [e|tr] eqn:E2; simpl; [discriminate|].
  destruct (slice 5 (get response "risks" _)) as [e|ri] eqn:E3; simpl;
    [discriminate|].
  destruct (slice 5 (get response "next_steps" _)) as [e|ns] eqn:E4; simpl;
    [discriminate|].
  intros [= <-]. simpl.
  repeat split; eauto using slice_size.
  - destruct ranking as [rk|]; simpl; [|lia].
    rewrite length_map. unfold Ranker.top_3. apply firstn_le_length.
  - now intros ->.
  - unfold get. now intros ->.
Qed.

Lemma parse_response_bounded_witness :
  (json_size (key_reasons parsed_long) <= 6)%nat
  /\ (json_size (trade_offs parsed_long) <= 4)%nat
  /\ (json_size (risks parsed_long) <= 5)%nat
  /\ (json_size (next_steps parsed_long) <= 5)%nat
  /\ (List.length (top_sources parsed_long) <= 3)%nat
  /\ (@None Ranker.RankingResult = None -> top_sources parsed_long = [])
  /\ (response_long !! "decision" = None ->
      decision parsed_long = JStr "No clear recommendation could be made.").
Proof.
  apply (parse_response_bounded response_long None [] (Some gaps_one)
           parsed_long).
  vm_compute. reflexivity.
Defined.

(** Eight reasons come back as six, under the default decision text. *)
Example eight_reasons_cut_to_six :
  json_size (key_reasons parsed_long) = 6%nat
  /\ decision parsed_long = JStr "No clear recommendation could be made."
  /\ confidence parsed_long = "medium".
Proof. vm_compute. repeat split; reflexivity. Qed.

End DecisionMore.

(** ** Gap counts *)

Module GapsMore.
Import Decision Spec.

Lemma high_unknowns_le (g : Gaps.GapAnalysisResult) :
  (high_importance_unknowns g <= List.length (Gaps.unknowns g))%nat.
Proof. unfold high_importance_unknowns. apply List.filter_length_le. Qed.

(** X16. How the gap counts relate: there are critical gaps exactly
    when at least one unknown has importance "high"; the high-importance
    unknowns and the conflicts are counted in the total; so with fewer than
    two gaps in total no confidence is ever changed. *)
Theorem gap_counts (g : Gaps.GapAnalysisResult) :
  (Gaps.has_critical_gaps g = true <-> (1 <= high_importance_unknowns g)%nat)
  /\ (high_importance_unknowns g + List.length (Gaps.conflicts g)
      <= Gaps.total_gaps g)%nat
  /\ ((Gaps.total_gaps g < 2)%nat ->
      forall tier, adjust_confidence tier (Some g) = tier).
Proof.
  pose proof (high_unknowns_le g) as Hle.
  split; [|split].
  - clear Hle. unfold Gaps.has_critical_gaps, high_importance_unknowns.
    induction (Gaps.unknowns g) as [|u l IH]; simpl.
    + split; [discriminate | lia].
    + destruct (String.eqb (Gaps.importance u) "high"); simpl.
      * split; [lia | reflexivity].
      * exact IH.
  - unfold Gaps.total_gaps. lia.
  - intros Hfew tier. unfold Gaps.total_gaps in Hfew.
    destruct (String.eqb_spec tier "high") as [->|Hne].
    + apply DecisionProps.adjust_high_kept. unfold cap_condition.
      unfold Gaps.total_gaps. lia.
    + now apply DecisionProps.adjust_not_high.
Qed.

Lemma gap_counts_witness :
  adjust_confidence "high" (Some gaps_one) = "high".
Proof.
  apply (proj2 (proj2 (gap_counts gaps_one))). vm_compute. lia.
Defined.

End GapsMore.

(** ** Sessions beyond the specification *)

Module SessionMore.
Import SessionModel Spec.

Lemma append_assoc (a b c : string) : (a ++ b) ++ c = a ++ (b ++ c).
Proof.
  induction a as [|x a IH]; [reflexivity|].
  change (String x ((a ++ b) ++ c) = String x (a ++ (b ++ c))).
  now rewrite IH.
Qed.

Lemma rev_onto_app (s acc : string) :
  PyStr.rev_onto s acc = PyStr.reverse s ++ acc.
Proof.
  unfold PyStr.reverse. revert acc.
  induction s as [|c s IH]; intros acc; [reflexivity|].
  change (PyStr.rev_onto s (String c acc)
          = PyStr.rev_onto s (String c "") ++ acc).
  rewrite (IH (String c acc)), (IH (String c "")), append_assoc.
  reflexivity.
Qed.

Lemma reverse_cons (c : ascii) (s : string) :
  PyStr.reverse (String c s) = PyStr.reverse s ++ String c "".
Proof.
  unfold PyStr.reverse at 1.
  change (PyStr.rev_onto s (String c "") = PyStr.reverse s ++ String c "").
  apply rev_onto_app.
Qed.

Lemma reverse_app (a b : string) :
  PyStr.reverse (a ++ b) = PyStr.reverse b ++ PyStr.reverse a.
Proof.
  induction a as [|x a IH].
  - change (PyStr.reverse b = PyStr.reverse b ++ "").
    now rewrite SearchMore.append_empty_r.
  - change (PyStr.reverse (String x (a ++ b))
            = PyStr.reverse b ++ PyStr.reverse (String x a)).
    rewrite !reverse_cons, IH. apply append_assoc.
Qed.

Lemma reverse_involutive (s : string) : PyStr.reverse (PyStr.reverse s) = s.
Proof.
  induction s as [|c s IH]; [reflexivity|].
  rewrite reverse_cons, reverse_app, IH. reflexivity.
Qed.

(** A string without leading white space. *)
Lemma lstrip_fixed (s : string) :
  PyStr.lstrip s = s
  <-> match s with
      | EmptyString => True
      | String c _ => PyStr.isspace c = false
      end.
Proof.
  destruct s as [|c s]; [tauto|]. simpl.
  destruct (PyStr.isspace c) eqn:E; split; try reflexivity; try discriminate.
  intros H. exfalso.
  assert (Hlen : forall t, (PyStr.len (PyStr.lstrip t) <= PyStr.len t)%nat).
  { induction t as [|a t IHt]; simpl; [lia|].
    destruct (PyStr.isspace a); simpl; lia. }
  specialize (Hlen s). rewrite H in Hlen. simpl in Hlen. lia.
Qed.

Lemma lstrip_idempotent (s : string) :
  PyStr.lstrip (PyStr.lstrip s) = PyStr.lstrip s.
Proof.
  induction s as [|c s IH]; [reflexivity|]. simpl.
  destruct (PyStr.isspace c) eqn:E; [exact IH|].
  simpl. now rewrite E.
Qed.

Lemma rstrip_idempotent (s : string) :
  PyStr.rstrip (PyStr.rstrip s) = PyStr.rstrip s.
Proof.
  unfold PyStr.rstrip. now rewrite reverse_involutive, lstrip_idempotent.
Qed.

Lemma lstrip_keeps_last (u : string) (c : ascii) :
  PyStr.isspace c = false ->
  exists v, PyStr.lstrip (u ++ String c "") = v ++ String c "".
Proof.
  intros Hc. induction u as [|a u IH].
  - exists "". simpl. now rewrite Hc.
  - change (String a u ++ String c "") with (String a (u ++ String c "")).
    simpl. destruct (PyStr.isspace a); [exact IH|].
    now exists (String a u).
Qed.

(** Stripping on the right leaves a string without leading white space
    without leading white space. *)
Lemma lstrip_rstrip (t : string) :
  PyStr.lstrip t = t -> PyStr.lstrip (PyStr.rstrip t) = PyStr.rstrip t.
Proof.
  intros Ht. apply lstrip_fixed in Ht.
  destruct t as [|c t]; [reflexivity|].
  unfold PyStr.rstrip. rewrite reverse_cons.
  destruct (lstrip_keeps_last (PyStr.reverse t) c Ht) as [v ->].
  rewrite reverse_app. apply lstrip_fixed. exact Ht.
Qed.

Lemma strip_clean (s : string) :
  PyStr.lstrip (PyStr.strip s) = PyStr.strip s
  /\ PyStr.rstrip (PyStr.strip s) = PyStr.strip s
  /\ PyStr.strip (PyStr.strip s) = PyStr.strip s.
Proof.
  unfold PyStr.strip.
  assert (H1 : PyStr.lstrip (PyStr.rstrip (PyStr.lstrip s))
               = PyStr.rstrip (PyStr.lstrip s))
    by apply lstrip_rstrip, lstrip_idempotent.
  split; [exact H1|]. split; [apply rstrip_idempotent|].
  rewrite H1. apply rstrip_idempotent.
Qed.

(** X17. An accepted question is clean: it is the stripped input, it
    has neither leading nor trailing white space, its length lies between
    5 and 10000, and validating it again returns it unchanged. *)
Theorem validate_input_clean (q cleaned : string) :
  validate_input (Some q) = inr cleaned ->
  cleaned = PyStr.strip q
  /\ PyStr.lstrip cleaned = cleaned /\ PyStr.rstrip cleaned = cleaned
  /\ MIN_QUESTION_LENGTH <= Z.of_nat (PyStr.len cleaned) <= MAX_QUESTION_LENGTH
  /\ validate_input (Some cleaned) = inr cleaned.
Proof.
  intros H.
  assert (Hc : cleaned = PyStr.strip q /\ ~ rejected q).
  { unfold validate_input in H. cbv zeta in H.
    destruct (negb (PyStr.truthy (PyStr.strip q))) eqn:Et; [discriminate|].
    destruct (Z.ltb_spec (Z.of_nat (PyStr.len (PyStr.strip q)))
                MIN_QUESTION_LENGTH); [discriminate|].
    destruct (Z.ltb_spec MAX_QUESTION_LENGTH
                (Z.of_nat (PyStr.len (PyStr.strip q)))); [discriminate|].
    injection H as <-. split; [reflexivity|].
    unfold rejected, stripped_length, MIN_QUESTION_LENGTH in *. lia. }
  destruct Hc as [-> Hok].
  destruct (strip_clean q) as (Hl & Hr & Hs).
  split; [reflexivity|]. split; [exact Hl|]. split; [exact Hr|].
  assert (Hok' : ~ rejected (PyStr.strip q)).
  { unfold rejected, stripped_length in *. now rewrite Hs. }
  split.
  - unfold rejected, stripped_length in Hok. lia.
  - rewrite (SessionProps.validate_accepted _ Hok'). now rewrite Hs.
Qed.

Lemma validate_input_clean_witness :
  "Should we adopt AI agents?" = PyStr.strip "  Should we adopt AI agents? "
  /\ PyStr.lstrip "Should we adopt AI agents?" = "Should we adopt AI agents?"
  /\ PyStr.rstrip "Should we adopt AI agents?" = "Should we adopt AI agents?"
  /\ MIN_QUESTION_LENGTH
     <= Z.of_nat (PyStr.len "Should we adopt AI agents?")
     <= MAX_QUESTION_LENGTH
  /\ validate_input (Some "Should we adopt AI agents?")
     = inr "Should we adopt AI agents?".
Proof.
  apply (validate_input_clean "  Should we adopt AI agents? "
           "Should we adopt AI agents?").
  reflexivity.
Defined.

Section WithClock.
Variable strftime_ymd : SourceModel.datetime -> string.

(** X18. Creating a session touches one entry of the store: every
    other id looks up as before; the count grows by one when the new id
    was free, and stays as it was when the id was taken, the older session
    being replaced. *)
Theorem create_session_frame (sessions : gmap string Session)
    (q : string) (now_id now_created : SourceModel.datetime)
    (uuid_hex : string) :
  ~ rejected q ->
  let sid := generate_session_id strftime_ymd now_id uuid_hex in
  let after := snd (create_session strftime_ymd sessions (Some q) now_id
                      now_created uuid_hex) in
  (forall other, other <> sid ->
     get_session after other = get_session sessions other)
  /\ (sessions !! sid = None ->
      session_count after = S (session_count sessions))
  /\ (is_Some (sessions !! sid) ->
      session_count after = session_count sessions).
Proof.
  intros Hok. cbv zeta. unfold create_session.
  rewrite (SessionProps.validate_accepted q Hok). cbv zeta. cbn [snd].
  unfold get_session, session_count.
  split; [|split].
  - intros other Hne. now apply lookup_insert_ne.
  - intros Hfree. now apply map_size_insert_None.
  - intros Htaken. now apply map_size_insert_Some.
Qed.

End WithClock.

Lemma create_session_frame_witness :
  let sid := generate_session_id fixed_date 0
               "a1b2c3d4e5f60718293a4b5c6d7e8f90" in
  let after := snd (create_session fixed_date ∅
                      (Some "  Should we adopt AI agents? ") 0 0
                      "a1b2c3d4e5f60718293a4b5c6d7e8f90") in
  (forall other, other <> sid ->
     get_session after other = get_session ∅ other)
  /\ ((∅ : gmap string Session) !! sid = None ->
      session_count after = S (session_count (∅ : gmap string Session)))
  /\ (is_Some ((∅ : gmap string Session) !! sid) ->
      session_count after = session_count (∅ : gmap string Session)).
Proof.
  apply (create_session_frame fixed_date ∅ "  Should we adopt AI agents? "
           0 0 "a1b2c3d4e5f60718293a4b5c6d7e8f90").
  intros [H | [H | H]]; vm_compute in H; discriminate.
Defined.

End SessionMore.

(** ** Claims: grouping and extraction *)

Module ClaimsMore.
Import Decision ClaimModel ClaimGroups ClaimExtractor ClaimSpec Spec.

Lemma ClaimType_eqb_spec (a b : ClaimType) :
  reflect (a = b) (ClaimType_eqb a b).
Proof. destruct a, b; simpl; constructor; congruence. Qed.

Lemma group_of_add (t t' : ClaimType) (c : Claim) (result : groups) :
  group_of t (add_claim t' c result)
  = if ClaimType_eqb t t'
    then Some (default [] (group_of t result) ++ [c])%list
    else group_of t result.
Proof.
  induction result as [|[t0 l] rest IH]; simpl.
  - destruct (ClaimType_eqb t t'); reflexivity.
  - destruct (ClaimType_eqb_spec t' t0) as [->|Hne]; simpl.
    + destruct (ClaimType_eqb t t0); reflexivity.
    + rewrite IH.
      destruct (ClaimType_eqb_spec t t0) as [E1|Hne'];
        destruct (ClaimType_eqb_spec t t') as [E2|Hne'']; try reflexivity.
      exfalso. apply Hne. congruence.
Qed.

Lemma keys_add (t : ClaimType) (c : Claim) (result : groups) :
  List.map fst (add_claim t c result)
  = match group_of t result with
    | Some _ => List.map fst result
    | None => (List.map fst result ++ [t])%list
    end.
Proof.
  induction result as [|[t0 l] rest IH]; simpl; [reflexivity|].
  destruct (ClaimType_eqb t t0); simpl; [reflexivity|].
  rewrite IH. now destruct (group_of t rest).
Qed.

Lemma group_of_key (t : ClaimType) (result : groups) :
  group_of t result = None <-> ~ In t (List.map fst result).
Proof.
  induction result as [|[t0 l] rest IH]; simpl; [tauto|].
  destruct (ClaimType_eqb_spec t t0) as [->|Hne].
  - split; [discriminate | intros H; exfalso; apply H; now left].
  - rewrite IH. split; [intros H [E|E]; [congruence | contradiction]|tauto].
Qed.

Lemma sizes_add (t : ClaimType) (c : Claim) (result : groups) :
  list_sum (List.map (fun g => List.length (snd g)) (add_claim t c result))
  = S (list_sum (List.map (fun g => List.length (snd g)) result)).
Proof.
  induction result as [|[t0 l] rest IH]; simpl; [reflexivity|].
  destruct (ClaimType_eqb t t0); simpl.
  - rewrite length_app. simpl. lia.
  - rewrite IH. lia.
Qed.

Lemma of_type_snoc (t : ClaimType) (pre : list Claim) (c : Claim) :
  of_type t (pre ++ [c])
  = (of_type t pre ++ if ClaimType_eqb (claim_type c) t then [c] else [])%list.
Proof. unfold of_type. rewrite List.filter_app. reflexivity. Qed.

Lemma groups_fold (cl pre : list Claim) (result : groups) :
  (forall t, group_of t result = non_empty (of_type t pre)) ->
  NoDup (List.map fst result) ->
  list_sum (List.map (fun g => List.length (snd g)) result) = List.length pre ->
  let final := fold_left (fun r claim => add_claim (claim_type claim) claim r)
                 cl result in
  (forall t, group_of t final = non_empty (of_type t (pre ++ cl)))
  /\ NoDup (List.map fst final)
  /\ list_sum (List.map (fun g => List.length (snd g)) final)
     = List.length (pre ++ cl).
Proof.
  revert pre result. induction cl as [|c cl IH]; intros pre result Hg Hk Hs.
  - cbv zeta. simpl. rewrite app_nil_r. now split.
  - cbv zeta. cbn [fold_left].
    replace (pre ++ c :: cl)%list with ((pre ++ [c]) ++ cl)%list
      by (rewrite <- app_assoc; reflexivity).
    apply IH.
    + intros t. rewrite group_of_add, of_type_snoc, Hg.
      destruct (ClaimType_eqb_spec t (claim_type c)) as [->|Hne].
      * destruct (ClaimType_eqb_spec (claim_type c) (claim_type c));
          [|contradiction].
        destruct (of_type (claim_type c) pre); reflexivity.
      * destruct (ClaimType_eqb_spec (claim_type c) t) as [E|_];
          [symmetry in E; contradiction|].
        now rewrite app_nil_r.
    + rewrite keys_add.
      destruct (group_of (claim_type c) result) eqn:E; [exact Hk|].
      apply group_of_key in E.
      apply NoDup_app. split; [exact Hk|]. split; [|apply NoDup_singleton].
      intros x Hx Hx'. apply list_elem_of_singleton in Hx'. subst x.
      apply E. now apply list_elem_of_In.
    + rewrite sizes_add, length_app, Hs. simpl. lia.
Qed.

(** X19. Grouping by type: a type has an entry exactly when some
    claim has that type, and the entry lists the claims of that type in
    their original order; no type has two entries; and the entries
    together hold as many claims as there are. *)
Theorem claims_by_type_groups (all_claims : list Claim) :
  (forall t, group_of t (claims_by_type all_claims)
             = non_empty (of_type t all_claims))
  /\ NoDup (List.map fst (claims_by_type all_claims))
  /\ list_sum (List.map snd (by_type_counts all_claims))
     = List.length all_claims.
Proof.
  destruct (groups_fold all_claims [] [] ltac:(reflexivity)
              ltac:(constructor) eq_refl) as (H1 & H2 & H3).
  split; [exact H1|]. split; [exact H2|].
  unfold by_type_counts. rewrite List.map_map. exact H3.
Qed.

Example grouping_keeps_order :
  by_type_counts [claim_of RISK; claim_of BENEFIT; claim_of RISK]
  = [("risk", 2%nat); ("benefit", 1%nat)].
Proof. reflexivity. Qed.

(** X20. Claim types round-trip through their names, and every other
    name is read as the unknown type. *)
Theorem parse_claim_type_round_trip (type_str : string) :
  (forall t, _parse_claim_type (value t) = t)
  /\ ((forall t, t <> UNKNOWN -> type_str <> value t) ->
      _parse_claim_type type_str = UNKNOWN).
Proof.
  split; [intros t; destruct t; reflexivity|].
  intros H. unfold _parse_claim_type.
  assert (Hn : forall t, t <> UNKNOWN ->
                         String.eqb type_str (value t) = false).
  { intros t Ht. apply String.eqb_neq. now apply H. }
  pose proof (Hn BENEFIT ltac:(discriminate)) as H1.
  pose proof (Hn RISK ltac:(discriminate)) as H2.
  pose proof (Hn LIMITATION ltac:(discriminate)) as H3.
  pose proof (Hn EXAMPLE ltac:(discriminate)) as H4.
  pose proof (Hn METRIC ltac:(discriminate)) as H5.
  pose proof (Hn PRACTICE ltac:(discriminate)) as H6.
  pose proof (Hn FAILURE ltac:(discriminate)) as H7.
  cbn [value] in *.
  now rewrite H1, H2, H3, H4, H5, H6, H7.
Qed.

Lemma parse_claim_type_round_trip_witness :
  _parse_claim_type "opinion" = UNKNOWN.
Proof.
  apply (proj2 (parse_claim_type_round_trip "opinion")).
  intros t Ht. destruct t; discriminate.
Defined.

Section Extract.
Variable llm : string -> string -> string -> string + json.
Variable error_text : error -> string.

Lemma parse_claims_well_formed (raw_claims : list json)
    (src : SourceModel.Source) (claims : list Claim) :
  _parse_claims raw_claims src = inr claims ->
  (List.length claims <= List.length raw_claims)%nat
  /\ Forall (fun c => source_url c = SourceModel.url src
                      /\ source_title c = SourceModel.title src
                      /\ PyStr.strip (text c) = text c
                      /\ (MIN_CLAIM_LENGTH <= PyStr.len (text c))%nat
                      /\ confidence c = 0.8%Q) claims.
Proof.
  revert claims. induction raw_claims as [|raw rest IH]; intros claims.
  - intros [= <-]. split; [reflexivity | constructor].
  - cbn [_parse_claims].
    destruct raw as [| | | |l|members];
      try (intros H; destruct (IH claims H); split; [simpl; lia | assumption]).
    destruct (dict_get "text" members (JStr "")) as [| | |t| |];
      try discriminate.
    destruct (dict_get "type" members (JStr "unknown")) as [| | |ty| |];
      try discriminate.
    destruct (_parse_claims rest src) as [e|cl]; [discriminate|].
    destruct (IH cl eq_refl) as [Hlen Hall].
    destruct (negb (PyStr.truthy (PyStr.strip t))
              || (PyStr.len (PyStr.strip t) <? MIN_CLAIM_LENGTH)%nat) eqn:E;
      intros [= <-].
    + split; [simpl; lia | assumption].
    + split; [simpl; lia|]. constructor; [|exact Hall]. simpl.
      apply orb_false_elim in E. destruct E as [_ E].
      apply Nat.ltb_ge in E.
      repeat split; try assumption. apply SessionMore.strip_clean.
Qed.

Lemma filter_claims_keeps (P : Claim -> Prop) (claims : list Claim) :
  Forall P claims ->
  (List.length (_filter_claims claims) <= MAX_CLAIMS)%nat
  /\ Forall (fun c => P c /\ is_generic c = false) (_filter_claims claims).
Proof.
  intros H. unfold _filter_claims. split; [apply firstn_le_length|].
  apply Forall_take. apply List.Forall_forall. intros c Hc.
  apply List.filter_In in Hc. destruct Hc as [Hin Hg].
  split; [|now apply negb_true_iff in Hg].
  rewrite List.Forall_forall in H. now apply H.
Qed.

Lemma claims_of_response_well_formed (response : json)
    (src : SourceModel.Source) (claims : list Claim) :
  claims_of_response response src = inr claims ->
  (List.length claims <= MAX_CLAIMS)%nat
  /\ Forall (well_formed_claim src) claims.
Proof.
  unfold claims_of_response.
  destruct response as [| | | | |members]; try discriminate.
  destruct (py_iter _) as [e|raw]; [discriminate|].
  destruct (_parse_claims raw src) as [e|cl] eqn:E; [discriminate|].
  intros [= <-].
  destruct (parse_claims_well_formed raw src cl E) as [_ Hall].
  destruct (filter_claims_keeps _ cl Hall) as [Hlen Hf].
  split; [exact Hlen|].
  eapply List.Forall_impl; [|exact Hf].
  intros c [(H1 & H2 & H3 & H4 & H5) H6]. unfold well_formed_claim. tauto.
Qed.

Lemma extract_from_source_shape (src : SourceModel.Source) :
  let r := extract_from_source llm error_text src in
  Pipeline.sc_source_url r = SourceModel.url src
  /\ Pipeline.sc_source_title r = SourceModel.title src
  /\ (List.length (Pipeline.sc_claims r) <= MAX_CLAIMS)%nat
  /\ Forall (well_formed_claim src) (Pipeline.sc_claims r)
  /\ (Pipeline.extraction_error r <> None -> Pipeline.sc_claims r = []).
Proof.
  cbv zeta. unfold extract_from_source. cbv zeta.
  destruct (negb _ || _).
  { simpl. repeat split; [unfold MAX_CLAIMS; lia | constructor]. }
  destruct (llm _ _ _) as [message|response].
  { simpl. repeat split; [unfold MAX_CLAIMS; lia | constructor]. }
  destruct (claims_of_response response src) as [e|claims] eqn:E.
  { simpl. repeat split; [unfold MAX_CLAIMS; lia | constructor]. }
  destruct (claims_of_response_well_formed response src claims E)
    as [Hlen Hall].
  simpl. repeat split; try assumption. intros H. now contradiction H.
Qed.

(** X21. Whatever the LLM does, [extract_from_source] returns a
    record for the source it was given, with at most seven claims; each
    claim carries the url and the title of the source, a stripped text of
    at least 20 characters without any generic phrase, and confidence 0.8;
    and when an error is recorded there are no claims. *)
Theorem extract_from_source_guarantee (src : SourceModel.Source) :
  let r := extract_from_source llm error_text src in
  Pipeline.sc_source_url r = SourceModel.url src
  /\ Pipeline.sc_source_title r = SourceModel.title src
  /\ (List.length (Pipeline.sc_claims r) <= MAX_CLAIMS)%nat
  /\ Forall (well_formed_claim src) (Pipeline.sc_claims r)
  /\ (Pipeline.extraction_error r <> None -> Pipeline.sc_claims r = []).
Proof. apply extract_from_source_shape. Qed.

End Extract.

Lemma prompt_content_bound (content_ : string) :
  Extractor.zlen (prompt_content content_) <= MAX_CONTENT_FOR_LLM + 3.
Proof.
  unfold prompt_content, MAX_CONTENT_FOR_LLM.
  destruct (Z.ltb_spec 8000 (Extractor.zlen content_)).
  - unfold Extractor.zlen in *.
    rewrite ExtractorMore.len_append, ExtractorMore.len_slice_to.
    change (PyStr.len "...") with 3%nat. lia.
  - lia.
Qed.

(** X22. The LLM is consulted sparingly: a source whose content has
    fewer than 100 characters is answered "Insufficient content" without
    any call, and for any source the result depends on the LLM only through
    its answers to contents of at most 8003 characters. *)
Theorem extract_from_source_llm_use
    (llm llm' : string -> string -> string -> string + json)
    (error_text : error -> string) (src : SourceModel.Source) :
  (Extractor.zlen (SourceModel.content src) < 100 ->
   extract_from_source llm error_text src
   = source_claims src [] (Some "Insufficient content"))
  /\ ((forall t u c, Extractor.zlen c <= MAX_CONTENT_FOR_LLM + 3 ->
                     llm t u c = llm' t u c) ->
      extract_from_source llm error_text src
      = extract_from_source llm' error_text src).
Proof.
  unfold extract_from_source. cbv zeta. split.
  - intros H. apply Z.ltb_lt in H. rewrite H. now rewrite orb_true_r.
  - intros H. destruct (negb _ || _); [reflexivity|].
    now rewrite (H _ _ _ (prompt_content_bound _)).
Qed.

Lemma extract_from_source_llm_use_witness :
  extract_from_source llm_three error_name bare_source
  = source_claims bare_source [] (Some "Insufficient content").
Proof.
  apply (proj1 (extract_from_source_llm_use llm_three llm_three error_name
                  bare_source)).
  reflexivity.
Defined.

(** Of three claims the generic one and the short one are dropped; the
    type name is read in any case; an LLM that is down leaves an error. *)
Example three_claims_one_kept :
  let src := set_content_long in
  List.map (fun c => (text c, claim_type c))
    (Pipeline.sc_claims (extract_from_source llm_three error_name src))
  = [("Agents failed in 12% of the support tickets.", FAILURE)]
  /\ extract_from_source llm_down error_name src
     = source_claims src [] (Some "Connection error.").
Proof. vm_compute. split; reflexivity. Qed.

End ClaimsMore.

(** ** The evidence of a run *)

Module EvidenceMore.
Import Decision ClaimModel ClaimExtractor ClaimSpec EvidenceSpec Spec.
Import SourceModel.

Section WithLLM.
Variable llm : string -> string -> string -> string + json.
Variable error_text : error -> string.

Let extract := extract_from_source llm error_text.

(** X23. The evidence of [extract_all]: one record per source that
    has a content, in the order of the sources, under the url of its
    source; at most seven claims per source; and every claim of
    [all_claims] is a well-formed claim of one of the sources. *)
Theorem extract_all_evidence (sources : list Source) :
  let ev := extract_all llm error_text sources in
  List.map Pipeline.sc_source_url (Pipeline.claims_by_source ev)
  = List.map url (List.filter (fun s => PyStr.truthy (content s)) sources)
  /\ (List.length (Pipeline.all_claims ev)
      <= MAX_CLAIMS * List.length sources)%nat
  /\ Forall (fun c => exists s, In s sources /\ well_formed_claim s c)
       (Pipeline.all_claims ev).
Proof.
  cbv zeta. unfold extract_all, Pipeline.claims_extract_all.
  cbn [Pipeline.claims_by_source Pipeline.all_claims].
  induction sources as [|s rest IH].
  - simpl. repeat split; [lia | constructor].
  - destruct IH as (IH1 & IH2 & IH3).
    assert (IH3' : Forall (fun c => exists s0, In s0 (s :: rest)
                                               /\ well_formed_claim s0 c)
                     (List.concat (List.map Pipeline.sc_claims
                        (List.map (extract_from_source llm error_text)
                           (List.filter (fun s => PyStr.truthy (content s))
                              rest))))).
    { eapply List.Forall_impl; [|exact IH3].
      intros c [s0 [Hin Hw]]. exists s0. split; [now right | exact Hw]. }
    cbn [List.filter]. destruct (PyStr.truthy (content s)).
    + cbn [List.map List.concat].
      destruct (ClaimsMore.extract_from_source_shape llm error_text s)
        as (Hu & _ & Hlen & Hall & _).
      split; [now rewrite Hu, IH1|]. split.
      * rewrite length_app. cbn [List.length]. lia.
      * apply Forall_app. split; [|exact IH3'].
        eapply List.Forall_impl; [|exact Hall].
        intros c Hc. exists s. split; [now left | exact Hc].
    + split; [exact IH1|]. split; [cbn [List.length]; lia | exact IH3'].
Qed.

End WithLLM.

End EvidenceMore.

(** ** Each ranked source is scored with its own claims *)

Module RankedClaims.
Import Decision ClaimModel ClaimExtractor ClaimSpec EvidenceSpec Spec.
Import SourceModel Extractor.

Lemma fold_insert_other {V : Type} (k : V -> string) (v : V -> list Claim)
    (l : list V) (m : gmap string (list Claim)) (key : string) :
  ~ In key (List.map k l) ->
  fold_left (fun m x => <[k x := v x]> m) l m !! key = m !! key.
Proof.
  revert m. induction l as [|y l IH]; intros m Hnin; simpl; [reflexivity|].
  rewrite IH by (intros H; apply Hnin; now right).
  apply lookup_insert_ne. intros E. apply Hnin. now left.
Qed.

Lemma fold_insert_member {V : Type} (k : V -> string) (v : V -> list Claim)
    (l : list V) (m : gmap string (list Claim)) (x : V) :
  NoDup (List.map k l) -> In x l ->
  fold_left (fun m x => <[k x := v x]> m) l m !! k x = Some (v x).
Proof.
  revert m. induction l as [|y l IH]; intros m Hnd Hin; [contradiction|].
  simpl in Hnd. apply NoDup_cons in Hnd. destruct Hnd as [Hy Hnd].
  simpl. destruct Hin as [->|Hin].
  - rewrite fold_insert_other; [apply lookup_insert_eq|].
    intros H. apply Hy. now apply list_elem_of_In.
  - now apply IH.
Qed.

Lemma ranked_claims_from_dict now (l : list Source)
    (cbs : option (gmap string (list Claim))) :
  Forall (fun sc => Ranker.claims sc
                    = Ranker.claims_for cbs (url (Ranker.source sc)))
    (Ranker.ranked_sources (Ranker.rank_sources now l cbs)).
Proof.
  unfold Ranker.rank_sources. cbn [Ranker.ranked_sources].
  assert (Hs : Forall (fun sc => Ranker.claims sc
                         = Ranker.claims_for cbs (url (Ranker.source sc)))
                 (Ranker.sort_desc (Ranker.score_all now l cbs))).
  { eapply Permutation_Forall;
      [symmetry; apply RankerOrder.sort_desc_perm|].
    unfold Ranker.score_all.
    induction l as [|s l IH]; simpl; constructor; [reflexivity | exact IH]. }
  revert Hs. generalize (Ranker.sort_desc (Ranker.score_all now l cbs)).
  generalize 0%nat. intros i l0 Hs. revert i.
  induction Hs as [|sc l1 Hsc _ IH]; intros i; simpl; constructor;
    [exact Hsc | apply IH].
Qed.

Section WithRun.
Variable max_content_length : Z.
Variable preview_length : Z.
Variable http_get : string -> fetch_outcome.
Variable _extract_text : string -> string -> string + option string.
Variable llm : string -> string -> string -> string + json.
Variable error_text : ClaimExtractor.error -> string.

Let single := extract_single max_content_length preview_length http_get
                _extract_text.
Let extract := extract_from_source llm error_text.

Lemma extraction_keeps_url (s : Source) :
  url (er_source (snd (fst (single s)))) = url s.
Proof.
  subst single.
  destruct (PipelineProps.extract_single_assigned max_content_length
              preview_length http_get _extract_text s) as (_ & Hsame & Her).
  rewrite Her. unfold same_but_content in Hsame. now rewrite Hsame.
Qed.

(** The results carry pairwise different urls when the sources do and no
    index comes back twice. *)
Lemma result_urls_distinct (sources : list Source) (completion : list nat) :
  NoDup (List.map url sources) -> NoDup completion ->
  NoDup (List.map (fun r => url (er_source r))
           (snd (fst (extract_all max_content_length preview_length http_get
                        _extract_text sources completion)))).
Proof.
  intros Hurls Hcomp. unfold extract_all. cbn [fst snd]. fold single.
  induction Hcomp as [|i rest Hi Hrest IH]; [constructor|].
  cbn [omap list_omap]. rewrite PipelineProps.lookup_map.
  destruct (sources !! i) as [s|] eqn:Es; cbn [fmap option_fmap option_map];
    [|exact IH].
  cbn [List.map]. apply NoDup_cons. split; [|exact IH].
  rewrite extraction_keeps_url. intros Hin.
  apply list_elem_of_In, in_map_iff in Hin. destruct Hin as [r [Hr Hin]].
  apply list_elem_of_In, list_elem_of_omap in Hin.
  destruct Hin as [j [Hj Hrj]].
  rewrite PipelineProps.lookup_map in Hrj.
  destruct (sources !! j) as [s'|] eqn:Es'; [|discriminate].
  simpl in Hrj. injection Hrj as <-.
  rewrite extraction_keeps_url in Hr.
  assert (i = j).
  { apply (NoDup_lookup (List.map url sources) i j (url s)); [exact Hurls| |].
    - now rewrite PipelineProps.lookup_map, Es.
    - rewrite PipelineProps.lookup_map, Es'. simpl. now rewrite Hr. }
  subst j. contradiction.
Qed.

Lemma ranker_input_urls_distinct (sources : list Source)
    (completion : list nat) :
  NoDup (List.map url sources) -> NoDup completion ->
  NoDup (List.map url
           (ranker_input max_content_length preview_length http_get
              _extract_text sources completion)).
Proof.
  intros Hurls Hcomp. unfold ranker_input.
  pose proof (result_urls_distinct sources completion Hurls Hcomp) as Hnd.
  revert Hnd.
  generalize (snd (fst (extract_all max_content_length preview_length http_get
                          _extract_text sources completion))).
  intros rs Hnd.
  rewrite <- firstn_map. apply SearchProps.NoDup_prefix.
  rewrite List.map_map.
  induction rs as [|r rs IH]; [constructor|].
  simpl in Hnd. apply NoDup_cons in Hnd. destruct Hnd as [Hr Hnd].
  cbn [List.filter]. destruct (success r && (100 <? content_length r)).
  - cbn [List.map]. apply NoDup_cons. split; [|now apply IH].
    intros Hin. apply Hr.
    apply list_elem_of_In, in_map_iff in Hin. destruct Hin as [r' [E Hin]].
    apply List.filter_In in Hin. destruct Hin as [Hin _].
    apply list_elem_of_In, in_map_iff. exists r'. now split.
  - now apply IH.
Qed.

Lemma ranker_input_has_content (sources : list Source)
    (completion : list nat) (s : Source) :
  In s (ranker_input max_content_length preview_length http_get
          _extract_text sources completion) ->
  PyStr.truthy (content s) = true.
Proof.
  unfold ranker_input, extract_all. cbn [fst snd]. intros Hin.
  apply PipelineProps.In_firstn, in_map_iff in Hin.
  destruct Hin as [res [Hres Hin]].
  apply List.filter_In in Hin. destruct Hin as [Hin Hok].
  apply andb_prop in Hok. destruct Hok as [Hsucc Hlen].
  apply Z.ltb_lt in Hlen.
  apply list_elem_of_In, list_elem_of_omap in Hin.
  destruct Hin as [j [_ Hj]].
  rewrite PipelineProps.lookup_map in Hj.
  destruct (sources !! j) as [s0|]; [|discriminate].
  simpl in Hj. injection Hj as <-.
  destruct (PipelineMore.success_content max_content_length preview_length
              http_get _extract_text s0 Hsucc) as [Hc Hl].
  rewrite <- Hres, Hc. rewrite Hl in Hlen.
  destruct (er_content _); [discriminate Hlen | reflexivity].
Qed.

(** X24. Each ranked source is scored with its own claims: when the
    sources have pairwise different urls (as the search stage leaves them)
    and the pool hands back no source twice, the claims attached to a
    ranked source are exactly those [extract_from_source] returns for that
    source. *)
Theorem ranked_with_own_claims (now : datetime) (sources : list Source)
    (completion : list nat) :
  NoDup (List.map url sources) -> NoDup completion ->
  Forall (fun sc => Ranker.claims sc
                    = Pipeline.sc_claims (extract (Ranker.source sc)))
    (Ranker.ranked_sources
       (Pipeline.ranking
          (Pipeline.run_stages max_content_length preview_length http_get
             _extract_text extract now sources completion))).
Proof.
  intros Hurls Hcomp.
  set (input := ranker_input max_content_length preview_length http_get
                  _extract_text sources completion).
  change (Pipeline.ranking
            (Pipeline.run_stages max_content_length preview_length http_get
               _extract_text extract now sources completion))
    with (Ranker.rank_sources now input
            (Some (Pipeline.claims_dict
                     (Pipeline.claims_extract_all extract input)))).
  apply List.Forall_forall. intros sc Hsc.
  pose proof (ranked_claims_from_dict now input
    (Some (Pipeline.claims_dict (Pipeline.claims_extract_all extract input))))
    as Hall.
  rewrite List.Forall_forall in Hall. rewrite (Hall sc Hsc).
  apply PipelineProps.ranked_from_input in Hsc.
  assert (Hfilter : List.filter (fun s => PyStr.truthy (content s)) input
                    = input).
  { apply List.forallb_filter_id, List.forallb_forall.
    intros s Hs. now apply (ranker_input_has_content sources completion). }
  unfold Ranker.claims_for, Pipeline.claims_dict,
    Pipeline.claims_extract_all.
  cbn [Pipeline.claims_by_source]. rewrite Hfilter.
  assert (Hurl : forall s, Pipeline.sc_source_url (extract s) = url s).
  { intros s. subst extract.
    apply (ClaimsMore.extract_from_source_shape llm error_text s). }
  rewrite <- (Hurl (Ranker.source sc)).
  rewrite (fold_insert_member Pipeline.sc_source_url Pipeline.sc_claims
             (List.map extract input) ∅ (extract (Ranker.source sc))).
  - reflexivity.
  - rewrite List.map_map.
    rewrite (List.map_ext _ url) by exact Hurl.
    now apply ranker_input_urls_distinct.
  - now apply in_map.
Qed.

End WithRun.

Lemma ranked_with_own_claims_witness :
  Forall (fun sc => Ranker.claims sc
                    = Pipeline.sc_claims
                        (extract_from_source llm_three error_name
                           (Ranker.source sc)))
    (Ranker.ranked_sources
       (Pipeline.ranking
          (Pipeline.run_stages 15000 400 always_timeout no_text
             (extract_from_source llm_three error_name) 0
             [bare_source; long_snippet_source] [1%nat; 0%nat]))).
Proof.
  apply (ranked_with_own_claims 15000 400 always_timeout no_text llm_three
           error_name 0 [bare_source; long_snippet_source] [1%nat; 0%nat]).
  - cbn. apply NoDup_cons. split; [|apply NoDup_singleton].
    intros H. apply list_elem_of_singleton in H. discriminate H.
  - apply NoDup_cons. split; [|apply NoDup_singleton].
    intros H. apply list_elem_of_singleton in H. discriminate H.
Defined.

(** The one ranked source of that run carries the one claim that survives
    the filters. *)
Example ranked_source_with_its_claim :
  List.map (fun sc => (url (Ranker.source sc),
                       List.map text (Ranker.claims sc)))
    (Ranker.ranked_sources
       (Pipeline.ranking
          (Pipeline.run_stages 15000 400 always_timeout no_text
             (extract_from_source llm_three error_name) 0
             [bare_source; long_snippet_source] [1%nat; 0%nat])))
  = [("https://example.org/a3",
      ["Agents failed in 12% of the support tickets."])].
Proof. vm_compute. reflexivity. Qed.

End RankedClaims.

(** ** The planner *)

Module PlannerMore.
Import Decision Planner.

Lemma filter_sublist {A : Type} (f : A -> bool) (l : list A) :
  List.filter f l `sublist_of` l.
Proof.
  induction l as [|x l IH]; simpl; [constructor|].
  destruct (f x); now constructor.
Qed.

Section WithStr.
Variable py_str : json -> string.

Let cleaned_text (x : json) : string := PyStr.strip (py_str x).

(** The invariant of the cleaning loop, for the items read so far. *)
Lemma clean_fold (items pre : list json) (st : gset string * list string) :
  NoDup (List.map PyStr.lower (snd st)) ->
  (forall q, In q (snd st) -> PyStr.lower q ∈ fst st) ->
  Forall (fun q => q <> "" /\ PyStr.strip q = q) (snd st) ->
  snd st `sublist_of` List.map cleaned_text pre ->
  let final := fold_left (clean_step py_str) items st in
  NoDup (List.map PyStr.lower (snd final))
  /\ Forall (fun q => q <> "" /\ PyStr.strip q = q) (snd final)
  /\ snd final `sublist_of` List.map cleaned_text (pre ++ items).
Proof.
  revert pre st. induction items as [|x items IH];
    intros pre st Hnd Hseen Hgood Hsub; cbv zeta.
  - simpl. rewrite app_nil_r. now split.
  - cbn [fold_left].
    replace (pre ++ x :: items)%list with ((pre ++ [x]) ++ items)%list
      by (rewrite <- app_assoc; reflexivity).
    destruct st as [seen cleaned]. simpl in Hnd, Hseen, Hgood, Hsub.
    assert (Hskip : cleaned `sublist_of` List.map cleaned_text (pre ++ [x])).
    { rewrite List.map_app. now apply sublist_inserts_r. }
    unfold clean_step at 2 4 6.
    destruct (PyStr.truthy (PyStr.strip (py_str x))) eqn:Et; cbn [negb].
    + destruct (decide (PyStr.lower (PyStr.strip (py_str x)) ∈ seen))
        as [Hin|Hnin].
      * now apply IH.
      * apply IH; cbn [fst snd].
        -- rewrite List.map_app. apply NoDup_app. split; [exact Hnd|].
           split; [|apply NoDup_singleton].
           intros q Hq Hq'. apply list_elem_of_singleton in Hq'. subst q.
           apply list_elem_of_In, in_map_iff in Hq.
           destruct Hq as [q [Hq Hin]]. apply Hseen in Hin.
           rewrite Hq in Hin. contradiction.
        -- intros q Hq. apply in_app_or in Hq. destruct Hq as [Hq|[<-|[]]].
           ++ apply Hseen in Hq. apply elem_of_union. now right.
           ++ apply elem_of_union. left. now apply elem_of_singleton.
        -- apply Forall_app. split; [exact Hgood|].
           constructor; [|constructor]. split.
           ++ intros E. rewrite E in Et. discriminate.
           ++ apply SessionMore.strip_clean.
        -- rewrite List.map_app. apply sublist_app; [exact Hsub|].
           reflexivity.
    + now apply IH.
Qed.

Lemma clean_result (items : list json) :
  let out := _validate_and_clean py_str items in
  (List.length out <= MAX_SUB_QUESTIONS)%nat
  /\ NoDup (List.map PyStr.lower out)
  /\ Forall (fun q => q <> "" /\ PyStr.strip q = q) out
  /\ out `sublist_of` List.map (fun x => PyStr.strip (py_str x)) items.
Proof.
  cbv zeta. unfold _validate_and_clean.
  destruct (clean_fold items [] (∅, []) ltac:(constructor)
              ltac:(intros q []) ltac:(constructor) ltac:(constructor))
    as (Hnd & Hgood & Hsub).
  simpl in Hsub.
  split; [apply firstn_le_length|]. split; [|split].
  - rewrite <- firstn_map. now apply SearchProps.NoDup_prefix.
  - now apply Forall_take.
  - etransitivity; [apply sublist_take | exact Hsub].
Qed.

(** X25. Cleaning the sub-questions: at most seven come out; none is
    empty or has surrounding white space; no two are equal up to case; and
    they are stripped input items in their original order. *)
Theorem validate_and_clean_result (items : list json) :
  let out := _validate_and_clean py_str items in
  (List.length out <= MAX_SUB_QUESTIONS)%nat
  /\ NoDup (List.map PyStr.lower out)
  /\ Forall (fun q => q <> "" /\ PyStr.strip q = q) out
  /\ out `sublist_of` List.map (fun x => PyStr.strip (py_str x)) items.
Proof. apply clean_result. Qed.

(** X26. The quality check fails exactly as [decompose] fails;
    otherwise it keeps the question, returns sub-questions of [decompose]
    in their order, never fewer than four unless [decompose] itself gave
    fewer, and either returns them all or only such as pass the test. *)
Theorem quality_check_result (llm : string + json) (question : string) :
  match decompose py_str llm question,
        decompose_with_quality_check py_str llm question with
  | inl e, inl e' => e = e'
  | inr before, inr after =>
      original_question after = question
      /\ sub_questions after `sublist_of` sub_questions before
      /\ (Nat.min MIN_SUB_QUESTIONS (List.length (sub_questions before))
          <= List.length (sub_questions after))%nat
      /\ (sub_questions after = sub_questions before
          \/ Forall (fun sq => passes_quality question sq = true)
               (sub_questions after))
  | _, _ => False
  end.
Proof.
  unfold decompose_with_quality_check.
  destruct (decompose py_str llm question) as [e|before] eqn:E;
    [reflexivity|].
  assert (Hq : original_question before = question).
  { unfold decompose in E. destruct llm as [m|[| | | | |members]];
      try discriminate.
    destruct (ClaimExtractor.py_iter _); [discriminate|].
    now injection E as <-. }
  cbv zeta.
  destruct (Nat.leb_spec MIN_SUB_QUESTIONS
              (List.length (List.filter (passes_quality question)
                              (sub_questions before)))) as [Hge|Hlt];
    cbn [original_question sub_questions].
  - split; [exact Hq|]. split; [apply filter_sublist|]. split; [lia|].
    right. apply List.Forall_forall. intros sq Hsq.
    apply List.filter_In in Hsq. apply Hsq.
  - split; [exact Hq|]. split; [reflexivity|]. split; [lia|]. now left.
Qed.

End WithStr.

(** Duplicates up to case and blank items go; of the rest, the vague ones
    go only if four remain. *)
Example clean_and_check :
  _validate_and_clean str_of_string
    [JStr " What fails? "; JStr "what FAILS?"; JStr "   "; JStr "Who pays?"]
  = ["What fails?"; "Who pays?"]
  /\ decompose_with_quality_check str_of_string
       (answer_with
          ["What is an agent?"; "How do agents fail?"; "Who pays for agents?";
           "Which guardrails exist?"; "Should we adopt AI agents"])
       "Should we adopt AI agents?"
     = inr {| original_question := "Should we adopt AI agents?";
              sub_questions :=
                ["What is an agent?"; "How do agents fail?";
                 "Who pays for agents?"; "Which guardrails exist?";
                 "Should we adopt AI agents"] |}
  /\ decompose_with_quality_check str_of_string
       (answer_with
          ["What is an agent?"; "How do agents fail?"; "Who pays for agents?";
           "Which guardrails exist?"; "Where do agents succeed?"])
       "Should we adopt AI agents?"
     = inr {| original_question := "Should we adopt AI agents?";
              sub_questions :=
                ["How do agents fail?"; "Who pays for agents?";
                 "Which guardrails exist?"; "Where do agents succeed?"] |}.
Proof. vm_compute. repeat split; reflexivity. Qed.

End PlannerMore.

(** ** Actionable ratio and session ids *)

Module RatioMore.
Import ClaimModel.
Local Open Scope Q_scope.

Lemma filter_all {A : Type} (f : A -> bool) (l : list A) :
  List.length (List.filter f l) = List.length l
  <-> Forall (fun x => f x = true) l.
Proof.
  induction l as [|x l IH]; simpl.
  - split; [constructor | reflexivity].
  - pose proof (List.filter_length_le f l) as Hle.
    destruct (f x) eqn:E; simpl.
    + split.
      * intros H. constructor; [exact E | apply IH; lia].
      * intros H. apply Forall_cons in H. destruct H as [_ H].
        apply IH in H. lia.
    + split; [lia|]. intros H. apply Forall_cons in H.
      destruct H as [H _]. congruence.
Qed.

Lemma ratio_equals (a n : nat) (y : Z) :
  (0 < n)%nat ->
  inject_Z (Z.of_nat a) / inject_Z (Z.of_nat n) == inject_Z y
  <-> (Z.of_nat a = y * Z.of_nat n)%Z.
Proof.
  intros Hn.
  assert (Hn' : ~ inject_Z (Z.of_nat n) == 0).
  { intros H. change 0 with (inject_Z 0) in H.
    apply (proj1 (inject_Z_injective _ _)) in H. lia. }
  split.
  - intros H. apply (proj1 (inject_Z_injective _ _)).
    rewrite inject_Z_mult, <- H.
    now rewrite Qmult_comm, Qmult_div_r.
  - intros H. rewrite H, inject_Z_mult. now apply Qdiv_mult_l.
Qed.

(** X27. The actionable ratio lies in [0, 1]; it is 0 exactly when no
    claim is actionable, and, for a non-empty list, 1 exactly when every
    claim is. *)
Theorem actionable_ratio_range (all_claims : list Claim) :
  0 <= actionable_ratio all_claims <= 1
  /\ (actionable_ratio all_claims == 0 <-> count_actionable all_claims = 0%nat)
  /\ (all_claims <> [] ->
      (actionable_ratio all_claims == 1
       <-> Forall (fun c => is_actionable c = true) all_claims)).
Proof.
  destruct all_claims as [|c cl].
  - split; [simpl; lra|]. split; [|intros H; contradiction].
    split; reflexivity.
  - unfold actionable_ratio.
    assert (Hpos : (0 < List.length (c :: cl))%nat) by (simpl; lia).
    split; [|split].
    + apply ScoreProps.ratio_bounds; [apply ScoreProps.count_actionable_le|].
      exact Hpos.
    + change 0 with (inject_Z 0). rewrite (ratio_equals _ _ 0 Hpos).
      split; intros H; lia.
    + intros _. change 1 with (inject_Z 1).
      rewrite (ratio_equals _ _ 1 Hpos).
      unfold count_actionable. rewrite <- filter_all.
      split; intros H; lia.
Qed.

Lemma actionable_ratio_range_witness :
  actionable_ratio [Spec.claim_of RISK; Spec.claim_of FAILURE] == 1
  <-> Forall (fun c => is_actionable c = true)
        [Spec.claim_of RISK; Spec.claim_of FAILURE].
Proof.
  apply (proj2 (proj2 (actionable_ratio_range
                         [Spec.claim_of RISK; Spec.claim_of FAILURE]))).
  discriminate.
Defined.

End RatioMore.

Module SessionIds.
Import SessionModel.

Lemma append_cancel_l (a b c : string) : a ++ b = a ++ c -> b = c.
Proof.
  induction a as [|x a IH]; [easy|].
  change (String x (a ++ b) = String x (a ++ c) -> b = c).
  intros [= H]. now apply IH.
Qed.

Section WithClock.
Variable strftime_ymd : SourceModel.datetime -> string.

(** X28. Session ids begin with "run_", and two ids generated at the
    same clock reading are equal exactly when the two uuids agree on their
    first eight characters. *)
Theorem session_id_collision (now : SourceModel.datetime)
    (uuid1 uuid2 : string) :
  PyStr.startswith "run_" (generate_session_id strftime_ymd now uuid1) = true
  /\ (generate_session_id strftime_ymd now uuid1
      = generate_session_id strftime_ymd now uuid2
      <-> PyStr.slice_to 8 uuid1 = PyStr.slice_to 8 uuid2).
Proof.
  unfold generate_session_id. split; [reflexivity|]. split.
  - intros H.
    apply (append_cancel_l "run_"), append_cancel_l,
      (append_cancel_l "_") in H.
    exact H.
  - now intros ->.
Qed.

End WithClock.

Example two_ids_of_one_day :
  generate_session_id Spec.fixed_date 0 "a1b2c3d4e5f60718293a4b5c6d7e8f90"
  = "run_2025_12_28_a1b2c3d4"
  /\ generate_session_id Spec.fixed_date 0 "a1b2c3d4ffffffffffffffffffffffff"
     = "run_2025_12_28_a1b2c3d4".
Proof. split; reflexivity. Qed.

End SessionIds.
